(** * The Gantt viewport controller (anychart.core.gantt.Controller)

    A shallow embedding of [src/core/gantt/Controller.js]: the height cache
    and its two queries, the position resolver [recalculate], the anchor
    setters, the two tree passes ([linearizeData_], [getVisibleData_]) and
    the scrolling entry point [scrollTo].

    Numbers.  The controller only does additions, subtractions and
    comparisons on row indexes and pixel heights, and uses [NaN] as the
    "unset" sentinel.  A JavaScript number is therefore modelled as an
    integer or [NaN]; fractional and infinite values are outside the model.
    Comparisons, [Math.min] and [Math.max] are exact on all doubles, and
    [+] and [-] are exact on integers as long as the operands and the
    result stay within 2^53 in magnitude; beyond that, and on fractions,
    the code rounds where the model does not.  The statements that relate
    several sums to each other (the differences of the height cache, the
    overflow regimes of [recalculate], the scrolling operations) therefore
    assume that the quantities involved are integers of magnitude at most
    2^50 ([smallInteger], [exactRows], [exactPixels]), which keeps every
    sum the code forms inside the exact range. *)

From stdpp Require Import gmap strings list.

Local Open Scope Z_scope.

(** ** JavaScript numbers *)

Inductive number : Type :=
  | NaN
  | Num (z : Z).

#[global] Instance number_eq_dec : EqDecision number.
Proof. solve_decision. Defined.

Module JS.

(** [isNaN(x)] *)
Definition isNaN (x : number) : bool :=
  match x with NaN => true | Num _ => false end.

(** [a + b] *)
Definition add (a b : number) : number :=
  match a, b with Num x, Num y => Num (x + y) | _, _ => NaN end.

(** [a - b] *)
Definition sub (a b : number) : number :=
  match a, b with Num x, Num y => Num (x - y) | _, _ => NaN end.

(** [a < b]; any comparison with [NaN] is false. *)
Definition lt (a b : number) : bool :=
  match a, b with Num x, Num y => x <? y | _, _ => false end.

(** [a > b] *)
Definition gt (a b : number) : bool :=
  match a, b with Num x, Num y => y <? x | _, _ => false end.

(** [a >= b] *)
Definition ge (a b : number) : bool :=
  match a, b with Num x, Num y => y <=? x | _, _ => false end.

(** [a == b] on numbers; [NaN == NaN] is false. *)
Definition eq (a b : number) : bool :=
  match a, b with Num x, Num y => x =? y | _, _ => false end.

(** [a != b] on numbers; [NaN != x] is true. *)
Definition neq (a b : number) : bool := negb (eq a b).

(** Truthiness of a number: [0] and [NaN] are falsy. *)
Definition truthy (a : number) : bool :=
  match a with Num z => negb (z =? 0) | NaN => false end.

(** [Math.min(a, b)] *)
Definition min (a b : number) : number :=
  match a, b with Num x, Num y => Num (Z.min x y) | _, _ => NaN end.

(** [Math.max(a, b)] *)
Definition max (a b : number) : number :=
  match a, b with Num x, Num y => Num (Z.max x y) | _, _ => NaN end.

(** Reading [arr[i]]: [None] is [undefined] (index out of range, negative
    or [NaN]). *)
Definition get (arr : list Z) (i : number) : option Z :=
  match i with
  | Num z => if 0 <=? z then arr !! Z.to_nat z else None
  | NaN => None
  end.

(** An array element used as an operand of [+] or [-]: [undefined]
    becomes [NaN]. *)
Definition toNumber (v : option Z) : number :=
  match v with Some z => Num z | None => NaN end.

(** [v || 0] for an array element [v]. *)
Definition orZero (v : option Z) : number :=
  match v with Some z => Num z | None => Num 0 end.

(** [arr.length] *)
Definition length {A : Type} (arr : list A) : number :=
  Num (Z.of_nat (List.length arr)).

End JS.

(** ** goog.array.binarySearch *)

(** [goog.array.defaultCompare] *)
Definition defaultCompare (a b : number) : Z :=
  if JS.gt a b then 1 else if JS.lt a b then -1 else 0.

(** Modelled from the spec: [goog.array.binarySearch] belongs to the Closure
    Library, which is not under src/.  The spec describes it as a
    lower-bound binary search over the cumulative sums; this is the
    library's loop: [left] inclusive, [right] exclusive,
    [middle = (left + right) >> 1], go right when the target is greater
    than the middle element, otherwise go left and remember whether the
    middle element compared equal.  The fuel bounds the number of loop
    iterations; [binarySearch_loop_exit] shows it is never exhausted.
    [>>] and [~] work on 32-bit integers in JavaScript; on array lengths
    below 2^30 they agree with [Z.shiftr] and [Z.lnot]. *)
Fixpoint binarySearch_loop (fuel : nat) (arr : list Z) (target : number)
    (left right : Z) (found : bool) : Z * Z * bool :=
  match fuel with
  | O => (left, right, found)
  | S fuel' =>
      if left <? right then
        let middle := Z.shiftr (left + right) 1 in
        let compareResult :=
          defaultCompare target (JS.toNumber (JS.get arr (Num middle))) in
        if 0 <? compareResult
        then binarySearch_loop fuel' arr target (middle + 1) right found
        else binarySearch_loop fuel' arr target left middle (compareResult =? 0)
      else (left, right, found)
  end.

(** The position the loop ends at ([left] on exit). *)
Definition searchPosition (arr : list Z) (target : number) : Z :=
  (binarySearch_loop (List.length arr) arr target 0
     (Z.of_nat (List.length arr)) false).1.1.

(** [found ? left : ~left] *)
Definition binarySearch (arr : list Z) (target : number) : Z :=
  let '(index, _, found) :=
    binarySearch_loop (List.length arr) arr target 0 (Z.of_nat (List.length arr)) false in
  if found then index else Z.lnot index.

(** ** Height cache queries *)

(** [getHeightByIndexes_(startIndex, opt_endIndex)]; [opt_endIndex = None]
    is the call with one argument. *)
Definition getHeightByIndexes_ (heightCache_ : list Z)
    (startIndex : number) (opt_endIndex : option number) : number :=
  if negb (JS.truthy (JS.length heightCache_)) then Num 0 else
  let cacheEnd := JS.sub (JS.length heightCache_) (Num 1) in
  let startIndex := JS.min startIndex cacheEnd in
  let opt_endIndex :=
    match opt_endIndex with
    | Some e => JS.min e cacheEnd
    | None => cacheEnd
    end in
  let '(startIndex, opt_endIndex) :=
    if JS.gt startIndex opt_endIndex then
      let startIndex := JS.sub startIndex opt_endIndex in
      let opt_endIndex := JS.add opt_endIndex startIndex in
      let startIndex := JS.sub opt_endIndex startIndex in
      (startIndex, opt_endIndex)
    else (startIndex, opt_endIndex) in
  let startHeight := JS.orZero (JS.get heightCache_ (JS.sub startIndex (Num 1))) in
  JS.sub (JS.toNumber (JS.get heightCache_ opt_endIndex)) startHeight.

(** [getIndexByHeight_(height)] *)
Definition getIndexByHeight_ (heightCache_ : list Z) (height : number) : number :=
  let index := binarySearch heightCache_ height in
  Num (if 0 <=? index then index else Z.lnot index).

(** ** Data model *)

(** A raw field value as far as the controller inspects it: the date checks
    only ask whether the value is of type number. *)
Inductive jsval : Type :=
  | JUndefined
  | JNumber (n : number)
  | JString (s : string).

(** [goog.isNumber(v)] *)
Definition isNumber (v : jsval) : bool :=
  match v with JNumber _ => true | _ => false end.

(** The numeric content of a value already known to be a number. *)
Definition asNumber (v : jsval) : number :=
  match v with JNumber n => n | _ => NaN end.

(** A period of a resource: a raw object of the [periods] array.
    [period_id] is the property key its [id] field converts to. *)
Record Period : Type := mkPeriod {
  period_id : string;
  period_start : jsval;
  period_end : jsval
}.

#[global] Instance jsval_eq_dec : EqDecision jsval.
Proof. solve_decision. Defined.

#[global] Instance Period_eq_dec : EqDecision Period.
Proof. solve_decision. Defined.

(** A tree data item: the fields the controller reads with [item.get] and
    the meta slots it writes with [item.meta].
    [rowHeight] is [anychart.utils.toNumber(item.get(ROW_HEIGHT))]: [NaN]
    when the override is absent or not numeric.  [periods] is [Some] when
    the field is an array.  [collapsed] and [meta_collapsed] are [None]
    when undefined. *)
Record DataItem : Type := mkItem {
  actualStart : jsval;
  actualEnd : jsval;
  baselineStart : jsval;
  baselineEnd : jsval;
  rowHeight : number;
  periods : option (list Period);
  collapsed : option bool;
  meta_depth : option Z;
  meta_index : option Z;
  meta_collapsed : option bool
}.

(** The tree: every node carries its item and its children in order; a
    tree ([anychart.data.Tree]) is the list of its roots. *)
Unset Elimination Schemes.
Inductive TreeNode : Type :=
  | Node (item : DataItem) (children : list TreeNode).
Set Elimination Schemes.

(** [item.meta('depth', d).meta('index', i)] *)
Definition set_meta_position (d i : Z) (it : DataItem) : DataItem :=
  {| actualStart := actualStart it; actualEnd := actualEnd it;
     baselineStart := baselineStart it; baselineEnd := baselineEnd it;
     rowHeight := rowHeight it; periods := periods it;
     collapsed := collapsed it;
     meta_depth := Some d; meta_index := Some i;
     meta_collapsed := meta_collapsed it |}.

(** [item.meta(COLLAPSED, v)] *)
Definition set_meta_collapsed (v : option bool) (it : DataItem) : DataItem :=
  {| actualStart := actualStart it; actualEnd := actualEnd it;
     baselineStart := baselineStart it; baselineEnd := baselineEnd it;
     rowHeight := rowHeight it; periods := periods it;
     collapsed := collapsed it;
     meta_depth := meta_depth it; meta_index := meta_index it;
     meta_collapsed := v |}.

(** Consistency states of the controller. *)
Inductive ConsistencyState : Type := DATA | VISIBILITY | POSITION.

(** The dirty bits, one per supported consistency state. *)
Record Consistency : Type := mkConsistency {
  dirty_DATA : bool;
  dirty_VISIBILITY : bool;
  dirty_POSITION : bool
}.

(** The controller's fields.  [data_ = None] is the [null] tree; the
    collapse-aware traverser [expandedItemsTraverser_] is set together with
    [data_] and walks the same tree, so it is not a field of its own.  The
    data grid, the timeline and the scroll bar are sinks and are left out.
    [visibleData_] holds the items as they were when the rows were built;
    no statement below reads their meta slots after a later pass. *)
Record Controller : Type := mkController {
  isResourceChart_ : bool;
  periodsMap_ : gmap string Period;
  data_ : option (list TreeNode);
  visibleData_ : list DataItem;
  heightCache_ : list Z;
  startIndex_ : number;
  endIndex_ : number;
  verticalOffset_ : number;
  availableHeight_ : number;
  positionRecalculated_ : bool;
  minDate_ : number;
  maxDate_ : number;
  consistency_ : Consistency
}.

(** Field updates. *)

Definition set_periodsMap_ (v : gmap string Period) (c : Controller) : Controller :=
  mkController (isResourceChart_ c) v (data_ c) (visibleData_ c)
    (heightCache_ c) (startIndex_ c) (endIndex_ c) (verticalOffset_ c)
    (availableHeight_ c) (positionRecalculated_ c) (minDate_ c) (maxDate_ c)
    (consistency_ c).

Definition set_data_ (v : option (list TreeNode)) (c : Controller) : Controller :=
  mkController (isResourceChart_ c) (periodsMap_ c) v (visibleData_ c)
    (heightCache_ c) (startIndex_ c) (endIndex_ c) (verticalOffset_ c)
    (availableHeight_ c) (positionRecalculated_ c) (minDate_ c) (maxDate_ c)
    (consistency_ c).

Definition set_visible (rows : list DataItem) (cache : list Z) (c : Controller)
    : Controller :=
  mkController (isResourceChart_ c) (periodsMap_ c) (data_ c) rows
    cache (startIndex_ c) (endIndex_ c) (verticalOffset_ c)
    (availableHeight_ c) (positionRecalculated_ c) (minDate_ c) (maxDate_ c)
    (consistency_ c).

Definition set_startIndex_ (v : number) (c : Controller) : Controller :=
  mkController (isResourceChart_ c) (periodsMap_ c) (data_ c) (visibleData_ c)
    (heightCache_ c) v (endIndex_ c) (verticalOffset_ c)
    (availableHeight_ c) (positionRecalculated_ c) (minDate_ c) (maxDate_ c)
    (consistency_ c).

Definition set_endIndex_ (v : number) (c : Controller) : Controller :=
  mkController (isResourceChart_ c) (periodsMap_ c) (data_ c) (visibleData_ c)
    (heightCache_ c) (startIndex_ c) v (verticalOffset_ c)
    (availableHeight_ c) (positionRecalculated_ c) (minDate_ c) (maxDate_ c)
    (consistency_ c).

Definition set_verticalOffset_ (v : number) (c : Controller) : Controller :=
  mkController (isResourceChart_ c) (periodsMap_ c) (data_ c) (visibleData_ c)
    (heightCache_ c) (startIndex_ c) (endIndex_ c) v
    (availableHeight_ c) (positionRecalculated_ c) (minDate_ c) (maxDate_ c)
    (consistency_ c).

Definition set_availableHeight_ (v : number) (c : Controller) : Controller :=
  mkController (isResourceChart_ c) (periodsMap_ c) (data_ c) (visibleData_ c)
    (heightCache_ c) (startIndex_ c) (endIndex_ c) (verticalOffset_ c)
    v (positionRecalculated_ c) (minDate_ c) (maxDate_ c)
    (consistency_ c).

Definition set_positionRecalculated_ (v : bool) (c : Controller) : Controller :=
  mkController (isResourceChart_ c) (periodsMap_ c) (data_ c) (visibleData_ c)
    (heightCache_ c) (startIndex_ c) (endIndex_ c) (verticalOffset_ c)
    (availableHeight_ c) v (minDate_ c) (maxDate_ c)
    (consistency_ c).

Definition set_minDate_ (v : number) (c : Controller) : Controller :=
  mkController (isResourceChart_ c) (periodsMap_ c) (data_ c) (visibleData_ c)
    (heightCache_ c) (startIndex_ c) (endIndex_ c) (verticalOffset_ c)
    (availableHeight_ c) (positionRecalculated_ c) v (maxDate_ c)
    (consistency_ c).

Definition set_maxDate_ (v : number) (c : Controller) : Controller :=
  mkController (isResourceChart_ c) (periodsMap_ c) (data_ c) (visibleData_ c)
    (heightCache_ c) (startIndex_ c) (endIndex_ c) (verticalOffset_ c)
    (availableHeight_ c) (positionRecalculated_ c) (minDate_ c) v
    (consistency_ c).

Definition set_consistency_ (v : Consistency) (c : Controller) : Controller :=
  mkController (isResourceChart_ c) (periodsMap_ c) (data_ c) (visibleData_ c)
    (heightCache_ c) (startIndex_ c) (endIndex_ c) (verticalOffset_ c)
    (availableHeight_ c) (positionRecalculated_ c) (minDate_ c) (maxDate_ c)
    v.

(** ** Consistency bookkeeping *)

(** Modelled from the spec: [anychart.core.Base], which keeps the
    consistency states, is not under src/.  The spec has independent dirty
    bits DATA, VISIBILITY and POSITION; [invalidate] marks one dirty,
    [markConsistent] marks it clean.  Signal dispatching (and its
    suspension) does not touch the controller's fields and is left out. *)
Definition invalidate (st : ConsistencyState) (c : Controller) : Controller :=
  let k := consistency_ c in
  set_consistency_
    match st with
    | DATA => mkConsistency true (dirty_VISIBILITY k) (dirty_POSITION k)
    | VISIBILITY => mkConsistency (dirty_DATA k) true (dirty_POSITION k)
    | POSITION => mkConsistency (dirty_DATA k) (dirty_VISIBILITY k) true
    end c.

Definition markConsistent (st : ConsistencyState) (c : Controller) : Controller :=
  let k := consistency_ c in
  set_consistency_
    match st with
    | DATA => mkConsistency false (dirty_VISIBILITY k) (dirty_POSITION k)
    | VISIBILITY => mkConsistency (dirty_DATA k) false (dirty_POSITION k)
    | POSITION => mkConsistency (dirty_DATA k) (dirty_VISIBILITY k) false
    end c.

Definition hasInvalidationState (st : ConsistencyState) (c : Controller) : bool :=
  match st with
  | DATA => dirty_DATA (consistency_ c)
  | VISIBILITY => dirty_VISIBILITY (consistency_ c)
  | POSITION => dirty_POSITION (consistency_ c)
  end.

Definition isConsistent (c : Controller) : bool :=
  negb (dirty_DATA (consistency_ c) || dirty_VISIBILITY (consistency_ c)
        || dirty_POSITION (consistency_ c)).

(** ** Tree traversal *)

(** Modelled from the spec: the traverser of [anychart.data.Tree] is not
    under src/.  The spec gives a pre-order walk over the nodes that, when
    a per-node "descend?" predicate is set and false at a node, still
    visits the node but not its children.  [traverse] is the sequence of
    items that [advance()]/[current()] yield. *)
Fixpoint traverseNode (traverseChildrenCondition : DataItem -> bool)
    (t : TreeNode) : list DataItem :=
  match t with
  | Node item children =>
      item :: (if traverseChildrenCondition item
               then flat_map (traverseNode traverseChildrenCondition) children
               else [])
  end.

Definition traverse (traverseChildrenCondition : DataItem -> bool)
    (tree : list TreeNode) : list DataItem :=
  flat_map (traverseNode traverseChildrenCondition) tree.

(** The full-passage traverser has no condition: it descends everywhere. *)
Definition fullPassage (tree : list TreeNode) : list DataItem :=
  traverse (fun _ => true) tree.

(** [traverseChildrenCondition_(item)]: [!item.meta(COLLAPSED)] *)
Definition traverseChildrenCondition_ (item : DataItem) : bool :=
  negb (match meta_collapsed item with Some b => b | None => false end).

(** ** Linearizer *)

(** [checkDate_(date)] *)
Definition checkDate_ (date : jsval) (c : Controller) : Controller :=
  if isNumber date && negb (JS.isNaN (asNumber date)) then
    let date := asNumber date in
    let c :=
      if JS.isNaN (minDate_ c)
      then set_maxDate_ date (set_minDate_ date c)
      else c in
    let c := if JS.lt date (minDate_ c) then set_minDate_ date c else c in
    let c := if JS.gt date (maxDate_ c) then set_maxDate_ date c else c in
    c
  else c.

(** The property names a fresh object [{}] inherits from
    [Object.prototype]; reading any of them yields a function (or, for
    [__proto__], the prototype), which is truthy. *)
Definition Object_prototype : list string :=
  ["constructor"; "hasOwnProperty"; "isPrototypeOf"; "propertyIsEnumerable";
   "toLocaleString"; "toString"; "valueOf"; "__defineGetter__";
   "__defineSetter__"; "__lookupGetter__"; "__lookupSetter__"; "__proto__"]%string.

(** Truthiness of [map[key]] for an object that started as [{}] and only
    received period objects: true for an own entry and for an inherited
    property. *)
Definition truthyAt (map : gmap string Period) (key : string) : bool :=
  bool_decide (is_Some (map !! key)) || bool_decide (key ∈ Object_prototype).

(** One turn of the loop over the [periods] array. *)
Definition indexPeriod (c : Controller) (period : Period) : Controller :=
  let periodId := period_id period in
  let c :=
    if negb (truthyAt (periodsMap_ c) periodId)
    then set_periodsMap_ (<[periodId := period]> (periodsMap_ c)) c
    else c in
  let c := checkDate_ (period_start period) c in
  checkDate_ (period_end period) c.

(** The body of the [while] loop of [linearizeData_] for one item, at the
    traverser's depth and with [numChildren] children. *)
Definition linearizeItem (depth linearIndex : Z) (numChildren : nat)
    (item : DataItem) (c : Controller) : DataItem * Controller :=
  let c := checkDate_ (actualStart item) c in
  let c := checkDate_ (actualEnd item) c in
  let c := checkDate_ (baselineStart item) c in
  let c := checkDate_ (baselineEnd item) c in
  let item := set_meta_position depth linearIndex item in
  let c :=
    if isResourceChart_ c then
      let c := set_periodsMap_ ∅ c in
      match periods item with
      | Some ps => fold_left indexPeriod ps c
      | None => c
      end
    else c in
  let item :=
    if negb (Nat.eqb numChildren 0) && bool_decide (is_Some (collapsed item))
    then set_meta_collapsed (collapsed item) item
    else item in
  (item, c).

(** The loop of [linearizeData_] over one subtree; the state threaded
    through the walk is the running [linearIndex] and the controller. *)
Fixpoint linearizeNode (depth : Z) (t : TreeNode) (st : Z * Controller)
    : TreeNode * (Z * Controller) :=
  match t with
  | Node item children =>
      let '(item', c') :=
        linearizeItem depth st.1 (List.length children) item st.2 in
      let '(children', st') :=
        (fix siblings (ts : list TreeNode) (st : Z * Controller)
           : list TreeNode * (Z * Controller) :=
           match ts with
           | [] => ([], st)
           | t :: ts' =>
               let '(t', st1) := linearizeNode (depth + 1) t st in
               let '(ts'', st2) := siblings ts' st1 in
               (t' :: ts'', st2)
           end) children (st.1 + 1, c') in
      (Node item' children', st')
  end.

Fixpoint linearizeForest (depth : Z) (ts : list TreeNode) (st : Z * Controller)
    : list TreeNode * (Z * Controller) :=
  match ts with
  | [] => ([], st)
  | t :: ts' =>
      let '(t', st1) := linearizeNode depth t st in
      let '(ts'', st2) := linearizeForest depth ts' st1 in
      (t' :: ts'', st2)
  end.

(** [linearizeData_()]; [None] is the fault of dereferencing a [null]
    tree. *)
Definition linearizeData_ (c : Controller) : option Controller :=
  let c := set_minDate_ NaN c in
  let c := set_maxDate_ NaN c in
  tree ← data_ c;
  let '(tree', st) := linearizeForest 0 tree (0, c) in
  Some (set_data_ (Some tree') st.2).

(** [getPeriodsMap()] *)
Definition getPeriodsMap (c : Controller) : gmap string Period := periodsMap_ c.

(** ** Position resolver *)

(** The branch of [recalculate] that was taken. *)
Inductive Regime : Type :=
  | Empty          (* no visible rows *)
  | Fits           (* everything fits *)
  | StartFromEnd   (* start anchored, "Going from end of list" *)
  | StartAnchored  (* start anchored, end index derived *)
  | EndFromStart   (* end anchored, "Going from start of list" *)
  | EndAnchored.   (* end anchored, start index and offset derived *)

(** The total content height [recalculate()] compares the available height
    with: [getHeightByIndexes_(0, heightCache_.length - 1)]. *)
Definition totalHeight (c : Controller) : number :=
  getHeightByIndexes_ (heightCache_ c) (Num 0)
    (Some (JS.sub (JS.length (heightCache_ c)) (Num 1))).

(** The body of [recalculate()] before its last two statements, together
    with the branch taken. *)
Definition resolvePosition (c : Controller) : Regime * Controller :=
  let cache := heightCache_ c in
  if JS.truthy (JS.length (visibleData_ c)) then
    if JS.ge (availableHeight_ c) (totalHeight c) then
      let c := set_startIndex_ (Num 0) c in
      let c := set_verticalOffset_ (Num 0) c in
      let c := set_endIndex_ (JS.sub (JS.length (visibleData_ c)) (Num 1)) c in
      (Fits, c)
    else
      let c :=
        if JS.isNaN (startIndex_ c) && JS.isNaN (endIndex_ c)
        then set_startIndex_ (Num 0) c else c in
      if negb (JS.isNaN (startIndex_ c)) then
        let totalHeight :=
          JS.sub (getHeightByIndexes_ cache (startIndex_ c) None) (verticalOffset_ c) in
        if JS.lt totalHeight (availableHeight_ c) then
          let c :=
            set_startIndex_
              (getIndexByHeight_ cache
                 (JS.sub (JS.toNumber (JS.get cache (JS.sub (JS.length cache) (Num 1))))
                         (availableHeight_ c))) c in
          let c := set_endIndex_ (JS.sub (JS.length cache) (Num 1)) c in
          let c :=
            set_verticalOffset_
              (JS.sub (getHeightByIndexes_ cache (startIndex_ c) (Some (endIndex_ c)))
                      (availableHeight_ c)) c in
          (StartFromEnd, c)
        else
          let height :=
            if JS.eq (startIndex_ c) (Num 0) then Num 0
            else JS.toNumber (JS.get cache (JS.sub (startIndex_ c) (Num 1))) in
          let c :=
            set_endIndex_
              (getIndexByHeight_ cache
                 (JS.add (JS.add height (availableHeight_ c)) (verticalOffset_ c))) c in
          (StartAnchored, c)
      else
        let totalHeight := getHeightByIndexes_ cache (Num 0) (Some (endIndex_ c)) in
        if JS.lt totalHeight (availableHeight_ c) then
          let c := set_startIndex_ (Num 0) c in
          let c := set_verticalOffset_ (Num 0) c in
          let c := set_endIndex_ (getIndexByHeight_ cache (availableHeight_ c)) c in
          (EndFromStart, c)
        else
          let c :=
            set_startIndex_
              (getIndexByHeight_ cache
                 (JS.sub (JS.toNumber (JS.get cache (endIndex_ c)))
                         (availableHeight_ c))) c in
          let c :=
            set_verticalOffset_
              (JS.sub (getHeightByIndexes_ cache (startIndex_ c) (Some (endIndex_ c)))
                      (availableHeight_ c)) c in
          (EndAnchored, c)
  else
    let c := set_startIndex_ (Num 0) c in
    let c := set_endIndex_ (Num 0) c in
    let c := set_verticalOffset_ (Num 0) c in
    (Empty, c).

(** [recalculate()] *)
Definition recalculate (c : Controller) : Controller :=
  let c := (resolvePosition c).2 in
  let c := set_positionRecalculated_ true c in
  markConsistent POSITION c.

(** The branch [recalculate()] takes from a state. *)
Definition regime (c : Controller) : Regime := (resolvePosition c).1.

(** ** Setters

    Each accessor of the source is a getter when called without argument
    (the field itself here) and a setter otherwise; the definitions below
    are the setter halves. *)

(** [verticalOffset(opt_value)] *)
Definition verticalOffset (opt_value : number) (c : Controller) : Controller :=
  if JS.neq (verticalOffset_ c) opt_value then
    let c := set_verticalOffset_ opt_value c in
    invalidate POSITION c
  else c.

(** [startIndex(opt_value)] *)
Definition startIndex (opt_value : number) (c : Controller) : Controller :=
  if JS.neq (startIndex_ c) opt_value && negb (JS.isNaN opt_value) then
    let c := set_startIndex_ opt_value c in
    let c := set_endIndex_ NaN c in
    invalidate POSITION c
  else c.

(** [endIndex(opt_value)] *)
Definition endIndex (opt_value : number) (c : Controller) : Controller :=
  if JS.neq (endIndex_ c) opt_value && negb (JS.isNaN opt_value) then
    let c := set_endIndex_ opt_value c in
    let c := set_startIndex_ NaN c in
    invalidate POSITION c
  else c.

(** [availableHeight(opt_value)] *)
Definition availableHeight (opt_value : number) (c : Controller) : Controller :=
  if JS.neq (availableHeight_ c) opt_value then
    let c := set_availableHeight_ opt_value c in
    invalidate POSITION c
  else c.

(** ** Visibility builder, [run] and scrolling *)

Section DataGrid.

(** [anychart.core.ui.DataGrid.DEFAULT_ROW_HEIGHT] and
    [anychart.core.ui.DataGrid.ROW_SPACE]: numeric constants of the data
    grid, which is not under src/. *)
Variable DEFAULT_ROW_HEIGHT : Z.
Variable ROW_SPACE : Z.

(** [Controller.getItemHeight(item)]:
    [toNumber(item.get(ROW_HEIGHT)) || DEFAULT_ROW_HEIGHT].  The result is
    never [NaN]. *)
Definition getItemHeight (item : DataItem) : Z :=
  match rowHeight item with
  | Num z => if JS.truthy (Num z) then z else DEFAULT_ROW_HEIGHT
  | NaN => DEFAULT_ROW_HEIGHT
  end.

(** One turn of the loop of [getVisibleData_]: the state is
    [(visibleData_, heightCache_, height)]. *)
Definition pushVisible (st : list DataItem * list Z * Z) (item : DataItem)
    : list DataItem * list Z * Z :=
  let '(visibleData, heightCache, height) := st in
  let visibleData := visibleData ++ [item] in
  let height := height + (getItemHeight item + ROW_SPACE) in
  let heightCache := heightCache ++ [height] in
  (visibleData, heightCache, height).

(** [getVisibleData_()]; [None] is the fault of using the [null]
    traverser of a controller that has no tree. *)
Definition getVisibleData_ (c : Controller) : option Controller :=
  tree ← data_ c;
  let '(visibleData, heightCache, _) :=
    fold_left pushVisible (traverse traverseChildrenCondition_ tree) ([], [], 0) in
  Some (set_visible visibleData heightCache c).

(** [run()]; the calls into the data grid, the timeline and the scroll
    bar only read the controller. *)
Definition run (c : Controller) : option Controller :=
  c ← (if negb (isConsistent c) then
         c ← (if hasInvalidationState DATA c then
                c ← linearizeData_ c;
                let c := markConsistent DATA c in
                Some (invalidate VISIBILITY c)
              else Some c);
         c ← (if hasInvalidationState VISIBILITY c then
                c ← getVisibleData_ c;
                let c := markConsistent VISIBILITY c in
                Some (invalidate POSITION c)
              else Some c);
         Some (recalculate c)
       else Some c);
  Some (set_positionRecalculated_ false c).

(** [scrollTo(pxOffset)] *)
Definition scrollTo (pxOffset : number) (c : Controller) : option Controller :=
  let cache := heightCache_ c in
  let pxOffset := JS.max pxOffset (Num 0) in
  let totalHeight := JS.toNumber (JS.get cache (JS.sub (JS.length cache) (Num 1))) in
  if JS.truthy pxOffset then
    let c :=
      if JS.gt pxOffset (JS.sub totalHeight (availableHeight_ c)) then
        endIndex (JS.length cache) c
      else
        let itemIndex := getIndexByHeight_ cache pxOffset in
        let previousHeight :=
          if JS.truthy itemIndex
          then JS.toNumber (JS.get cache (JS.sub itemIndex (Num 1)))
          else Num 0 in
        let offset := JS.sub itemIndex previousHeight in
        startIndex itemIndex (verticalOffset offset c) in
    run c
  else Some c.

(** [scrollToRow(rowIndex)]; [goog.math.clamp(v, lo, hi)] is
    [Math.min(Math.max(v, lo), hi)]. *)
Definition scrollToRow (rowIndex : number) (c : Controller) : option Controller :=
  let rowIndex :=
    JS.min (JS.max rowIndex (Num 0))
           (JS.sub (JS.length (heightCache_ c)) (Num 1)) in
  run (verticalOffset (Num 0) (startIndex rowIndex c)).

End DataGrid.

(** ** Specification-level definitions used in the statements *)

(** Clamping an index to [[0, length - 1]]. *)
Definition clampIndex (cache : list Z) (i : Z) : Z :=
  Z.max 0 (Z.min i (Z.of_nat (List.length cache) - 1)).

(** The cumulative-sum difference [cache[e] - cache[s - 1]] with
    [cache[-1] := 0], for in-range [s <= e]. *)
Definition cumulativeDifference (cache : list Z) (s e : Z) : Z :=
  nth (Z.to_nat e) cache 0 - (if s =? 0 then 0 else nth (Z.to_nat (s - 1)) cache 0).

(** The range height the spec describes: clamp both indexes, order them,
    take the cumulative-sum difference; [0] on an empty cache. *)
Definition rangeHeight (cache : list Z) (a b : Z) : Z :=
  match cache with
  | [] => 0
  | _ =>
      let a' := clampIndex cache a in
      let b' := clampIndex cache b in
      cumulativeDifference cache (Z.min a' b') (Z.max a' b')
  end.

(** The id→period map the spec describes: one shared map, every period of
    every node written in traversal order, a later write replacing an
    earlier one with the same id. *)
Definition lastWriteWinsMap (items : list DataItem) : gmap string Period :=
  fold_left
    (fun m item =>
       fold_left (fun m p => <[period_id p := p]> m)
                 (default [] (periods item)) m)
    items ∅.

(** The row height the spec describes: the explicit override if present
    and numeric, else the fixed default. *)
Definition specRowHeight (D : Z) (item : DataItem) : Z :=
  match rowHeight item with
  | Num z => z
  | NaN => D
  end.

(** The first period of a list with a given id. *)
Definition firstWithId (key : string) (ps : list Period) : option Period :=
  List.find (fun p => bool_decide (period_id p = key)) ps.

(** The effect of one turn of the period loop on the map alone. *)
Definition addPeriod (m : gmap string Period) (p : Period) : gmap string Period :=
  if negb (truthyAt m (period_id p)) then <[period_id p := p]> m else m.

(** The map one node leaves behind in resource mode: cleared, then filled
    from the node's own periods. *)
Definition nodePeriods (item : DataItem) : gmap string Period :=
  match periods item with
  | Some ps => fold_left addPeriod ps ∅
  | None => ∅
  end.

(** The map after a pass in resource mode is the one left by the item
    visited last; an empty pass leaves the map alone. *)
Definition mapAfter (items : list DataItem) (before : gmap string Period)
    : gmap string Period :=
  match last items with
  | Some item => nodePeriods item
  | None => before
  end.

(** The running sums [getVisibleData_] pushes, starting from [height]. *)
Fixpoint cumulative (D RS : Z) (height : Z) (items : list DataItem) : list Z :=
  match items with
  | [] => []
  | item :: rest =>
      let height := height + (getItemHeight D item + RS) in
      height :: cumulative D RS height rest
  end.

(** ** States used in the examples *)

(** The controller as its constructor leaves it. *)
Definition Controller_new (opt_isResourceChart : bool) : Controller :=
  mkController opt_isResourceChart ∅ None [] [] NaN NaN (Num 0) (Num 0)
    false NaN NaN (mkConsistency false false false).

(** A childless node whose row-height field converts to [h]. *)
Definition leaf (h : number) : TreeNode :=
  Node (mkItem JUndefined JUndefined JUndefined JUndefined h None None
          None None None) [].

(** A childless resource with the given periods. *)
Definition resource (ps : list Period) : TreeNode :=
  Node (mkItem JUndefined JUndefined JUndefined JUndefined NaN (Some ps) None
          None None None) [].

(** A controller that was just given [tree] and an available height. *)
Definition loaded (isResourceChart : bool) (tree : list TreeNode)
    (height : Z) : Controller :=
  availableHeight (Num height)
    (invalidate DATA (set_data_ (Some tree) (Controller_new isResourceChart))).

(** Five rows of height 10, spacing 0, available height 25, after [run]
    and with the start index then anchored at 1. *)
Definition anchoredAtOne : Controller := Eval vm_compute in
  startIndex (Num 1)
    (default (Controller_new false)
       (run 20 0 (loaded false (replicate 5 (leaf (Num 10))) 25))).

(** Five rows of height 10, spacing 0, everything fits in 100 pixels,
    after [run]. *)
Definition fittingFive : Controller := Eval vm_compute in
  default (Controller_new false)
    (run 20 0 (loaded false (replicate 5 (leaf (Num 10))) 100)).

(** Five rows of the default height 20 with spacing 1 and 50 pixels
    available, after [run]. *)
Definition defaultFive : Controller := Eval vm_compute in
  default (Controller_new false)
    (run 20 1 (loaded false (replicate 5 (leaf NaN)) 50)).

Definition periodP0 : Period :=
  mkPeriod "P0" (JNumber (Num 5)) (JNumber (Num 6)).
Definition periodP1_first : Period :=
  mkPeriod "P1" (JNumber (Num 1)) (JNumber (Num 2)).
Definition periodP1_second : Period :=
  mkPeriod "P1" (JNumber (Num 3)) (JNumber (Num 4)).

(** ** Remaining operations of the controller *)

(** The signals of a tree event the controller looks at. *)
Record SignalEvent : Type := mkSignalEvent {
  META_CHANGED : bool;
  DATA_CHANGED : bool
}.

(** [dataInvalidated_(event)]: the states are or-ed into one mask and
    invalidated together. *)
Definition dataInvalidated_ (event : SignalEvent) (c : Controller) : Controller :=
  let c := if META_CHANGED event then invalidate VISIBILITY c else c in
  if DATA_CHANGED event then invalidate DATA c else c.

(** [scrollToEnd(opt_index)]: [opt_index || heightCache_.length - 1], then
    the end-index setter. *)
Definition scrollToEnd (opt_index : option number) (c : Controller) : Controller :=
  let fallback := JS.sub (JS.length (heightCache_ c)) (Num 1) in
  let opt_index :=
    match opt_index with
    | Some v => if JS.truthy v then v else fallback
    | None => fallback
    end in
  endIndex opt_index c.

(** The loop of [collapseAll_] over one subtree: every item of the full
    passage gets [meta(COLLAPSED, value)]. *)
Fixpoint collapseNode (value : bool) (t : TreeNode) : TreeNode :=
  match t with
  | Node item children =>
      Node (set_meta_collapsed (Some value) item) (map (collapseNode value) children)
  end.

(** [collapseAll_(value)]; [None] is the fault on a [null] tree.  What the
    tree dispatches to its listeners when its signals are resumed is the
    tree's own code and is not part of this function. *)
Definition collapseAll_ (value : bool) (c : Controller) : option Controller :=
  tree ← data_ c;
  Some (set_data_ (Some (map (collapseNode value) tree)) c).

(** [expandAll()] *)
Definition expandAll (c : Controller) : option Controller := collapseAll_ false c.

(** [collapseAll()] *)
Definition collapseAll (c : Controller) : option Controller := collapseAll_ true c.

(** ** Further definitions used in the statements *)

(** A non-decreasing cache. *)
Definition sortedCache (cache : list Z) : Prop :=
  forall i j, (i <= j < List.length cache)%nat -> nth i cache 0 <= nth j cache 0.

(** The cumulative height of the rows before row [s]: [cache[s - 1]], and
    0 for the first row. *)
Definition heightBefore (cache : list Z) (s : Z) : Z :=
  if s =? 0 then 0 else nth (Z.to_nat (s - 1)) cache 0.

(** The last cumulative sum: the height of all rows. *)
Definition contentHeight (cache : list Z) : Z :=
  nth (Nat.pred (List.length cache)) cache 0.

(** The date a field contributes to the range: a value of type number that
    is not [NaN]. *)
Definition validDate (v : jsval) : option Z :=
  match v with
  | JNumber (Num d) => Some d
  | _ => None
  end.

(** The dates one item contributes, in the order the linearizer checks
    them; the periods count in resource mode only. *)
Definition itemDates (isResourceChart : bool) (item : DataItem) : list Z :=
  omap validDate
    ([actualStart item; actualEnd item; baselineStart item; baselineEnd item]
     ++ (if isResourceChart
         then flat_map (fun p => [period_start p; period_end p])
                       (default [] (periods item))
         else [])).

(** The date range of a sequence of dates, as the pair
    [(minDate_, maxDate_)]. *)
Definition dateRange (dates : list Z) : number * number :=
  match dates with
  | [] => (NaN, NaN)
  | d :: ds => (Num (fold_left Z.min ds d), Num (fold_left Z.max ds d))
  end.

(** What the traverser shows of each node during a full passage: its
    depth, its number of children and its item. *)
Fixpoint walkNode (depth : Z) (t : TreeNode) : list (Z * nat * DataItem) :=
  match t with
  | Node item children =>
      (depth, List.length children, item) :: flat_map (walkNode (depth + 1)) children
  end.

Definition walk (depth : Z) (tree : list TreeNode) : list (Z * nat * DataItem) :=
  flat_map (walkNode depth) tree.

(** An item after the linearizer has visited it at a depth, with a linear
    index, on a node with [numChildren] children. *)
Definition annotated (depth index : Z) (numChildren : nat) (item : DataItem)
    : DataItem :=
  {| actualStart := actualStart item; actualEnd := actualEnd item;
     baselineStart := baselineStart item; baselineEnd := baselineEnd item;
     rowHeight := rowHeight item; periods := periods item;
     collapsed := collapsed item;
     meta_depth := Some depth; meta_index := Some index;
     meta_collapsed :=
       match numChildren, collapsed item with
       | S _, Some b => Some b
       | _, _ => meta_collapsed item
       end |}.

(** The item of a root. *)
Definition rootItem (t : TreeNode) : DataItem :=
  match t with Node item _ => item end.

(** The height of the rows [a .. b] of a row sequence, spacing included. *)
Definition rowsHeight (D RS : Z) (rows : list DataItem) (a b : nat) : Z :=
  foldr Z.add 0
    (map (fun item => getItemHeight D item + RS) (take (S b - a) (drop a rows))).

(** What visiting one item does to the controller; it does not depend on
    the depth, the index or the number of children. *)
Definition visitController (item : DataItem) (c : Controller) : Controller :=
  (linearizeItem 0 0 0 item c).2.

(** The nodes of a full passage after the linearizer has numbered them
    from [index] on. *)
Fixpoint annotateFrom (index : Z) (nodes : list (Z * nat * DataItem))
    : list (Z * nat * DataItem) :=
  match nodes with
  | [] => []
  | (depth, numChildren, item) :: rest =>
      (depth, numChildren, annotated depth index numChildren item)
      :: annotateFrom (index + 1) rest
  end.

(** The pair [(minDate_, maxDate_)]. *)
Definition rangeState (c : Controller) : number * number :=
  (minDate_ c, maxDate_ c).

(** The fields of the controller that hold the viewport and the rows. *)
Definition viewportState (c : Controller)
    : list DataItem * list Z * number * number * number * number * bool * Consistency :=
  (visibleData_ c, heightCache_ c, startIndex_ c, endIndex_ c,
   verticalOffset_ c, availableHeight_ c, positionRecalculated_ c, consistency_ c).

(** Whether a fallible operation faulted. *)
Definition faults {A : Type} (r : option A) : bool :=
  match r with None => true | Some _ => false end.

(** The parts of the controller that only a data or visibility pass
    changes: the tree, the linearizer's results, the rows and the cache. *)
Definition contentState (c : Controller)
    : option (list TreeNode) * gmap string Period * (number * number)
      * list DataItem * list Z :=
  (data_ c, periodsMap_ c, rangeState c, visibleData_ c, heightCache_ c).

(** Every row has a positive height (spacing included). *)
Definition positiveRows (cache : list Z) : Prop :=
  forall i, 0 <= i < Z.of_nat (List.length cache) ->
    heightBefore cache i < nth (Z.to_nat i) cache 0.

(** An end index used as the anchor (start index unset) is a valid row. *)
Definition anchorInRange (c : Controller) : Prop :=
  match startIndex_ c, endIndex_ c with
  | NaN, Num e => 0 <= e < Z.of_nat (List.length (heightCache_ c))
  | _, _ => True
  end.

(** Integers on which the code's double arithmetic is exact: a magnitude of
    at most 2^50 leaves every sum or difference of up to eight such values
    within 2^53, the range in which doubles hold every integer. *)
Definition smallInteger (z : Z) : Prop := Z.abs z <= 2 ^ 50.

Definition smallNumber (x : number) : Prop :=
  match x with
  | Num z => smallInteger z
  | NaN => True
  end.

(** The row spacing, the heights of the rows and the running sums of the
    cache are small integers. *)
Definition exactRows (D RS : Z) (rows : list DataItem) (cache : list Z) : Prop :=
  smallInteger RS /\
  Forall (fun item => smallInteger (getItemHeight D item)) rows /\
  Forall smallInteger cache.

(** The pixel quantities of a controller are small integers: the cache
    entries, the available height and the offset. *)
Definition exactPixels (c : Controller) : Prop :=
  Forall smallInteger (heightCache_ c) /\
  smallNumber (availableHeight_ c) /\
  smallNumber (verticalOffset_ c).

(** One pass over a forest, as a flat description: the nodes are numbered
    in traversal order, the index advances by the number of nodes, and the
    controller is folded over the visited items. *)
Definition passResult (depth : Z) (ts : list TreeNode) (st : Z * Controller)
    (r : list TreeNode * (Z * Controller)) : Prop :=
  walk depth r.1 = annotateFrom st.1 (walk depth ts) /\
  r.2.1 = st.1 + Z.of_nat (List.length (walk depth ts)) /\
  r.2.2 = fold_left (fun c x => visitController x.2 c) (walk depth ts) st.2.

(** The fields no setter of the viewport changes. *)
Definition setterFrame (c : Controller)
    : list DataItem * list Z * option (list TreeNode) * bool * bool :=
  (visibleData_ c, heightCache_ c, data_ c,
   hasInvalidationState DATA c, hasInvalidationState VISIBILITY c).

(** Reducing the projections of updated controllers, and nothing else. *)
Ltac project_fields :=
  cbn [isResourceChart_ periodsMap_ data_ visibleData_ heightCache_ startIndex_
       endIndex_ verticalOffset_ availableHeight_ positionRecalculated_ minDate_
       maxDate_ consistency_ markConsistent invalidate set_consistency_
       set_positionRecalculated_ set_startIndex_ set_endIndex_
       set_verticalOffset_ fst snd] in *.

(** Bounds on the numbers of a concrete state. *)
Ltac solve_small :=
  repeat (split || constructor); vm_compute; done.

(** * Properties *)

(** ** Array reads *)

Lemma get_in_range (arr : list Z) (z : Z) :
  0 <= z < Z.of_nat (List.length arr) ->
  JS.get arr (Num z) = Some (nth (Z.to_nat z) arr 0).
Proof.
  intros [Hlo Hhi]. unfold JS.get.
  destruct (Z.leb_spec 0 z) as [_|]; [|lia].
  destruct (arr !! Z.to_nat z) as [v|] eqn:E.
  - f_equal. symmetry. by apply nth_lookup_Some with (d := 0) in E.
  - apply lookup_ge_None in E. lia.
Qed.

Lemma get_negative (arr : list Z) (z : Z) :
  z < 0 -> JS.get arr (Num z) = None.
Proof.
  intros H. unfold JS.get. destruct (Z.leb_spec 0 z); [lia | done].
Qed.

Lemma get_past_end (arr : list Z) (z : Z) :
  Z.of_nat (List.length arr) <= z -> JS.get arr (Num z) = None.
Proof.
  intros H. unfold JS.get. destruct (Z.leb_spec 0 z); [|done].
  apply lookup_ge_None. lia.
Qed.

(** ** The binary search *)

Lemma shiftr1_bounds (l r : Z) :
  l < r -> l <= Z.shiftr (l + r) 1 < r.
Proof.
  intros H. rewrite Z.shiftr_div_pow2 by lia.
  change (2 ^ 1) with 2. split.
  - apply Z.div_le_lower_bound; lia.
  - apply Z.div_lt_upper_bound; lia.
Qed.

(** The loop leaves through its exit test, never by lack of fuel, and
    ends with [left = right] inside the initial interval. *)
Lemma binarySearch_loop_exit (fuel : nat) (arr : list Z) (target : number) :
  forall (l r : Z) (found : bool),
    l <= r -> r - l <= Z.of_nat fuel ->
    let res := binarySearch_loop fuel arr target l r found in
    res.1.1 = res.1.2 /\ l <= res.1.1 <= r.
Proof.
  induction fuel as [|fuel IH]; intros l r found Hle Hfuel; simpl.
  - lia.
  - destruct (Z.ltb_spec l r) as [Hlt|Hge]; [|simpl; lia].
    pose proof (shiftr1_bounds l r Hlt) as Hmid.
    destruct (0 <? defaultCompare _ _).
    + specialize (IH (Z.shiftr (l + r) 1 + 1) r found).
      simpl in IH. destruct IH as [H1 H2]; lia.
    + specialize (IH l (Z.shiftr (l + r) 1)
                     (defaultCompare target
                        (JS.toNumber (JS.get arr (Num (Z.shiftr (l + r) 1)))) =? 0)).
      simpl in IH. destruct IH as [H1 H2]; lia.
Qed.

Lemma searchPosition_range (arr : list Z) (target : number) :
  0 <= searchPosition arr target <= Z.of_nat (List.length arr).
Proof.
  unfold searchPosition.
  pose proof (binarySearch_loop_exit (List.length arr) arr target
                0 (Z.of_nat (List.length arr)) false) as H.
  simpl in H. destruct H as [_ H]; lia.
Qed.

(** Whether the search reports "found" ([left]) or "not found" ([~left]),
    [getIndexByHeight_] returns the end position. *)
Lemma getIndexByHeight_position (cache : list Z) (height : number) :
  getIndexByHeight_ cache height = Num (searchPosition cache height).
Proof.
  pose proof (searchPosition_range cache height) as Hr.
  unfold getIndexByHeight_, binarySearch, searchPosition in *.
  destruct (binarySearch_loop _ _ _ _ _ _) as [[l r] found]. simpl in *.
  f_equal. destruct found.
  - destruct (Z.leb_spec 0 l); [done | lia].
  - unfold Z.lnot. destruct (Z.leb_spec 0 (Z.pred (- l))); lia.
Qed.

(** On a non-decreasing cache the loop keeps the lower-bound invariant:
    everything left of [left] is below the target, everything from [right]
    on is at or above it. *)
Lemma binarySearch_loop_lower_bound (fuel : nat) (arr : list Z) (t : Z) :
  (forall i j, (i <= j < List.length arr)%nat -> nth i arr 0 <= nth j arr 0) ->
  forall (l r : Z) (found : bool),
    0 <= l <= r -> r <= Z.of_nat (List.length arr) ->
    r - l <= Z.of_nat fuel ->
    (forall i, 0 <= i < l -> nth (Z.to_nat i) arr 0 < t) ->
    (forall i, r <= i < Z.of_nat (List.length arr) -> t <= nth (Z.to_nat i) arr 0) ->
    let p := (binarySearch_loop fuel arr (Num t) l r found).1.1 in
    (forall i, 0 <= i < p -> nth (Z.to_nat i) arr 0 < t) /\
    (forall i, p <= i < Z.of_nat (List.length arr) -> t <= nth (Z.to_nat i) arr 0).
Proof.
  intros Hsorted.
  induction fuel as [|fuel IH]; intros l r found Hlr Hr Hfuel Hbelow Habove;
    cbn [binarySearch_loop].
  - split; [done|]. intros i Hi. apply Habove. simpl in *. lia.
  - destruct (Z.ltb_spec l r) as [Hlt|Hge].
    2:{ split; [done|]. intros i Hi. apply Habove. simpl in *. lia. }
    pose proof (shiftr1_bounds l r Hlt) as Hmid.
    set (m := Z.shiftr (l + r) 1) in *.
    rewrite get_in_range by lia.
    unfold defaultCompare. cbn [JS.toNumber JS.gt JS.lt].
    destruct (Z.ltb_spec (nth (Z.to_nat m) arr 0) t) as [Hm|Hm]; simpl.
    + apply IH; try lia; [|done].
      intros i Hi.
      assert (nth (Z.to_nat i) arr 0 <= nth (Z.to_nat m) arr 0); [|lia].
      apply Hsorted. lia.
    + assert (Hstep : forall i, m <= i < Z.of_nat (List.length arr) ->
                                t <= nth (Z.to_nat i) arr 0).
      { intros i Hi.
        assert (nth (Z.to_nat m) arr 0 <= nth (Z.to_nat i) arr 0); [|lia].
        apply Hsorted. lia. }
      destruct (Z.ltb_spec t (nth (Z.to_nat m) arr 0)); simpl;
        apply IH; try lia; done.
Qed.

(** [getIndexByHeight_] on a non-decreasing cache is the lower bound: the
    smallest index whose cumulative height reaches the target, or the
    length when none does. *)
Lemma getIndexByHeight_lower_bound (cache : list Z) (t : Z) :
  (forall i j, (i <= j < List.length cache)%nat -> nth i cache 0 <= nth j cache 0) ->
  exists p,
    getIndexByHeight_ cache (Num t) = Num p /\
    0 <= p <= Z.of_nat (List.length cache) /\
    (forall i, 0 <= i < p -> nth (Z.to_nat i) cache 0 < t) /\
    (forall i, p <= i < Z.of_nat (List.length cache) -> t <= nth (Z.to_nat i) cache 0).
Proof.
  intros Hsorted. exists (searchPosition cache (Num t)).
  split; [apply getIndexByHeight_position|].
  split; [apply searchPosition_range|].
  apply (binarySearch_loop_lower_bound (List.length cache) cache t Hsorted
           0 (Z.of_nat (List.length cache)) false); try lia.
Qed.

(** ** The example states are reached by the code *)

Lemma anchoredAtOne_reached :
  startIndex (Num 1) <$> run 20 0 (loaded false (replicate 5 (leaf (Num 10))) 25)
  = Some anchoredAtOne.
Proof. by vm_compute. Qed.

Lemma fittingFive_reached :
  run 20 0 (loaded false (replicate 5 (leaf (Num 10))) 100) = Some fittingFive.
Proof. by vm_compute. Qed.

Lemma defaultFive_reached :
  run 20 1 (loaded false (replicate 5 (leaf NaN)) 50) = Some defaultFive.
Proof. by vm_compute. Qed.

(** ** Range height *)

(** On a non-empty cache, with at least one index non-negative, the query
    is the spec's range height. *)
Lemma getHeightByIndexes_rangeHeight (cache : list Z) (a b : Z) :
  cache <> [] ->
  0 <= a \/ 0 <= b ->
  getHeightByIndexes_ cache (Num a) (Some (Num b)) = Num (rangeHeight cache a b).
Proof.
  intros Hne H.
  destruct cache as [|h0 cache]; [done|]. clear Hne.
  unfold getHeightByIndexes_, rangeHeight, clampIndex, cumulativeDifference.
  set (arr := h0 :: cache) in *.
  assert (Hlen : 1 <= Z.of_nat (List.length arr)) by (subst arr; simpl; lia).
  set (n := Z.of_nat (List.length arr)) in *.
  assert (Htruthy : JS.truthy (JS.length arr) = true).
  { unfold JS.truthy, JS.length. fold n.
    destruct (Z.eqb_spec n 0); [lia|done]. }
  rewrite Htruthy. cbn [negb JS.sub JS.length JS.min JS.gt JS.add].
  fold n.
  destruct (Z.ltb_spec (Z.min b (n - 1)) (Z.min a (n - 1))) as [Hsw|Hsw].
  - replace (Z.min b (n - 1) + (Z.min a (n - 1) - Z.min b (n - 1)))
      with (Z.min a (n - 1)) by lia.
    replace (Z.min a (n - 1) - (Z.min a (n - 1) - Z.min b (n - 1)))
      with (Z.min b (n - 1)) by lia.
    rewrite (get_in_range arr (Z.min a (n - 1))) by (fold n; lia).
    replace (Z.max (Z.max 0 (Z.min a (n - 1))) (Z.max 0 (Z.min b (n - 1))))
      with (Z.min a (n - 1)) by lia.
    destruct (Z.eqb_spec (Z.min (Z.max 0 (Z.min a (n - 1)))
                                (Z.max 0 (Z.min b (n - 1)))) 0) as [E|E].
    + cbn [JS.sub]. rewrite get_negative by lia. reflexivity.
    + cbn [JS.sub]. rewrite get_in_range by (fold n; lia).
      cbn [JS.toNumber JS.orZero JS.sub]. do 3 f_equal. lia.
  - rewrite (get_in_range arr (Z.min b (n - 1))) by (fold n; lia).
    replace (Z.max (Z.max 0 (Z.min a (n - 1))) (Z.max 0 (Z.min b (n - 1))))
      with (Z.min b (n - 1)) by lia.
    destruct (Z.eqb_spec (Z.min (Z.max 0 (Z.min a (n - 1)))
                                (Z.max 0 (Z.min b (n - 1)))) 0) as [E|E].
    + cbn [JS.sub]. rewrite get_negative by lia. reflexivity.
    + cbn [JS.sub]. rewrite get_in_range by (fold n; lia).
      cbn [JS.toNumber JS.orZero JS.sub]. do 3 f_equal. lia.
Qed.

Lemma clampIndex_range (cache : list Z) (i : Z) :
  cache <> [] ->
  0 <= clampIndex cache i <= Z.of_nat (List.length cache) - 1.
Proof.
  intros H. unfold clampIndex.
  destruct cache; [done|]. simpl List.length. lia.
Qed.


(** The total content height is the last cumulative sum. *)
Lemma totalHeight_last (c : Controller) :
  heightCache_ c <> [] ->
  totalHeight c =
    Num (nth (Nat.pred (List.length (heightCache_ c))) (heightCache_ c) 0).
Proof.
  intros Hne. unfold totalHeight. cbn [JS.length JS.sub].
  rewrite getHeightByIndexes_rangeHeight by (done || lia).
  pose proof (clampIndex_range (heightCache_ c) 0 Hne) as H0.
  unfold rangeHeight, cumulativeDifference.
  destruct (heightCache_ c) as [|h0 cache] eqn:E; [done|].
  rewrite <- E in *.
  replace (clampIndex (heightCache_ c) 0) with 0 by (unfold clampIndex; lia).
  replace (clampIndex (heightCache_ c) (Z.of_nat (List.length (heightCache_ c)) - 1))
    with (Z.of_nat (List.length (heightCache_ c)) - 1) by (unfold clampIndex; lia).
  rewrite Z.min_l, Z.max_r by lia. simpl (0 =? 0).
  do 2 f_equal. rewrite Z.sub_0_r. f_equal. lia.
Qed.




(** ** Position resolution *)

Lemma truthy_length {A : Type} (l : list A) :
  JS.truthy (JS.length l) = negb (bool_decide (l = [])).
Proof. by destruct l. Qed.

(** [recalculate] touches neither the rows, the cache nor the available
    height. *)
Lemma recalculate_frame (c : Controller) :
  visibleData_ (recalculate c) = visibleData_ c /\
  heightCache_ (recalculate c) = heightCache_ c /\
  availableHeight_ (recalculate c) = availableHeight_ c.
Proof.
  unfold recalculate, resolvePosition.
  repeat (case_match; simpl); done.
Qed.

(** C1.  Rows of height 10 with spacing 0 (cache [10,20,30,40,50]),
    25 pixels available, start index anchored at 1, offset 0:
    [recalculate] takes the start-anchored branch, keeps the start index 1
    and the offset 0, and sets the end index to
    [getIndexByHeight_(10 + 25 + 0) = 3]. *)
Theorem recalculate_start_anchored_example (c : Controller) :
  heightCache_ c = [10; 20; 30; 40; 50] ->
  List.length (visibleData_ c) = 5%nat ->
  availableHeight_ c = Num 25 ->
  startIndex_ c = Num 1 ->
  verticalOffset_ c = Num 0 ->
  regime c = StartAnchored /\
  getHeightByIndexes_ (heightCache_ c) (Num 1) (Some (Num 4)) = Num 40 /\
  getIndexByHeight_ (heightCache_ c) (Num (10 + 25 + 0)) = Num 3 /\
  startIndex_ (recalculate c) = Num 1 /\
  endIndex_ (recalculate c) = Num 3 /\
  verticalOffset_ (recalculate c) = Num 0.
Proof.
  destruct c as [res pm d rows cache si ei vo ah pr mn mx k]; simpl.
  intros -> Hrows -> -> ->.
  do 6 (destruct rows as [|? rows]; try discriminate Hrows).
  by vm_compute.
Qed.

Lemma recalculate_start_anchored_example_witness :
  heightCache_ anchoredAtOne = [10; 20; 30; 40; 50] /\
  endIndex_ anchoredAtOne = NaN /\
  endIndex_ (recalculate anchoredAtOne) = Num 3.
Proof.
  split; [reflexivity|]. split; [reflexivity|].
  apply (recalculate_start_anchored_example anchoredAtOne); reflexivity.
Defined.

(** C5.  When there are visible rows and the available height is at least
    the total content height, [recalculate] yields start index 0, end index
    [length - 1] and offset 0, whatever anchor or offset was set before,
    and calling it again changes nothing. *)
Theorem recalculate_fits (c : Controller) :
  visibleData_ c <> [] ->
  JS.ge (availableHeight_ c) (totalHeight c) = true ->
  regime c = Fits /\
  startIndex_ (recalculate c) = Num 0 /\
  endIndex_ (recalculate c) = Num (Z.of_nat (List.length (visibleData_ c)) - 1) /\
  verticalOffset_ (recalculate c) = Num 0 /\
  recalculate (recalculate c) = recalculate c.
Proof.
  intros Hrows Hfits.
  assert (Hstep : forall c', visibleData_ c' = visibleData_ c ->
            heightCache_ c' = heightCache_ c ->
            availableHeight_ c' = availableHeight_ c ->
            resolvePosition c' =
              (Fits, set_endIndex_ (Num (Z.of_nat (List.length (visibleData_ c)) - 1))
                       (set_verticalOffset_ (Num 0) (set_startIndex_ (Num 0) c')))).
  { intros c' Hv Hc Ha. unfold resolvePosition.
    rewrite Hv, truthy_length, bool_decide_eq_false_2 by done.
    unfold totalHeight in *. rewrite Hc, Ha, Hfits. simpl. by rewrite Hv. }
  destruct (recalculate_frame c) as (Hv & Hc & Ha).
  assert (Hagain : recalculate (recalculate c) =
            markConsistent POSITION (set_positionRecalculated_ true
              (resolvePosition (recalculate c)).2)) by done.
  rewrite (Hstep (recalculate c) Hv Hc Ha) in Hagain.
  assert (Hfirst : recalculate c =
            markConsistent POSITION (set_positionRecalculated_ true
              (resolvePosition c).2)) by done.
  rewrite (Hstep c) in Hfirst by done.
  split; [unfold regime; by rewrite (Hstep c)|].
  rewrite Hagain, Hfirst. by destruct c.
Qed.

Lemma recalculate_fits_witness :
  visibleData_ (endIndex (Num 2) fittingFive) <> [] /\
  JS.ge (availableHeight_ (endIndex (Num 2) fittingFive))
        (totalHeight (endIndex (Num 2) fittingFive)) = true /\
  startIndex_ (endIndex (Num 2) fittingFive) = NaN /\
  startIndex_ (recalculate (endIndex (Num 2) fittingFive)) = Num 0.
Proof.
  split; [discriminate|]. split; [reflexivity|]. split; [reflexivity|].
  apply (recalculate_fits (endIndex (Num 2) fittingFive));
    [discriminate | reflexivity].
Defined.

(** C7.  With no visible rows [recalculate] sets start index, end index
    and offset to 0, whatever anchor, offset or available height was set;
    [recalculate] is a total function, so there is no fault. *)
Theorem recalculate_empty (c : Controller) :
  visibleData_ c = [] ->
  regime c = Empty /\
  startIndex_ (recalculate c) = Num 0 /\
  endIndex_ (recalculate c) = Num 0 /\
  verticalOffset_ (recalculate c) = Num 0.
Proof.
  intros H. unfold regime, recalculate, resolvePosition.
  by rewrite H.
Qed.

Lemma recalculate_empty_witness :
  visibleData_ (endIndex (Num 7) (Controller_new false)) = [] /\
  endIndex_ (recalculate (endIndex (Num 7) (Controller_new false))) = Num 0.
Proof.
  split; [reflexivity|].
  apply (recalculate_empty (endIndex (Num 7) (Controller_new false))).
  reflexivity.
Defined.

(** A numeric start index keeps [recalculate] out of the end-anchored
    branches. *)
Lemma regime_of_numeric_start (c : Controller) :
  JS.isNaN (startIndex_ c) = false ->
  regime c = Empty \/ regime c = Fits \/
  regime c = StartFromEnd \/ regime c = StartAnchored.
Proof.
  intros H. unfold regime, resolvePosition.
  rewrite H. simpl.
  repeat (case_match; simpl; auto).
  all: try (rewrite H in *; discriminate).
Qed.

Lemma recalculate_indexes_numeric (c : Controller) :
  JS.isNaN (startIndex_ (recalculate c)) = false /\
  JS.isNaN (endIndex_ (recalculate c)) = false.
Proof.
  unfold recalculate, resolvePosition, getIndexByHeight_.
  destruct c as [res pm d rows cache [|si] [|ei] vo ah pr mn mx k]; simpl;
    repeat (case_match; simpl); done.
Qed.

(** C9.  After [recalculate] both the start index and the end index are
    numbers, never [NaN], whichever branch ran; so a further
    [recalculate] with no setter call in between takes no end-anchored
    branch: in the overflow regime it is start-anchored. *)
Theorem recalculate_leaves_indexes_numeric (c : Controller) :
  JS.isNaN (startIndex_ (recalculate c)) = false /\
  JS.isNaN (endIndex_ (recalculate c)) = false /\
  (regime (recalculate c) = Empty \/ regime (recalculate c) = Fits \/
   regime (recalculate c) = StartFromEnd \/ regime (recalculate c) = StartAnchored).
Proof.
  destruct (recalculate_indexes_numeric c) as [Hs He].
  repeat split; try done. by apply regime_of_numeric_start.
Qed.

(** ** Anchor setters *)

(** C4 (amended).  The start-index setter called with a number different
    from the current start index stores it, clears the end index to [NaN]
    and marks POSITION dirty; the end-index setter called with a number
    different from the current end index stores it, clears the start index
    to [NaN] and marks POSITION dirty. *)
Theorem anchor_setters_exclusive (c : Controller) (k k' : Z) :
  startIndex_ c <> Num k ->
  endIndex_ c <> Num k' ->
  (startIndex_ (startIndex (Num k) c) = Num k /\
   endIndex_ (startIndex (Num k) c) = NaN /\
   hasInvalidationState POSITION (startIndex (Num k) c) = true) /\
  (endIndex_ (endIndex (Num k') c) = Num k' /\
   startIndex_ (endIndex (Num k') c) = NaN /\
   hasInvalidationState POSITION (endIndex (Num k') c) = true).
Proof.
  intros Hs He.
  assert (JS.neq (startIndex_ c) (Num k) = true) as Hs'.
  { unfold JS.neq, JS.eq. destruct (startIndex_ c) as [|z]; [done|].
    destruct (Z.eqb_spec z k); [congruence | done]. }
  assert (JS.neq (endIndex_ c) (Num k') = true) as He'.
  { unfold JS.neq, JS.eq. destruct (endIndex_ c) as [|z]; [done|].
    destruct (Z.eqb_spec z k'); [congruence | done]. }
  unfold startIndex, endIndex. rewrite Hs', He'. done.
Qed.

Lemma anchor_setters_exclusive_witness :
  startIndex_ fittingFive <> Num 2 /\
  endIndex_ fittingFive <> Num 3 /\
  endIndex_ fittingFive = Num 4 /\
  endIndex_ (startIndex (Num 2) fittingFive) = NaN /\
  startIndex_ (endIndex (Num 3) fittingFive) = NaN.
Proof.
  split; [discriminate|]. split; [discriminate|]. split; [reflexivity|].
  destruct (anchor_setters_exclusive fittingFive 2 3)
    as [(_ & H1 & _) (_ & H2 & _)]; [discriminate | discriminate |].
  exact (conj H1 H2).
Defined.

(** C4 (as stated) fails when the setter is given the current value: the
    guard [this.startIndex_ != opt_value] makes the call a no-op, so the
    end index stays set and POSITION stays clean. *)
Lemma startIndex_same_value_keeps_endIndex :
  startIndex_ fittingFive = Num 0 /\
  endIndex_ fittingFive = Num 4 /\
  endIndex_ (startIndex (Num 0) fittingFive) = Num 4 /\
  hasInvalidationState POSITION (startIndex (Num 0) fittingFive) = false.
Proof. by vm_compute. Qed.

(** C10.  Either anchor setter called with [NaN] leaves the controller as
    it was: no index changes, the opposite anchor is not cleared, POSITION
    is not invalidated.  A setter never turns its own index into [NaN]:
    after the call the index is [NaN] only if it was before and the
    argument was [NaN] too. *)
Theorem anchor_setters_ignore_NaN (c : Controller) (k : number) :
  startIndex NaN c = c /\
  endIndex NaN c = c /\
  JS.isNaN (startIndex_ (startIndex k c)) = JS.isNaN (startIndex_ c) && JS.isNaN k /\
  JS.isNaN (endIndex_ (endIndex k c)) = JS.isNaN (endIndex_ c) && JS.isNaN k.
Proof.
  unfold startIndex, endIndex.
  split; [by rewrite andb_false_r|]. split; [by rewrite andb_false_r|].
  destruct k as [|k]; simpl; rewrite ?andb_false_r, ?andb_true_r; [done|].
  unfold JS.neq, JS.eq. split.
  - destruct (startIndex_ c) as [|z] eqn:E; simpl; [done|].
    destruct (z =? k); simpl; by rewrite ?E.
  - destruct (endIndex_ c) as [|z] eqn:E; simpl; [done|].
    destruct (z =? k); simpl; by rewrite ?E.
Qed.

(** ** Visibility rebuild *)

Lemma fold_pushVisible (D RS : Z) (items rows : list DataItem)
    (cache : list Z) (h : Z) :
  (fold_left (pushVisible D RS) items (rows, cache, h)).1 =
  (rows ++ items, cache ++ cumulative D RS h items).
Proof.
  revert rows cache h.
  induction items as [|item items IH]; intros rows cache h; simpl.
  - by rewrite !app_nil_r.
  - rewrite IH. by rewrite <- !app_assoc.
Qed.

Lemma cumulative_length (D RS h : Z) (items : list DataItem) :
  List.length (cumulative D RS h items) = List.length items.
Proof.
  revert h. induction items as [|item items IH]; intros h; simpl; [done|].
  by rewrite IH.
Qed.

Lemma cumulative_difference (D RS : Z) (items : list DataItem) :
  forall (h : Z) (i : nat) (item : DataItem),
    items !! i = Some item ->
    nth i (cumulative D RS h items) 0
    - match i with
      | O => h
      | S j => nth j (cumulative D RS h items) 0
      end
    = getItemHeight D item + RS.
Proof.
  induction items as [|it items IH]; intros h i item Hi; [done|].
  destruct i as [|i]; simpl in *.
  - injection Hi as ->. lia.
  - specialize (IH (h + (getItemHeight D it + RS)) i item Hi).
    destruct i as [|i]; simpl in *; exact IH.
Qed.

Lemma cumulative_monotone (D RS : Z) (items : list DataItem) :
  (forall item, item ∈ items -> 0 <= getItemHeight D item + RS) ->
  forall h : Z,
    (forall j, (j < List.length items)%nat -> h <= nth j (cumulative D RS h items) 0) /\
    (forall i j, (i <= j < List.length items)%nat ->
       nth i (cumulative D RS h items) 0 <= nth j (cumulative D RS h items) 0).
Proof.
  induction items as [|it items IH]; intros Hpos h.
  - split; simpl; intros; lia.
  - assert (Hit : 0 <= getItemHeight D it + RS) by (apply Hpos; left).
    destruct (IH (fun x Hx => Hpos x (list_elem_of_further _ _ _ Hx))
                 (h + (getItemHeight D it + RS))) as [IH1 IH2].
    split.
    + intros [|j] Hj; simpl in *; [lia|].
      specialize (IH1 j). lia.
    + intros [|i] [|j] Hij; simpl in *; try lia.
      * specialize (IH1 j). lia.
      * apply IH2. lia.
Qed.

(** C6 (amended).  A visibility rebuild on a controller that has a tree
    succeeds; afterwards the visible rows are the collapse-aware traversal
    of the tree and the height cache has as many entries as there are
    rows.  When the row spacing, the height of every visible row and every
    running sum are integers of magnitude at most 2^50 (where the code's
    additions of doubles are exact), then for every valid index [i] the
    difference [heightCache[i] - heightCache[i-1]] (with [heightCache[-1]]
    taken as 0) is [getItemHeight(visibleRows[i]) + ROW_SPACE], where the
    item height is the numeric, non-zero row-height override or else the
    default; and the cache is non-decreasing when each of these
    differences is non-negative. *)
Theorem getVisibleData_cumulative (D RS : Z) (c : Controller) (tree : list TreeNode) :
  data_ c = Some tree ->
  exists c',
    getVisibleData_ D RS c = Some c' /\
    visibleData_ c' = traverse traverseChildrenCondition_ tree /\
    List.length (heightCache_ c') = List.length (visibleData_ c') /\
    (exactRows D RS (visibleData_ c') (heightCache_ c') ->
     (forall (i : nat) (item : DataItem),
        visibleData_ c' !! i = Some item ->
        nth i (heightCache_ c') 0
        - match i with O => 0 | S j => nth j (heightCache_ c') 0 end
        = getItemHeight D item + RS) /\
     ((forall item, item ∈ visibleData_ c' -> 0 <= getItemHeight D item + RS) ->
      forall i j, (i <= j < List.length (heightCache_ c'))%nat ->
        nth i (heightCache_ c') 0 <= nth j (heightCache_ c') 0)).
Proof.
  intros Hdata. unfold getVisibleData_. rewrite Hdata. simpl.
  pose proof (fold_pushVisible D RS (traverse traverseChildrenCondition_ tree)
                [] [] 0) as Hfold.
  destruct (fold_left _ _ _) as [[rows cache] h]. simpl in Hfold.
  injection Hfold as -> ->.
  eexists. split; [reflexivity|]. simpl.
  split; [done|]. split; [apply cumulative_length|].
  intros _. split; [apply cumulative_difference|].
  intros Hpos i j Hij. rewrite cumulative_length in Hij.
  by apply cumulative_monotone.
Qed.

Lemma getVisibleData_cumulative_witness :
  data_ (loaded false [leaf (Num 30); leaf NaN; leaf (Num 0)] 50)
    = Some [leaf (Num 30); leaf NaN; leaf (Num 0)] /\
  exists c',
    getVisibleData_ 20 1 (loaded false [leaf (Num 30); leaf NaN; leaf (Num 0)] 50)
      = Some c' /\
    List.length (heightCache_ c') = List.length (visibleData_ c') /\
    exactRows 20 1 (visibleData_ c') (heightCache_ c') /\
    nth 1 (heightCache_ c') 0 - nth 0 (heightCache_ c') 0 = 20 + 1 /\
    nth 0 (heightCache_ c') 0 <= nth 2 (heightCache_ c') 0.
Proof.
  split; [reflexivity|].
  destruct (getVisibleData_cumulative 20 1
              (loaded false [leaf (Num 30); leaf NaN; leaf (Num 0)] 50)
              [leaf (Num 30); leaf NaN; leaf (Num 0)] eq_refl)
    as (c' & Hrun & Hrows & Hlen & Hexact).
  exists c'. split; [exact Hrun|]. split; [exact Hlen|].
  assert (Hsmall : exactRows 20 1 (visibleData_ c') (heightCache_ c')).
  { vm_compute in Hrun. injection Hrun as <-. solve_small. }
  split; [exact Hsmall|].
  destruct (Hexact Hsmall) as [Hdiff Hmono].
  split.
  - rewrite (Hdiff 1%nat (rootItem (leaf NaN))); [reflexivity|].
    by rewrite Hrows.
  - apply Hmono.
    + rewrite Hrows. intros item Hitem. vm_compute in Hitem.
      repeat (apply elem_of_cons in Hitem as [->|Hitem]; [by vm_compute|]).
      by apply elem_of_nil in Hitem.
    + rewrite Hlen, Hrows. vm_compute. lia.
Defined.

(** C6 (as stated) fails on a negative row-height override: the override
    -40 is numeric and non-zero, so it is the row's height, and with the
    spacing 1 the cache goes from 31 down to -8.  And an override of 0,
    though numeric, is falsy in [toNumber(...) || DEFAULT_ROW_HEIGHT], so
    the row gets the default height. *)
Lemma getVisibleData_cache_can_decrease :
  (exists c',
     getVisibleData_ 20 1 (loaded false [leaf (Num 30); leaf (Num (-40))] 50) = Some c' /\
     heightCache_ c' = [31; -8] /\
     nth 1 (heightCache_ c') 0 < nth 0 (heightCache_ c') 0) /\
  (exists c',
     getVisibleData_ 20 1 (loaded false [leaf (Num 0)] 50) = Some c' /\
     heightCache_ c' = [21] /\
     Forall (fun item => specRowHeight 20 item + 1 = 1) (visibleData_ c')).
Proof.
  split; eexists; (split; [vm_compute; reflexivity|]).
  - by vm_compute.
  - split; [by vm_compute|]. by repeat constructor.
Qed.

(** ** Period map *)

(** Induction over trees, with the hypothesis available for every child. *)
Fixpoint TreeNode_children_ind (P : TreeNode -> Prop)
    (step : forall item children, Forall P children -> P (Node item children))
    (t : TreeNode) : P t :=
  match t with
  | Node item children =>
      step item children
        ((fix all (ts : list TreeNode) : Forall P ts :=
            match ts with
            | [] => List.Forall_nil P
            | t' :: ts' =>
                List.Forall_cons P t' ts' (TreeNode_children_ind P step t') (all ts')
            end) children)
  end.

Lemma checkDate_frame (date : jsval) (c : Controller) :
  isResourceChart_ (checkDate_ date c) = isResourceChart_ c /\
  periodsMap_ (checkDate_ date c) = periodsMap_ c.
Proof.
  unfold checkDate_. repeat (case_match; simpl); done.
Qed.

Lemma indexPeriod_map (c : Controller) (p : Period) :
  isResourceChart_ (indexPeriod c p) = isResourceChart_ c /\
  periodsMap_ (indexPeriod c p) = addPeriod (periodsMap_ c) p.
Proof.
  unfold indexPeriod, addPeriod.
  destruct (checkDate_frame (period_end p)
    (checkDate_ (period_start p)
       (if negb (truthyAt (periodsMap_ c) (period_id p))
        then set_periodsMap_ (<[period_id p:=p]> (periodsMap_ c)) c else c)))
    as [-> ->].
  destruct (checkDate_frame (period_start p)
       (if negb (truthyAt (periodsMap_ c) (period_id p))
        then set_periodsMap_ (<[period_id p:=p]> (periodsMap_ c)) c else c))
    as [-> ->].
  by destruct (negb _).
Qed.

Lemma fold_indexPeriod_map (ps : list Period) (c : Controller) :
  isResourceChart_ (fold_left indexPeriod ps c) = isResourceChart_ c /\
  periodsMap_ (fold_left indexPeriod ps c) = fold_left addPeriod ps (periodsMap_ c).
Proof.
  revert c. induction ps as [|p ps IH]; intros c; simpl; [done|].
  destruct (IH (indexPeriod c p)) as [-> ->].
  by destruct (indexPeriod_map c p) as [-> ->].
Qed.

(** In resource mode the map an item leaves behind depends on that item
    alone. *)
Lemma linearizeItem_map (depth index : Z) (n : nat) (item : DataItem)
    (c : Controller) :
  isResourceChart_ c = true ->
  isResourceChart_ (linearizeItem depth index n item c).2 = true /\
  periodsMap_ (linearizeItem depth index n item c).2 = nodePeriods item.
Proof.
  intros Hres. unfold linearizeItem, nodePeriods. cbn [snd].
  set (c4 := checkDate_ (baselineEnd item) _).
  assert (Hres4 : isResourceChart_ c4 = true).
  { subst c4. by rewrite !(proj1 (checkDate_frame _ _)). }
  rewrite Hres4.
  change (periods (set_meta_position depth index item)) with (periods item).
  destruct (periods item) as [ps|]; [|done].
  by destruct (fold_indexPeriod_map ps (set_periodsMap_ ∅ c4)) as [-> ->].
Qed.

Lemma linearizeNode_unfold (depth : Z) (item : DataItem)
    (children : list TreeNode) (st : Z * Controller) :
  linearizeNode depth (Node item children) st =
  let '(item', c') := linearizeItem depth st.1 (List.length children) item st.2 in
  let '(children', st') := linearizeForest (depth + 1) children (st.1 + 1, c') in
  (Node item' children', st').
Proof.
  cbn [linearizeNode].
  destruct (linearizeItem _ _ _ _ _) as [item' c'].
  generalize (st.1 + 1, c'). clear.
  induction children as [|t ts IH]; intros st; [done|].
  cbn [linearizeForest].
  destruct (linearizeNode (depth + 1) t st) as [t' st1].
  specialize (IH st1).
  destruct (linearizeForest (depth + 1) ts st1) as [ts'' st2].
  destruct ((fix siblings (ts0 : list TreeNode) (st0 : Z * Controller) := _) ts st1)
    as [ts3 st3].
  by injection IH as -> ->.
Qed.

Lemma linearizeForest_map_from_nodes (depth : Z) (ts : list TreeNode) :
  Forall (fun t => forall depth st,
            isResourceChart_ st.2 = true ->
            isResourceChart_ (linearizeNode depth t st).2.2 = true /\
            periodsMap_ (linearizeNode depth t st).2.2
              = mapAfter (traverseNode (fun _ => true) t) (periodsMap_ st.2)) ts ->
  forall st,
    isResourceChart_ st.2 = true ->
    isResourceChart_ (linearizeForest depth ts st).2.2 = true /\
    periodsMap_ (linearizeForest depth ts st).2.2
      = mapAfter (fullPassage ts) (periodsMap_ st.2).
Proof.
  induction 1 as [|t ts Ht Hts IH]; intros st Hres; [done|].
  cbn [linearizeForest].
  destruct (Ht depth st Hres) as [Hres1 Hmap1].
  destruct (linearizeNode depth t st) as [t' st1]. cbn [snd] in *.
  destruct (IH st1 Hres1) as [Hres2 Hmap2].
  destruct (linearizeForest depth ts st1) as [ts'' st2]. cbn [snd] in *.
  split; [done|]. rewrite Hmap2, Hmap1.
  unfold mapAfter, fullPassage, traverse. cbn [flat_map].
  rewrite last_app. fold (traverse (fun _ => true) ts).
  by destruct (last (traverse (fun _ => true) ts)).
Qed.

Lemma linearizeNode_map (t : TreeNode) :
  forall depth st,
    isResourceChart_ st.2 = true ->
    isResourceChart_ (linearizeNode depth t st).2.2 = true /\
    periodsMap_ (linearizeNode depth t st).2.2
      = mapAfter (traverseNode (fun _ => true) t) (periodsMap_ st.2).
Proof.
  induction t as [item children IH] using TreeNode_children_ind;
    intros depth st Hres.
  rewrite linearizeNode_unfold.
  destruct (linearizeItem_map depth st.1 (List.length children) item st.2 Hres)
    as [Hres1 Hmap1].
  destruct (linearizeItem _ _ _ _ _) as [item' c']. cbn [snd] in *.
  destruct (linearizeForest_map_from_nodes (depth + 1) children IH
              (st.1 + 1, c') Hres1) as [Hres2 Hmap2].
  destruct (linearizeForest _ _ _) as [children' st']. cbn [snd] in *.
  split; [done|]. rewrite Hmap2. cbn [snd].
  unfold mapAfter. cbn [traverseNode]. rewrite last_cons.
  change (flat_map (traverseNode (fun _ => true)) children)
    with (fullPassage children).
  by destruct (last (fullPassage children)).
Qed.

(** After [linearizeData_] in resource mode the map is the one left by the
    item visited last. *)
Lemma linearizeData_map (c : Controller) (tree : list TreeNode) :
  isResourceChart_ c = true ->
  data_ c = Some tree ->
  exists c',
    linearizeData_ c = Some c' /\
    getPeriodsMap c' = mapAfter (fullPassage tree) (periodsMap_ c).
Proof.
  intros Hres Hdata. unfold linearizeData_. simpl. rewrite Hdata. simpl.
  destruct (linearizeForest_map_from_nodes 0 tree
              (proj2 (Forall_forall _ tree) (fun t _ => linearizeNode_map t))
              (0, set_maxDate_ NaN (set_minDate_ NaN c)) Hres) as [_ Hmap].
  destruct (linearizeForest _ _ _) as [tree' st]. cbn [snd] in *.
  eexists. split; [reflexivity|]. exact Hmap.
Qed.

Lemma addPeriod_lookup (m : gmap string Period) (p : Period) (key : string) :
  key ∉ Object_prototype ->
  addPeriod m p !! key =
    match m !! key with
    | Some q => Some q
    | None => if decide (period_id p = key) then Some p else None
    end.
Proof.
  intros Hkey. unfold addPeriod, truthyAt.
  destruct (decide (period_id p = key)) as [->|Hne].
  - rewrite (bool_decide_eq_false_2 (key ∈ Object_prototype)) by done.
    rewrite orb_false_r.
    destruct (m !! key) as [q|] eqn:E.
    + rewrite bool_decide_eq_true_2 by (by eexists). simpl. by rewrite E.
    + rewrite bool_decide_eq_false_2 by (by intros [? ?]). simpl.
      apply lookup_insert_eq.
  - destruct (negb _).
    + rewrite lookup_insert_ne by done. by destruct (m !! key).
    + by destruct (m !! key).
Qed.

(** Among the periods of one node the first one with an id stays. *)
Lemma fold_addPeriod_lookup (ps : list Period) (m : gmap string Period)
    (key : string) :
  key ∉ Object_prototype ->
  fold_left addPeriod ps m !! key =
    match m !! key with
    | Some q => Some q
    | None => firstWithId key ps
    end.
Proof.
  intros Hkey. revert m.
  induction ps as [|p ps IH]; intros m; simpl; [by destruct (m !! key)|].
  rewrite IH, addPeriod_lookup by done.
  destruct (m !! key) as [q|]; [done|].
  destruct (decide (period_id p = key)) as [E|E].
  - by rewrite bool_decide_eq_true_2.
  - by rewrite bool_decide_eq_false_2.
Qed.

(** C2 (amended).  A resource-mode linearization over a tree succeeds, and
    within one node's period list the first period with an id wins: for
    the node visited last in traversal order, and every id that this node
    declares, that no node visited before it declares and that is not the
    name of a property inherited from [Object.prototype], the id→period
    map holds the first period with that id in the node's period list; a
    later period of the list with the same id does not overwrite it.
    (What the map holds for the periods of nodes visited earlier, and for
    an id that several nodes declare, is not part of this statement.) *)
Theorem linearizeData_first_period_wins (c : Controller) (tree : list TreeNode)
    (items : list DataItem) (lastItem : DataItem) (ps : list Period)
    (key : string) (p : Period) :
  isResourceChart_ c = true ->
  data_ c = Some tree ->
  fullPassage tree = items ++ [lastItem] ->
  Forall (fun item => firstWithId key (default [] (periods item)) = None) items ->
  periods lastItem = Some ps ->
  firstWithId key ps = Some p ->
  key ∉ Object_prototype ->
  exists c',
    linearizeData_ c = Some c' /\
    getPeriodsMap c' !! key = Some p.
Proof.
  intros Hres Hdata Hlast _ Hps Hfirst Hkey.
  destruct (linearizeData_map c tree Hres Hdata) as (c' & Hrun & Hmap).
  exists c'. split; [done|].
  rewrite Hmap. unfold mapAfter. rewrite Hlast, last_snoc.
  unfold nodePeriods. rewrite Hps.
  rewrite fold_addPeriod_lookup by done. by rewrite lookup_empty.
Qed.

Lemma prototype_free_P1 : "P1"%string ∉ Object_prototype.
Proof.
  intros H. unfold Object_prototype in H.
  repeat (apply elem_of_cons in H as [H|H]; [discriminate H|]).
  by apply elem_of_nil in H.
Defined.

Lemma linearizeData_first_period_wins_witness :
  exists c',
    linearizeData_
      (loaded true [resource [periodP0];
                    resource [periodP1_first; periodP1_second]] 0)
      = Some c' /\
    getPeriodsMap c' !! "P1"%string = Some periodP1_first.
Proof.
  apply (linearizeData_first_period_wins
           (loaded true [resource [periodP0];
                         resource [periodP1_first; periodP1_second]] 0)
           [resource [periodP0]; resource [periodP1_first; periodP1_second]]
           [mkItem JUndefined JUndefined JUndefined JUndefined NaN
              (Some [periodP0]) None None None None]
           (mkItem JUndefined JUndefined JUndefined JUndefined NaN
              (Some [periodP1_first; periodP1_second]) None None None None)
           [periodP1_first; periodP1_second] "P1"%string periodP1_first);
    try (vm_compute; reflexivity).
  - repeat constructor.
  - exact prototype_free_P1.
Defined.

(** C2 (as stated) fails on a first node with period "P0" and a second
    node with two periods "P1": the first "P1" period stays (the guard
    [if (!this.periodsMap_[periodId])] skips the second), and "P0" of the
    earlier node is gone (the map is reset at every node), while the map
    the claim describes has the second "P1" period and "P0". *)
Lemma linearizeData_not_last_write_wins :
  exists c',
    linearizeData_
      (loaded true [resource [periodP0];
                    resource [periodP1_first; periodP1_second]] 0) = Some c' /\
    getPeriodsMap c' !! "P1"%string = Some periodP1_first /\
    getPeriodsMap c' !! "P0"%string = None /\
    lastWriteWinsMap
      (fullPassage [resource [periodP0];
                    resource [periodP1_first; periodP1_second]])
      !! "P1"%string = Some periodP1_second /\
    lastWriteWinsMap
      (fullPassage [resource [periodP0];
                    resource [periodP1_first; periodP1_second]])
      !! "P0"%string = Some periodP0.
Proof. eexists. split; [vm_compute; reflexivity|]. by vm_compute. Qed.

(** ** Scrolling to a pixel offset *)

(** C8 (the code departs from it).  Five rows of the default height 20
    with spacing 1 (cache [21,42,63,84,105]), 50 pixels available, and
    [scrollTo(30)], where [0 < 30 <= 105 - 50]: the start index becomes
    [getIndexByHeight_(30) = 1], but the offset is computed as
    [itemIndex - previousHeight = 1 - 21 = -20] instead of
    [pxOffset - previousHeight = 30 - 21 = 9]. *)
Theorem scrollTo_offset_uses_index :
  run 20 1 (loaded false (replicate 5 (leaf NaN)) 50) = Some defaultFive /\
  heightCache_ defaultFive = [21; 42; 63; 84; 105] /\
  availableHeight_ defaultFive = Num 50 /\
  getIndexByHeight_ (heightCache_ defaultFive) (Num 30) = Num 1 /\
  exists c',
    scrollTo 20 1 (Num 30) defaultFive = Some c' /\
    startIndex_ c' = Num 1 /\
    verticalOffset_ c' = Num (-20) /\
    verticalOffset_ c' <>
      JS.sub (Num 30) (getHeightByIndexes_ (heightCache_ defaultFive) (Num 0) (Some (Num 0))).
Proof.
  repeat (split; [vm_compute; reflexivity|]).
  eexists. split; [vm_compute; reflexivity|]. by vm_compute.
Qed.

(** * Further properties of the controller *)

(** ** Height cache queries *)


Lemma rangeHeight_in_range (cache : list Z) (a b : Z) :
  0 <= a <= b -> b < Z.of_nat (List.length cache) ->
  rangeHeight cache a b = nth (Z.to_nat b) cache 0 - heightBefore cache a.
Proof.
  intros Hab Hb. unfold rangeHeight, cumulativeDifference, heightBefore.
  destruct cache as [|h0 cache]; [simpl in Hb; lia|].
  set (arr := h0 :: cache) in *.
  replace (clampIndex arr a) with a by (unfold clampIndex; lia).
  replace (clampIndex arr b) with b by (unfold clampIndex; lia).
  by rewrite Z.min_l, Z.max_r by lia.
Qed.

Lemma getHeightByIndexes_in_range (cache : list Z) (a b : Z) :
  0 <= a <= b -> b < Z.of_nat (List.length cache) ->
  getHeightByIndexes_ cache (Num a) (Some (Num b)) =
  Num (nth (Z.to_nat b) cache 0 - heightBefore cache a).
Proof.
  intros Hab Hb.
  rewrite getHeightByIndexes_rangeHeight.
  - by rewrite rangeHeight_in_range.
  - intros ->. simpl in Hb. lia.
  - left. lia.
Qed.

(** X2.  Adjacent ranges add up on a cache of integers of magnitude at most
    2^50 (where the code's subtractions and the sum are exact): for valid
    indexes [a <= b < c], the height of rows [a .. b] plus the height of
    rows [b+1 .. c] is the height of rows [a .. c]. *)
Theorem getHeightByIndexes_additive (cache : list Z) (a b c : Z) :
  Forall smallInteger cache ->
  0 <= a <= b -> b < c -> c < Z.of_nat (List.length cache) ->
  JS.add (getHeightByIndexes_ cache (Num a) (Some (Num b)))
         (getHeightByIndexes_ cache (Num (b + 1)) (Some (Num c)))
  = getHeightByIndexes_ cache (Num a) (Some (Num c)).
Proof.
  intros _ Hab Hbc Hc.
  rewrite !getHeightByIndexes_in_range by lia.
  cbn [JS.add]. f_equal.
  unfold heightBefore at 2.
  destruct (Z.eqb_spec (b + 1) 0); [lia|].
  replace (b + 1 - 1) with b by lia. lia.
Qed.

Lemma getHeightByIndexes_additive_witness :
  Forall smallInteger [10; 25; 30; 42; 50] /\
  (0 <= 1 <= 2) /\ 2 < 4 /\ 4 < Z.of_nat (List.length [10; 25; 30; 42; 50]) /\
  JS.add (getHeightByIndexes_ [10; 25; 30; 42; 50] (Num 1) (Some (Num 2)))
         (getHeightByIndexes_ [10; 25; 30; 42; 50] (Num (2 + 1)) (Some (Num 4)))
  = getHeightByIndexes_ [10; 25; 30; 42; 50] (Num 1) (Some (Num 4)).
Proof.
  assert (Hsmall : Forall smallInteger [10; 25; 30; 42; 50]) by solve_small.
  split; [exact Hsmall|].
  split; [lia|]. split; [lia|]. split; [simpl; lia|].
  apply (getHeightByIndexes_additive [10; 25; 30; 42; 50] 1 2 4 Hsmall);
    simpl; lia.
Defined.

(** With one argument the range runs to the last row. *)
Lemma getHeightByIndexes_to_end (cache : list Z) (a : Z) :
  0 <= a < Z.of_nat (List.length cache) ->
  getHeightByIndexes_ cache (Num a) None =
  Num (contentHeight cache - heightBefore cache a).
Proof.
  intros Ha.
  assert (getHeightByIndexes_ cache (Num a) None =
          getHeightByIndexes_ cache (Num a)
            (Some (Num (Z.of_nat (List.length cache) - 1)))) as ->.
  { unfold getHeightByIndexes_. cbn [JS.length JS.sub JS.min].
    by rewrite Z.min_id. }
  rewrite getHeightByIndexes_in_range by lia.
  unfold contentHeight. do 3 f_equal. lia.
Qed.

Lemma row_of_pixel (cache : list Z) (i t : Z) :
  sortedCache cache ->
  0 <= i < Z.of_nat (List.length cache) ->
  heightBefore cache i < t <= nth (Z.to_nat i) cache 0 ->
  getIndexByHeight_ cache (Num t) = Num i.
Proof.
  intros Hsorted Hi Ht.
  destruct (getIndexByHeight_lower_bound cache t Hsorted)
    as (p & -> & Hp & Hbelow & Habove).
  f_equal.
  destruct (Z.lt_trichotomy p i) as [Hlt|[->|Hgt]]; [|done|].
  - exfalso. unfold heightBefore in Ht.
    destruct (Z.eqb_spec i 0); [lia|].
    specialize (Habove p ltac:(lia)).
    assert (nth (Z.to_nat p) cache 0 <= nth (Z.to_nat (i - 1)) cache 0)
      by (apply Hsorted; lia).
    lia.
  - exfalso. specialize (Hbelow i ltac:(lia)). lia.
Qed.

(** X3.  A target inside row [i] (above the cumulative height before the row,
    at most the cumulative height including it) is mapped to [i]. *)
Theorem getIndexByHeight_row_of_pixel (cache : list Z) (i t : Z) :
  sortedCache cache ->
  0 <= i < Z.of_nat (List.length cache) ->
  heightBefore cache i < t <= nth (Z.to_nat i) cache 0 ->
  getIndexByHeight_ cache (Num t) = Num i.
Proof. apply row_of_pixel. Qed.

Lemma getIndexByHeight_row_of_pixel_witness :
  sortedCache [10; 25; 30] /\
  getIndexByHeight_ [10; 25; 30] (Num 11) = Num 1.
Proof.
  assert (Hs : sortedCache [10; 25; 30]).
  { intros i j Hij. simpl in Hij.
    destruct i as [|[|[|i]]], j as [|[|[|j]]]; simpl; lia. }
  split; [exact Hs|].
  apply (getIndexByHeight_row_of_pixel [10; 25; 30] 1 11 Hs);
    [simpl; lia | vm_compute; split; [reflexivity | discriminate]].
Defined.

Lemma binarySearch_loop_NaN (fuel : nat) (arr : list Z) :
  forall (l r : Z) (found : bool),
    (binarySearch_loop fuel arr NaN l r found).1.1 = l.
Proof.
  induction fuel as [|fuel IH]; intros l r found; [done|].
  cbn [binarySearch_loop]. destruct (l <? r); [|done].
  unfold defaultCompare. cbn [JS.gt JS.lt]. simpl (0 <? 0). apply IH.
Qed.

Lemma getIndexByHeight_NaN (cache : list Z) :
  getIndexByHeight_ cache NaN = Num 0.
Proof.
  rewrite getIndexByHeight_position. unfold searchPosition.
  by rewrite binarySearch_loop_NaN.
Qed.

(** X4.  The result of the height-to-index query always lies between 0 and the
    length, whatever the target and the cache (the negative "not found"
    results of the binary search are turned back into insert positions);
    a [NaN] target gives 0. *)
Theorem getIndexByHeight_range (cache : list Z) (height : number) :
  (exists p, getIndexByHeight_ cache height = Num p /\
             0 <= p <= Z.of_nat (List.length cache)) /\
  getIndexByHeight_ cache NaN = Num 0.
Proof.
  split.
  - exists (searchPosition cache height).
    split; [apply getIndexByHeight_position | apply searchPosition_range].
  - apply getIndexByHeight_NaN.
Qed.

(** X5.  On a non-decreasing cache a target above every cumulative sum gives
    the length: one past the last valid index. *)
Theorem getIndexByHeight_past_end (cache : list Z) (t : Z) :
  sortedCache cache ->
  cache <> [] ->
  contentHeight cache < t ->
  getIndexByHeight_ cache (Num t) = Num (Z.of_nat (List.length cache)).
Proof.
  intros Hsorted Hne Ht.
  destruct (getIndexByHeight_lower_bound cache t Hsorted)
    as (p & -> & Hp & Hbelow & Habove).
  f_equal.
  destruct (Z.eq_dec p (Z.of_nat (List.length cache))) as [|Hne']; [done|].
  exfalso.
  assert (0 < Z.of_nat (List.length cache)) by (destruct cache; simpl; [done|lia]).
  specialize (Habove (Z.of_nat (List.length cache) - 1) ltac:(lia)).
  unfold contentHeight in Ht.
  replace (Z.to_nat (Z.of_nat (List.length cache) - 1))
    with (Nat.pred (List.length cache)) in Habove by lia.
  lia.
Qed.

Lemma sortedCache_example : sortedCache [10; 25; 30].
Proof.
  intros i j Hij. simpl in Hij.
  destruct i as [|[|[|i]]], j as [|[|[|j]]]; simpl; lia.
Defined.

Lemma getIndexByHeight_past_end_witness :
  sortedCache [10; 25; 30] /\ contentHeight [10; 25; 30] < 31 /\
  getIndexByHeight_ [10; 25; 30] (Num 31) = Num 3.
Proof.
  split; [exact sortedCache_example|]. split; [by vm_compute|].
  apply (getIndexByHeight_past_end [10; 25; 30] 31 sortedCache_example);
    [discriminate | by vm_compute].
Defined.

(** ** The cache built by the visibility rebuild *)

Lemma nth_cumulative (D RS : Z) (items : list DataItem) :
  forall (h : Z) (i : nat),
    (i < List.length items)%nat ->
    nth i (cumulative D RS h items) 0 =
    h + foldr Z.add 0 (map (fun item => getItemHeight D item + RS) (take (S i) items)).
Proof.
  induction items as [|it items IH]; intros h i Hi; simpl in Hi; [lia|].
  destruct i as [|i]; simpl.
  - lia.
  - rewrite IH by lia. simpl. lia.
Qed.

Lemma foldr_add_app (l1 l2 : list Z) :
  foldr Z.add 0 (l1 ++ l2) = foldr Z.add 0 l1 + foldr Z.add 0 l2.
Proof. induction l1 as [|x l1 IH]; simpl; lia. Qed.

(** X6.  After a visibility rebuild in which the row spacing, the height of
    every visible row and every running sum are integers of magnitude at
    most 2^50 (where the code's additions and subtractions of doubles are
    exact), the range-height query over the valid rows [a .. b], [a <= b],
    returns the sum of the heights of these rows, spacing included. *)
Theorem getVisibleData_range_is_sum (D RS : Z) (c c' : Controller) (a b : nat) :
  getVisibleData_ D RS c = Some c' ->
  exactRows D RS (visibleData_ c') (heightCache_ c') ->
  (a <= b < List.length (visibleData_ c'))%nat ->
  getHeightByIndexes_ (heightCache_ c') (Num (Z.of_nat a)) (Some (Num (Z.of_nat b)))
  = Num (rowsHeight D RS (visibleData_ c') a b).
Proof.
  unfold getVisibleData_. destruct (data_ c) as [tree|]; [|done]. simpl.
  pose proof (fold_pushVisible D RS (traverse traverseChildrenCondition_ tree)
                [] [] 0) as Hfold.
  destruct (fold_left _ _ _) as [[rows cache] h]. simpl in Hfold.
  injection Hfold as -> ->.
  intros [= <-]. simpl. intros _ Hab.
  set (rows := traverse traverseChildrenCondition_ tree) in *.
  rewrite getHeightByIndexes_in_range
    by (rewrite ?cumulative_length; lia).
  f_equal. rewrite Nat2Z.id, nth_cumulative by lia.
  unfold rowsHeight, heightBefore.
  assert (Hsplit : take (S b) rows = take a rows ++ take (S b - a) (drop a rows)).
  { rewrite take_take_drop. f_equal. lia. }
  rewrite Hsplit, map_app, foldr_add_app.
  destruct (Z.eqb_spec (Z.of_nat a) 0) as [Ha|Ha].
  - assert (a = 0%nat) as -> by lia. simpl. lia.
  - replace (Z.to_nat (Z.of_nat a - 1)) with (Nat.pred a) by lia.
    rewrite nth_cumulative by lia.
    replace (S (Nat.pred a)) with a by lia. lia.
Qed.

Lemma getVisibleData_range_is_sum_witness :
  exists c',
    getVisibleData_ 20 1 (loaded false [leaf (Num 30); leaf NaN; leaf (Num 7)] 50)
      = Some c' /\
    getHeightByIndexes_ (heightCache_ c') (Num 1) (Some (Num 2)) = Num 29.
Proof.
  eexists. split; [vm_compute; reflexivity|].
  refine (getVisibleData_range_is_sum 20 1
            (loaded false [leaf (Num 30); leaf NaN; leaf (Num 7)] 50) _ 1 2
            eq_refl _ _).
  - solve_small.
  - simpl. lia.
Defined.

(** ** The linearizer *)

Lemma linearizeItem_split (depth index : Z) (n : nat) (item : DataItem)
    (c : Controller) :
  linearizeItem depth index n item c =
  (annotated depth index n item, visitController item c).
Proof.
  unfold linearizeItem, visitController, annotated. cbn [snd].
  f_equal. destruct item as [a1 a2 b1 b2 rh ps col md mi mc].
  destruct n as [|n], col as [b|]; reflexivity.
Qed.

Lemma walk_cons (depth : Z) (item : DataItem) (children ts : list TreeNode) :
  walk depth (Node item children :: ts) =
  (depth, List.length children, item) :: walk (depth + 1) children ++ walk depth ts.
Proof. reflexivity. Qed.

Lemma annotateFrom_app (index : Z) (l1 l2 : list (Z * nat * DataItem)) :
  annotateFrom index (l1 ++ l2) =
  annotateFrom index l1 ++ annotateFrom (index + Z.of_nat (List.length l1)) l2.
Proof.
  revert index. induction l1 as [|[[d n] it] l1 IH]; intros index; simpl.
  - by rewrite Z.add_0_r.
  - rewrite IH. do 3 f_equal. lia.
Qed.

Lemma annotateFrom_lookup (nodes : list (Z * nat * DataItem)) :
  forall (index : Z) (k : nat) (d : Z) (n : nat) (item : DataItem),
    nodes !! k = Some (d, n, item) ->
    annotateFrom index nodes !! k
    = Some (d, n, annotated d (index + Z.of_nat k) n item).
Proof.
  induction nodes as [|[[d0 n0] it0] nodes IH]; intros index k d n item Hk; [done|].
  destruct k as [|k]; simpl in *.
  - injection Hk as -> -> ->. by rewrite Z.add_0_r.
  - rewrite (IH (index + 1) k d n item Hk). do 3 f_equal. lia.
Qed.

Lemma annotateFrom_length (index : Z) (nodes : list (Z * nat * DataItem)) :
  List.length (annotateFrom index nodes) = List.length nodes.
Proof.
  revert index. induction nodes as [|[[d n] it] nodes IH]; intros index; simpl;
    [done | by rewrite IH].
Qed.

Lemma linearizeForest_pass_from_nodes (depth : Z) (ts : list TreeNode) :
  Forall (fun t => forall depth st,
            passResult depth [t] st
              (let r := linearizeNode depth t st in ([r.1], r.2))) ts ->
  forall st, passResult depth ts st (linearizeForest depth ts st).
Proof.
  induction 1 as [|t ts Ht Hts IH]; intros st.
  - unfold passResult. simpl. split; [done|]. split; [lia|done].
  - cbn [linearizeForest].
    specialize (Ht depth st).
    destruct (linearizeNode depth t st) as [t' st1]. cbn [fst snd] in Ht.
    specialize (IH st1).
    destruct (linearizeForest depth ts st1) as [ts' st2].
    unfold passResult in *. cbn [fst snd] in *.
    destruct Ht as (Hw1 & Hi1 & Hc1), IH as (Hw2 & Hi2 & Hc2).
    clear Hts. unfold walk in *. cbn [flat_map] in *.
    rewrite !app_nil_r in Hw1. rewrite app_nil_r in Hi1, Hc1.
    rewrite annotateFrom_app, length_app, fold_left_app.
    rewrite Hw1, Hw2, Hi2, Hi1, Hc2, Hc1.
    split; [done|]. split; [lia|done].
Qed.

Lemma linearizeForest_length (depth : Z) (ts : list TreeNode) :
  forall st, List.length (linearizeForest depth ts st).1 = List.length ts.
Proof.
  induction ts as [|t ts IH]; intros st; [done|].
  cbn [linearizeForest].
  destruct (linearizeNode depth t st) as [t' st1].
  specialize (IH st1).
  destruct (linearizeForest depth ts st1) as [ts' st2].
  simpl in *. by rewrite IH.
Qed.

Lemma linearizeNode_pass (t : TreeNode) :
  forall depth st,
    passResult depth [t] st (let r := linearizeNode depth t st in ([r.1], r.2)).
Proof.
  induction t as [item children IH] using TreeNode_children_ind;
    intros depth st.
  rewrite linearizeNode_unfold, linearizeItem_split.
  pose proof (linearizeForest_pass_from_nodes (depth + 1) children IH
                (st.1 + 1, visitController item st.2)) as Hch.
  pose proof (linearizeForest_length (depth + 1) children
                (st.1 + 1, visitController item st.2)) as Hlen.
  destruct (linearizeForest _ _ _) as [children' st'].
  unfold passResult in *. cbn [fst snd] in *.
  destruct Hch as (Hw & Hi & Hc).
  rewrite !walk_cons. unfold walk at 2 4 5 7. cbn [flat_map].
  rewrite !app_nil_r. cbn [annotateFrom fold_left List.length snd].
  fold (walk (depth + 1) children).
  rewrite Hw, Hi, Hc, Hlen.
  split; [done|]. split; [lia|done].
Qed.

Lemma linearizeForest_pass (depth : Z) (ts : list TreeNode) (st : Z * Controller) :
  passResult depth ts st (linearizeForest depth ts st).
Proof.
  apply linearizeForest_pass_from_nodes.
  apply Forall_forall. intros t _. apply linearizeNode_pass.
Qed.

Lemma fullPassage_walk (depth : Z) (ts : list TreeNode) :
  fullPassage ts = map snd (walk depth ts).
Proof.
  revert depth.
  induction ts as [|t ts IH]; intros depth; [done|].
  unfold fullPassage, traverse, walk in *. cbn [flat_map].
  rewrite map_app, <- (IH depth). f_equal. clear IH.
  revert depth.
  induction t as [item children IHt] using TreeNode_children_ind; intros depth.
  cbn [traverseNode walkNode map snd]. f_equal.
  induction IHt as [|t' ts' Ht' _ IHts]; [done|].
  cbn [flat_map]. by rewrite map_app, <- Ht', <- IHts.
Qed.

(** X7.  Linearization numbers the nodes in traversal order: the node visited
    [k]-th keeps its depth, its number of children and its data fields,
    and gets depth and index [k] written to its meta slots, and the
    collapsed flag copied to meta when the node has children and the flag
    is defined. *)
Theorem linearizeData_numbers_nodes (c : Controller) (tree : list TreeNode) :
  data_ c = Some tree ->
  exists c' tree',
    linearizeData_ c = Some c' /\
    data_ c' = Some tree' /\
    List.length (walk 0 tree') = List.length (walk 0 tree) /\
    forall (k : nat) (d : Z) (n : nat) (item : DataItem),
      walk 0 tree !! k = Some (d, n, item) ->
      walk 0 tree' !! k = Some (d, n, annotated d (Z.of_nat k) n item).
Proof.
  intros Hdata. unfold linearizeData_. simpl. rewrite Hdata. simpl.
  destruct (linearizeForest_pass 0 tree (0, set_maxDate_ NaN (set_minDate_ NaN c)))
    as (Hw & _ & _).
  destruct (linearizeForest _ _ _) as [tree' st]. cbn [fst snd] in *.
  exists (set_data_ (Some tree') st.2), tree'.
  split; [done|]. split; [done|]. rewrite Hw.
  split; [apply annotateFrom_length|].
  intros k d n item Hk. by rewrite (annotateFrom_lookup _ 0 k d n item Hk).
Qed.

Lemma linearizeData_numbers_nodes_witness :
  exists c' tree',
    linearizeData_
      (loaded false [Node (rootItem (leaf NaN)) [leaf (Num 5)]; leaf (Num 7)] 0)
      = Some c' /\
    data_ c' = Some tree' /\
    walk 0 tree' !! 2%nat
    = Some (0, 0%nat, annotated 0 2 0 (rootItem (leaf (Num 7)))).
Proof.
  destruct (linearizeData_numbers_nodes
              (loaded false [Node (rootItem (leaf NaN)) [leaf (Num 5)]; leaf (Num 7)] 0)
              [Node (rootItem (leaf NaN)) [leaf (Num 5)]; leaf (Num 7)] eq_refl)
    as (c' & tree' & H1 & H2 & _ & H3).
  exists c', tree'. split; [exact H1|]. split; [exact H2|].
  apply (H3 2%nat 0 0%nat (rootItem (leaf (Num 7)))). reflexivity.
Defined.

(** *** The date range *)

Lemma dateRange_snoc (l : list Z) (d : Z) :
  dateRange (l ++ [d]) =
  match dateRange l with
  | (Num a, Num b) => (Num (Z.min a d), Num (Z.max b d))
  | _ => (Num d, Num d)
  end.
Proof.
  destruct l as [|x l]; [done|].
  simpl. by rewrite !fold_left_app.
Qed.

Lemma checkDate_range (v : jsval) (c : Controller) (l : list Z) :
  rangeState c = dateRange l ->
  rangeState (checkDate_ v c) = dateRange (l ++ omap validDate [v]).
Proof.
  intros H. unfold rangeState in *.
  destruct v as [|[|d]|s]; simpl; rewrite ?app_nil_r; try done.
  rewrite dateRange_snoc, <- H.
  unfold checkDate_.
  destruct c as [res pm dt rows cache si ei vo ah pr mn mx k]. simpl in *.
  destruct l as [|x l]; simpl in H; injection H as -> ->; simpl.
  - repeat (rewrite Z.ltb_irrefl; simpl). done.
  - destruct (Z.ltb_spec d (fold_left Z.min l x)) as [H1|H1]; simpl;
      destruct (Z.ltb_spec (fold_left Z.max l x) d) as [H2|H2]; simpl;
      f_equal; f_equal; lia.
Qed.

(** The parts of the controller the date check and the period index never
    touch. *)
Lemma checkDate_view (v : jsval) (c : Controller) :
  viewportState (checkDate_ v c) = viewportState c /\
  data_ (checkDate_ v c) = data_ c.
Proof.
  unfold checkDate_. repeat (case_match; simpl); done.
Qed.

Lemma indexPeriod_effect (c : Controller) (p : Period) (l : list Z) :
  rangeState c = dateRange l ->
  rangeState (indexPeriod c p)
    = dateRange (l ++ omap validDate [period_start p; period_end p]) /\
  viewportState (indexPeriod c p) = viewportState c /\
  data_ (indexPeriod c p) = data_ c.
Proof.
  intros H. unfold indexPeriod.
  set (c1 := if negb _ then _ else c).
  assert (H1 : rangeState c1 = dateRange l) by (subst c1; by destruct (negb _)).
  assert (V1 : viewportState c1 = viewportState c /\ data_ c1 = data_ c)
    by (subst c1; by destruct (negb _)).
  pose proof (checkDate_range (period_start p) c1 l H1) as H2.
  pose proof (checkDate_range (period_end p) _ _ H2) as H3.
  destruct (checkDate_view (period_start p) c1) as [V2 D2].
  destruct (checkDate_view (period_end p) (checkDate_ (period_start p) c1)) as [V3 D3].
  split.
  - rewrite H3, <- app_assoc, <- omap_app. done.
  - rewrite V3, V2, D3, D2. done.
Qed.

Lemma fold_indexPeriod_effect (ps : list Period) (c : Controller) (l : list Z) :
  rangeState c = dateRange l ->
  rangeState (fold_left indexPeriod ps c)
    = dateRange (l ++ omap validDate
                        (flat_map (fun p => [period_start p; period_end p]) ps)) /\
  viewportState (fold_left indexPeriod ps c) = viewportState c /\
  data_ (fold_left indexPeriod ps c) = data_ c.
Proof.
  revert c l. induction ps as [|p ps IH]; intros c l H; cbn [fold_left flat_map].
  - by rewrite app_nil_r.
  - destruct (indexPeriod_effect c p l H) as (H1 & V1 & D1).
    destruct (IH _ _ H1) as (H2 & V2 & D2).
    rewrite H2, V2, V1, D2, D1. split; [|done].
    by rewrite <- app_assoc, <- omap_app.
Qed.

(** Everything a visit does to the controller. *)
Lemma visitController_effect (item : DataItem) (c : Controller) (l : list Z) :
  rangeState c = dateRange l ->
  rangeState (visitController item c)
    = dateRange (l ++ itemDates (isResourceChart_ c) item) /\
  viewportState (visitController item c) = viewportState c /\
  data_ (visitController item c) = data_ c /\
  isResourceChart_ (visitController item c) = isResourceChart_ c /\
  periodsMap_ (visitController item c)
    = if isResourceChart_ c then nodePeriods item else periodsMap_ c.
Proof.
  intros H0. unfold visitController, linearizeItem. cbn [snd].
  change (periods (set_meta_position 0 0 item)) with (periods item).
  pose proof (checkDate_range (actualStart item) c l H0) as H1.
  destruct (checkDate_view (actualStart item) c) as [V1 D1].
  destruct (checkDate_frame (actualStart item) c) as [R1 P1].
  set (c1 := checkDate_ (actualStart item) c) in *.
  pose proof (checkDate_range (actualEnd item) c1 _ H1) as H2.
  destruct (checkDate_view (actualEnd item) c1) as [V2 D2].
  destruct (checkDate_frame (actualEnd item) c1) as [R2 P2].
  set (c2 := checkDate_ (actualEnd item) c1) in *.
  pose proof (checkDate_range (baselineStart item) c2 _ H2) as H3.
  destruct (checkDate_view (baselineStart item) c2) as [V3 D3].
  destruct (checkDate_frame (baselineStart item) c2) as [R3 P3].
  set (c3 := checkDate_ (baselineStart item) c2) in *.
  pose proof (checkDate_range (baselineEnd item) c3 _ H3) as H4.
  destruct (checkDate_view (baselineEnd item) c3) as [V4 D4].
  destruct (checkDate_frame (baselineEnd item) c3) as [R4 P4].
  set (c4 := checkDate_ (baselineEnd item) c3) in *.
  assert (R : isResourceChart_ c4 = isResourceChart_ c) by congruence.
  assert (V : viewportState c4 = viewportState c) by congruence.
  assert (D : data_ c4 = data_ c) by congruence.
  assert (P : periodsMap_ c4 = periodsMap_ c) by congruence.
  assert (H4' : rangeState c4 = dateRange
            (l ++ omap validDate [actualStart item; actualEnd item;
                                  baselineStart item; baselineEnd item])).
  { rewrite H4, <- !app_assoc. f_equal. f_equal.
    change [actualStart item; actualEnd item; baselineStart item; baselineEnd item]
      with ([actualStart item] ++ [actualEnd item] ++ [baselineStart item]
            ++ [baselineEnd item]).
    by rewrite !omap_app. }
  unfold itemDates. rewrite omap_app, app_assoc, R.
  destruct (isResourceChart_ c).
  - destruct (periods item) as [ps|] eqn:Eps.
    + destruct (fold_indexPeriod_effect ps (set_periodsMap_ ∅ c4) _ H4')
        as (Hr & Hv & Hd).
      destruct (fold_indexPeriod_map ps (set_periodsMap_ ∅ c4)) as [Hres Hmap].
      rewrite Hr, Hv, Hd, Hres, Hmap. unfold nodePeriods. rewrite Eps.
      split; [reflexivity|]. split; [exact V|]. split; [exact D|].
      split; [exact R | reflexivity].
    + change (omap validDate (flat_map (fun p => [period_start p; period_end p])
                                       (default [] None))) with (@nil Z).
      rewrite app_nil_r. unfold nodePeriods. rewrite Eps.
      split; [exact H4'|]. split; [exact V|]. split; [exact D|].
      split; [exact R | reflexivity].
  - change (omap validDate []) with (@nil Z). rewrite app_nil_r.
    split; [exact H4'|]. split; [exact V|]. split; [exact D|].
    split; [exact R | exact P].
Qed.

Lemma fold_visit_effect (nodes : list (Z * nat * DataItem)) :
  forall (c : Controller) (l : list Z),
    rangeState c = dateRange l ->
    let c' := fold_left (fun c x => visitController x.2 c) nodes c in
    rangeState c'
      = dateRange (l ++ flat_map (itemDates (isResourceChart_ c)) (map snd nodes)) /\
    viewportState c' = viewportState c /\
    data_ c' = data_ c /\
    isResourceChart_ c' = isResourceChart_ c /\
    periodsMap_ c'
      = if isResourceChart_ c then mapAfter (map snd nodes) (periodsMap_ c)
        else periodsMap_ c.
Proof.
  induction nodes as [|x nodes IH]; intros c l H; cbn [fold_left map flat_map].
  - rewrite app_nil_r. unfold mapAfter. simpl. by destruct (isResourceChart_ c).
  - destruct (visitController_effect x.2 c l H) as (H1 & V1 & D1 & R1 & P1).
    destruct (IH _ _ H1) as (H2 & V2 & D2 & R2 & P2).
    cbn zeta in *. rewrite H2, V2, V1, D2, D1, R2, R1, P2, R1, P1.
    rewrite <- app_assoc. repeat split; try done.
    destruct (isResourceChart_ c); [|done].
    unfold mapAfter. rewrite last_cons. by destruct (last (map snd nodes)).
Qed.

(** X8.  After linearization the date range is the minimum and the maximum of
    the numeric, non-[NaN] dates found in the four date fields of every
    node and, in resource mode, in the start and end of every period;
    both bounds are [NaN] when there is no such date. *)
Theorem linearizeData_date_range (c : Controller) (tree : list TreeNode) :
  data_ c = Some tree ->
  exists c',
    linearizeData_ c = Some c' /\
    (minDate_ c', maxDate_ c')
    = dateRange (flat_map (itemDates (isResourceChart_ c)) (fullPassage tree)).
Proof.
  intros Hdata. unfold linearizeData_. simpl. rewrite Hdata. simpl.
  destruct (linearizeForest_pass 0 tree (0, set_maxDate_ NaN (set_minDate_ NaN c)))
    as (_ & _ & Hc).
  destruct (linearizeForest _ _ _) as [tree' st]. cbn [fst snd] in *.
  eexists. split; [reflexivity|].
  destruct (fold_visit_effect (walk 0 tree)
              (set_maxDate_ NaN (set_minDate_ NaN c)) [] eq_refl)
    as (Hr & _).
  cbn zeta in Hr. rewrite <- Hc in Hr.
  rewrite (fullPassage_walk 0). exact Hr.
Qed.

Lemma linearizeData_date_range_witness :
  exists c',
    linearizeData_
      (loaded true
         [Node (mkItem (JNumber (Num 40)) (JString "x") JUndefined (JNumber NaN)
                  NaN (Some [mkPeriod "a" (JNumber (Num 7)) (JNumber (Num 90))])
                  None None None None) []] 0)
      = Some c' /\
    (minDate_ c', maxDate_ c') = (Num 7, Num 90).
Proof.
  apply (linearizeData_date_range
           (loaded true
              [Node (mkItem (JNumber (Num 40)) (JString "x") JUndefined (JNumber NaN)
                       NaN (Some [mkPeriod "a" (JNumber (Num 7)) (JNumber (Num 90))])
                       None None None None) []] 0)
           [Node (mkItem (JNumber (Num 40)) (JString "x") JUndefined (JNumber NaN)
                    NaN (Some [mkPeriod "a" (JNumber (Num 7)) (JNumber (Num 90))])
                    None None None None) []]).
  reflexivity.
Defined.

Lemma linearizeData_view (c c' : Controller) :
  linearizeData_ c = Some c' ->
  viewportState c' = viewportState c /\
  isResourceChart_ c' = isResourceChart_ c /\
  (if isResourceChart_ c then True else periodsMap_ c' = periodsMap_ c).
Proof.
  unfold linearizeData_. simpl. destruct (data_ c) as [tree|]; [|done]. simpl.
  destruct (linearizeForest_pass 0 tree (0, set_maxDate_ NaN (set_minDate_ NaN c)))
    as (_ & _ & Hc).
  destruct (linearizeForest _ _ _) as [tree' st]. cbn [fst snd] in *.
  intros [= <-].
  destruct (fold_visit_effect (walk 0 tree)
              (set_maxDate_ NaN (set_minDate_ NaN c)) [] eq_refl)
    as (_ & Hv & _ & Hres & Hmap).
  cbn zeta in *. rewrite <- Hc in *.
  split; [exact Hv|]. split; [exact Hres|].
  change (isResourceChart_ (set_maxDate_ NaN (set_minDate_ NaN c)))
    with (isResourceChart_ c) in Hmap.
  by destruct (isResourceChart_ c).
Qed.

(** X9.  Linearization leaves the rows, the height cache, the viewport and the
    dirty bits alone, and in a chart that is not a resource chart it
    leaves the period map alone too. *)
Theorem linearizeData_frame (c c' : Controller) :
  linearizeData_ c = Some c' ->
  viewportState c' = viewportState c /\
  isResourceChart_ c' = isResourceChart_ c /\
  (if isResourceChart_ c then True else periodsMap_ c' = periodsMap_ c).
Proof. apply linearizeData_view. Qed.

Lemma linearizeData_frame_witness :
  exists c',
    linearizeData_ (verticalOffset (Num 3) (loaded false [leaf (Num 5)] 40)) = Some c' /\
    viewportState c'
    = viewportState (verticalOffset (Num 3) (loaded false [leaf (Num 5)] 40)).
Proof.
  destruct (linearizeData_ (verticalOffset (Num 3) (loaded false [leaf (Num 5)] 40)))
    as [c'|] eqn:E; [|vm_compute in E; discriminate E].
  exists c'. split; [reflexivity|].
  exact (proj1 (linearizeData_frame _ _ E)).
Defined.

(** *** Linearizing twice *)

Lemma Controller_ext (c1 c2 : Controller) :
  isResourceChart_ c1 = isResourceChart_ c2 ->
  periodsMap_ c1 = periodsMap_ c2 ->
  data_ c1 = data_ c2 ->
  viewportState c1 = viewportState c2 ->
  rangeState c1 = rangeState c2 ->
  c1 = c2.
Proof.
  destruct c1, c2. unfold viewportState, rangeState. simpl.
  intros -> -> -> [= -> -> -> -> -> -> -> ->] [= -> ->]. done.
Qed.

Lemma annotated_idempotent (d i : Z) (n : nat) (item : DataItem) :
  annotated d i n (annotated d i n item) = annotated d i n item.
Proof.
  unfold annotated. simpl. f_equal.
  destruct n; [done|]. by destruct (collapsed item).
Qed.

Lemma linearizeForest_again_from_nodes (depth : Z) (ts : list TreeNode) :
  Forall (fun t => forall depth i c1 c2,
            (linearizeNode depth (linearizeNode depth t (i, c1)).1 (i, c2)).1
            = (linearizeNode depth t (i, c1)).1) ts ->
  forall i c1 c2,
    (linearizeForest depth (linearizeForest depth ts (i, c1)).1 (i, c2)).1
    = (linearizeForest depth ts (i, c1)).1.
Proof.
  induction 1 as [|t ts Ht Hts IH]; intros i c1 c2; [done|].
  cbn [linearizeForest].
  specialize (Ht depth i c1 c2).
  destruct (linearizeNode_pass t depth (i, c1)) as (Hw1 & Hi1 & _).
  destruct (linearizeNode depth t (i, c1)) as [t1 [i1 c1']].
  cbn [fst snd] in *.
  specialize (IH i1 c1').
  destruct (linearizeForest depth ts (i1, c1')) as [ts1 st2].
  cbn [fst snd linearizeForest] in *.
  destruct (linearizeNode_pass t1 depth (i, c2)) as (_ & Hi2 & _).
  destruct (linearizeNode depth t1 (i, c2)) as [t2 [i2 c2']].
  cbn [fst snd] in *. subst t2.
  assert (i2 = i1) as ->.
  { rewrite Hi2, Hi1, Hw1, annotateFrom_length. done. }
  specialize (IH c2').
  destruct (linearizeForest depth ts1 (i1, c2')) as [ts2 st3].
  cbn [fst] in *. by subst ts2.
Qed.

Lemma linearizeNode_again (t : TreeNode) :
  forall depth i c1 c2,
    (linearizeNode depth (linearizeNode depth t (i, c1)).1 (i, c2)).1
    = (linearizeNode depth t (i, c1)).1.
Proof.
  induction t as [item children IH] using TreeNode_children_ind;
    intros depth i c1 c2.
  rewrite linearizeNode_unfold, linearizeItem_split. cbn [fst snd].
  pose proof (linearizeForest_again_from_nodes (depth + 1) children IH (i + 1)
                (visitController item c1)) as Hagain.
  pose proof (linearizeForest_length (depth + 1) children
                (i + 1, visitController item c1)) as Hlen.
  destruct (linearizeForest (depth + 1) children _) as [children' st'].
  cbn [fst snd] in *.
  rewrite linearizeNode_unfold, linearizeItem_split. cbn [fst snd].
  specialize (Hagain (visitController (annotated depth i (List.length children) item) c2)).
  destruct (linearizeForest (depth + 1) children' _) as [children'' st''].
  cbn [fst] in *. subst children''.
  by rewrite Hlen, annotated_idempotent.
Qed.

Lemma linearizeForest_again (depth : Z) (ts : list TreeNode) (i : Z)
    (c1 c2 : Controller) :
  (linearizeForest depth (linearizeForest depth ts (i, c1)).1 (i, c2)).1
  = (linearizeForest depth ts (i, c1)).1.
Proof.
  apply linearizeForest_again_from_nodes.
  apply Forall_forall. intros t _. apply linearizeNode_again.
Qed.

Lemma annotateFrom_dates (res : bool) (nodes : list (Z * nat * DataItem)) :
  forall i,
    flat_map (itemDates res) (map snd (annotateFrom i nodes))
    = flat_map (itemDates res) (map snd nodes).
Proof.
  induction nodes as [|[[d n] it] nodes IH]; intros i; [done|].
  cbn [annotateFrom map flat_map snd]. by rewrite IH.
Qed.

Lemma annotateFrom_mapAfter (nodes : list (Z * nat * DataItem)) (i : Z)
    (m : gmap string Period) :
  mapAfter (map snd (annotateFrom i nodes)) (mapAfter (map snd nodes) m)
  = mapAfter (map snd nodes) m.
Proof.
  destruct nodes as [|x nodes _] using rev_ind; [done|].
  destruct x as [[d n] it].
  rewrite annotateFrom_app. cbn [annotateFrom].
  rewrite !map_app. cbn [map snd].
  unfold mapAfter. by rewrite !last_snoc.
Qed.

(** X10.  Linearizing again, with the data unchanged, changes nothing. *)
Theorem linearizeData_idempotent (c c' : Controller) :
  linearizeData_ c = Some c' ->
  linearizeData_ c' = Some c'.
Proof.
  unfold linearizeData_ at 1. simpl. destruct (data_ c) as [tree|]; [|done]. simpl.
  set (c0 := set_maxDate_ NaN (set_minDate_ NaN c)).
  pose proof (linearizeForest_again 0 tree 0 c0) as Hagain.
  destruct (linearizeForest_pass 0 tree (0, c0)) as (Hw & _ & Hc).
  destruct (linearizeForest 0 tree (0, c0)) as [tree' st]. cbn [fst snd] in *.
  intros [= <-].
  unfold linearizeData_. simpl.
  set (c0' := set_maxDate_ NaN (set_minDate_ NaN (set_data_ (Some tree') st.2))).
  specialize (Hagain c0').
  destruct (linearizeForest_pass 0 tree' (0, c0')) as (_ & _ & Hc').
  destruct (linearizeForest 0 tree' (0, c0')) as [tree'' st']. cbn [fst snd] in *.
  subst tree''. f_equal.
  destruct (fold_visit_effect (walk 0 tree) c0 [] eq_refl)
    as (Hr & Hv & Hd & Hres & Hmap).
  destruct (fold_visit_effect (walk 0 tree') c0' [] eq_refl)
    as (Hr' & Hv' & Hd' & Hres' & Hmap').
  cbn zeta in *. rewrite <- Hc in *. rewrite <- Hc' in *.
  assert (Hres0 : isResourceChart_ c0' = isResourceChart_ c0) by exact Hres.
  apply Controller_ext.
  - simpl. congruence.
  - simpl. rewrite Hmap', Hres0.
    change (periodsMap_ c0') with (periodsMap_ st.2).
    destruct (isResourceChart_ c0); [|done].
    rewrite Hmap, Hw. apply annotateFrom_mapAfter.
  - done.
  - exact Hv'.
  - change (rangeState (set_data_ (Some tree') st'.2)) with (rangeState st'.2).
    change (rangeState (set_data_ (Some tree') st.2)) with (rangeState st.2).
    rewrite Hr', Hr, Hres0, Hw. simpl. by rewrite annotateFrom_dates.
Qed.

Lemma linearizeData_idempotent_witness :
  exists c',
    linearizeData_
      (loaded true [resource [periodP0]; resource [periodP1_first]] 0) = Some c' /\
    linearizeData_ c' = Some c'.
Proof.
  destruct (linearizeData_
              (loaded true [resource [periodP0]; resource [periodP1_first]] 0))
    as [c'|] eqn:E; [|vm_compute in E; discriminate E].
  exists c'. split; [reflexivity|].
  exact (linearizeData_idempotent _ _ E).
Defined.

(** ** The overflow regimes of [recalculate] *)

Lemma contentHeight_total (c : Controller) :
  heightCache_ c <> [] ->
  totalHeight c = Num (contentHeight (heightCache_ c)).
Proof. apply totalHeight_last. Qed.

Lemma sortedCache_five : sortedCache [10; 20; 30; 40; 50].
Proof.
  intros i j Hij. simpl in Hij.
  do 5 (destruct i as [|i];
        [do 5 (destruct j as [|j]; [simpl; lia|]); simpl in *; lia|]).
  lia.
Defined.

(** The row that holds a pixel counted from the bottom of row [e]: the
    start index found for the target [cache[e] - ah] lies at or above [e],
    and the residual offset stays inside that row. *)
Lemma flush_with_bottom (cache : list Z) (e ah : Z) :
  sortedCache cache ->
  0 <= e < Z.of_nat (List.length cache) ->
  0 <= ah <= nth (Z.to_nat e) cache 0 ->
  exists s,
    getIndexByHeight_ cache (Num (nth (Z.to_nat e) cache 0 - ah)) = Num s /\
    0 <= s <= e /\
    getHeightByIndexes_ cache (Num s) (Some (Num e))
      = Num (nth (Z.to_nat e) cache 0 - heightBefore cache s) /\
    0 <= nth (Z.to_nat e) cache 0 - heightBefore cache s - ah
      <= nth (Z.to_nat s) cache 0 - heightBefore cache s.
Proof.
  intros Hsorted He Hah.
  destruct (getIndexByHeight_lower_bound cache (nth (Z.to_nat e) cache 0 - ah) Hsorted)
    as (s & Hs & Hrange & Hbelow & Habove).
  exists s. split; [exact Hs|].
  assert (Hse : s <= e).
  { destruct (Z.le_gt_cases s e) as [|Hgt]; [done|].
    specialize (Hbelow e ltac:(lia)). lia. }
  split; [lia|]. split; [apply getHeightByIndexes_in_range; lia|].
  specialize (Habove s ltac:(lia)).
  unfold heightBefore. destruct (Z.eqb_spec s 0) as [->|Hs0]; [lia|].
  specialize (Hbelow (s - 1) ltac:(lia)). lia.
Qed.

(** [resolvePosition] in the overflow regime with a numeric start index. *)
Lemma resolvePosition_start (c : Controller) :
  visibleData_ c <> [] ->
  JS.ge (availableHeight_ c) (totalHeight c) = false ->
  JS.isNaN (startIndex_ c) = false ->
  resolvePosition c =
  let cache := heightCache_ c in
  let ah := availableHeight_ c in
  if JS.lt (JS.sub (getHeightByIndexes_ cache (startIndex_ c) None)
                   (verticalOffset_ c)) ah
  then
    let s' := getIndexByHeight_ cache
                (JS.sub (JS.toNumber (JS.get cache (JS.sub (JS.length cache) (Num 1))))
                        ah) in
    let e' := JS.sub (JS.length cache) (Num 1) in
    (StartFromEnd,
     set_verticalOffset_ (JS.sub (getHeightByIndexes_ cache s' (Some e')) ah)
       (set_endIndex_ e' (set_startIndex_ s' c)))
  else
    let height :=
      if JS.eq (startIndex_ c) (Num 0) then Num 0
      else JS.toNumber (JS.get cache (JS.sub (startIndex_ c) (Num 1))) in
    (StartAnchored,
     set_endIndex_
       (getIndexByHeight_ cache (JS.add (JS.add height ah) (verticalOffset_ c))) c).
Proof.
  intros Hrows Hge Hs. unfold resolvePosition.
  rewrite truthy_length, bool_decide_eq_false_2 by done. cbn [negb].
  rewrite Hge, Hs. cbn [andb]. rewrite Hs. cbn [negb]. reflexivity.
Qed.

(** [resolvePosition] in the overflow regime with the start index unset
    and a numeric end index. *)
Lemma resolvePosition_end (c : Controller) :
  visibleData_ c <> [] ->
  JS.ge (availableHeight_ c) (totalHeight c) = false ->
  JS.isNaN (startIndex_ c) = true ->
  JS.isNaN (endIndex_ c) = false ->
  resolvePosition c =
  let cache := heightCache_ c in
  let ah := availableHeight_ c in
  if JS.lt (getHeightByIndexes_ cache (Num 0) (Some (endIndex_ c))) ah
  then
    (EndFromStart,
     set_endIndex_ (getIndexByHeight_ cache ah)
       (set_verticalOffset_ (Num 0) (set_startIndex_ (Num 0) c)))
  else
    let s' := getIndexByHeight_ cache
                (JS.sub (JS.toNumber (JS.get cache (endIndex_ c))) ah) in
    (EndAnchored,
     set_verticalOffset_
       (JS.sub (getHeightByIndexes_ cache s' (Some (endIndex_ c))) ah)
       (set_startIndex_ s' c)).
Proof.
  intros Hrows Hge Hs He. unfold resolvePosition.
  rewrite truthy_length, bool_decide_eq_false_2 by done. cbn [negb].
  rewrite Hge, Hs, He. cbn [andb]. rewrite Hs. cbn [negb]. reflexivity.
Qed.

Lemma overflow_ge (c : Controller) (ah : Z) :
  heightCache_ c <> [] ->
  availableHeight_ c = Num ah ->
  ah < contentHeight (heightCache_ c) ->
  JS.ge (availableHeight_ c) (totalHeight c) = false.
Proof.
  intros Hne -> Hlt. rewrite contentHeight_total by done. cbn [JS.ge].
  destruct (Z.leb_spec (contentHeight (heightCache_ c)) ah); [lia|done].
Qed.

Lemma heightBefore_read (cache : list Z) (s : Z) :
  0 <= s <= Z.of_nat (List.length cache) ->
  (if JS.eq (Num s) (Num 0) then Num 0
   else JS.toNumber (JS.get cache (JS.sub (Num s) (Num 1))))
  = Num (heightBefore cache s).
Proof.
  intros Hs. unfold heightBefore. cbn [JS.eq JS.sub].
  destruct (Z.eqb_spec s 0); [done|]. by rewrite get_in_range by lia.
Qed.

Lemma contentHeight_read (cache : list Z) :
  cache <> [] ->
  JS.toNumber (JS.get cache (JS.sub (JS.length cache) (Num 1)))
  = Num (contentHeight cache).
Proof.
  intros Hne. cbn [JS.length JS.sub].
  assert (0 < Z.of_nat (List.length cache)) by (destruct cache; simpl; [done|lia]).
  rewrite get_in_range by lia. unfold contentHeight. cbn [JS.toNumber].
  do 2 f_equal. lia.
Qed.

(** X11.  Start-anchored overflow.  Take a controller with at least one
    row, a non-decreasing height cache, a start index that is a valid
    index of the cache, a numeric offset, and cache entries, available
    height and offset that are integers of magnitude at most 2^50.  When
    the content is higher than the viewport and the rows from the start
    index to the end, less the offset, fill the viewport, [recalculate]
    keeps the start index and the offset and sets the end index to the row
    that holds the bottom edge of the viewport: the first row whose
    cumulative height reaches
    [heightBefore(start) + offset + availableHeight], a valid index. *)
Theorem recalculate_start_anchored (c : Controller) (s ah vo : Z) :
  exactPixels c ->
  sortedCache (heightCache_ c) ->
  visibleData_ c <> [] ->
  startIndex_ c = Num s ->
  0 <= s < Z.of_nat (List.length (heightCache_ c)) ->
  availableHeight_ c = Num ah ->
  verticalOffset_ c = Num vo ->
  ah < contentHeight (heightCache_ c) ->
  ah <= contentHeight (heightCache_ c) - heightBefore (heightCache_ c) s - vo ->
  regime c = StartAnchored /\
  startIndex_ (recalculate c) = Num s /\
  verticalOffset_ (recalculate c) = Num vo /\
  exists e,
    endIndex_ (recalculate c) = Num e /\
    0 <= e < Z.of_nat (List.length (heightCache_ c)) /\
    heightBefore (heightCache_ c) s + vo + ah <= nth (Z.to_nat e) (heightCache_ c) 0 /\
    forall i, 0 <= i < e ->
      nth (Z.to_nat i) (heightCache_ c) 0 < heightBefore (heightCache_ c) s + vo + ah.
Proof.
  intros _ Hsorted Hrows Hs Hsr Hah Hvo Hover Hfill.
  assert (Hne : heightCache_ c <> []) by (intros E; rewrite E in Hsr; simpl in Hsr; lia).
  destruct (getIndexByHeight_lower_bound (heightCache_ c)
              (heightBefore (heightCache_ c) s + ah + vo) Hsorted)
    as (e & He & Herange & Hbelow & Habove).
  assert (Hres : resolvePosition c = (StartAnchored, set_endIndex_ (Num e) c)).
  { rewrite resolvePosition_start;
      [|done|by apply (overflow_ge c ah)|by rewrite Hs].
    cbn zeta. rewrite Hs, Hvo, Hah.
    rewrite getHeightByIndexes_to_end by lia. cbn [JS.sub JS.lt].
    destruct (Z.ltb_spec
                (contentHeight (heightCache_ c) - heightBefore (heightCache_ c) s - vo)
                ah) as [|_]; [lia|].
    rewrite heightBefore_read by lia. cbn [JS.add]. by rewrite He. }
  unfold regime, recalculate. rewrite Hres. cbn [fst snd].
  split; [done|]. split; [by destruct c; simpl in *|].
  split; [by destruct c; simpl in *|].
  exists e. split; [by destruct c|].
  assert (e < Z.of_nat (List.length (heightCache_ c))).
  { destruct (Z.eq_dec e (Z.of_nat (List.length (heightCache_ c)))) as [->|]; [|lia].
    specialize (Hbelow (Z.of_nat (List.length (heightCache_ c)) - 1) ltac:(lia)).
    unfold contentHeight in Hfill.
    replace (Z.to_nat (Z.of_nat (List.length (heightCache_ c)) - 1))
      with (Nat.pred (List.length (heightCache_ c))) in Hbelow by lia.
    lia. }
  split; [lia|]. split.
  - specialize (Habove e ltac:(lia)). lia.
  - intros i Hi. specialize (Hbelow i Hi). lia.
Qed.

Lemma recalculate_start_anchored_witness :
  exactPixels anchoredAtOne /\
  regime anchoredAtOne = StartAnchored /\
  endIndex_ (recalculate anchoredAtOne) = Num 3.
Proof.
  assert (Hsmall : exactPixels anchoredAtOne) by solve_small.
  split; [exact Hsmall|].
  destruct (recalculate_start_anchored anchoredAtOne 1 25 0
              Hsmall sortedCache_five ltac:(discriminate) eq_refl ltac:(simpl; lia)
              eq_refl eq_refl ltac:(by vm_compute) ltac:(by vm_compute))
    as (H1 & _ & _ & e & He & _).
  split; [exact H1 | reflexivity].
Defined.

(** X12.  Start index too close to the end.  Take a controller with at
    least one row, a non-decreasing height cache, a start index that is a
    valid index of the cache, a numeric offset, a non-negative available
    height, and cache entries, available height and offset that are
    integers of magnitude at most 2^50.  When the content is higher than
    the viewport but the rows from the start index to the end, less the
    offset, do not fill it, [recalculate] resolves from the end: the end
    index is the last row, and the start index and the offset are chosen
    so that the viewport ends exactly at the end of the content, the
    offset staying inside the start row. *)
Theorem recalculate_start_from_end (c : Controller) (s0 ah vo : Z) :
  exactPixels c ->
  sortedCache (heightCache_ c) ->
  visibleData_ c <> [] ->
  startIndex_ c = Num s0 ->
  0 <= s0 < Z.of_nat (List.length (heightCache_ c)) ->
  availableHeight_ c = Num ah ->
  verticalOffset_ c = Num vo ->
  0 <= ah < contentHeight (heightCache_ c) ->
  contentHeight (heightCache_ c) - heightBefore (heightCache_ c) s0 - vo < ah ->
  regime c = StartFromEnd /\
  endIndex_ (recalculate c) = Num (Z.of_nat (List.length (heightCache_ c)) - 1) /\
  exists s o,
    startIndex_ (recalculate c) = Num s /\
    verticalOffset_ (recalculate c) = Num o /\
    0 <= s < Z.of_nat (List.length (heightCache_ c)) /\
    0 <= o <= nth (Z.to_nat s) (heightCache_ c) 0 - heightBefore (heightCache_ c) s /\
    heightBefore (heightCache_ c) s + o + ah = contentHeight (heightCache_ c).
Proof.
  intros _ Hsorted Hrows Hs Hsr Hah Hvo Hover Hshort.
  assert (Hne : heightCache_ c <> []) by (intros E; rewrite E in Hsr; simpl in Hsr; lia).
  set (cache := heightCache_ c) in *.
  set (n := Z.of_nat (List.length cache)) in *.
  assert (Hlast : nth (Z.to_nat (n - 1)) cache 0 = contentHeight cache).
  { unfold contentHeight. f_equal. lia. }
  assert (Hn : 0 <= n - 1 < Z.of_nat (List.length cache)) by (unfold n in *; lia).
  assert (Hb : 0 <= ah <= nth (Z.to_nat (n - 1)) cache 0) by (rewrite Hlast; lia).
  destruct (flush_with_bottom cache (n - 1) ah Hsorted Hn Hb)
    as (s & Hidx & Hsrange & Hrange & Hoff).
  rewrite Hlast in *.
  assert (Hres : resolvePosition c =
            (StartFromEnd,
             set_verticalOffset_ (Num (contentHeight cache - heightBefore cache s - ah))
               (set_endIndex_ (Num (n - 1)) (set_startIndex_ (Num s) c)))).
  { rewrite resolvePosition_start;
      [|done|apply (overflow_ge c ah); [done|done|exact (proj2 Hover)]|by rewrite Hs].
    cbn zeta. fold cache. rewrite Hs, Hvo, Hah.
    rewrite getHeightByIndexes_to_end by lia. cbn [JS.sub JS.lt].
    destruct (Z.ltb_spec (contentHeight cache - heightBefore cache s0 - vo) ah)
      as [_|]; [|lia].
    rewrite contentHeight_read by done. cbn [JS.sub JS.length]. fold n.
    rewrite Hidx, Hrange. done. }
  unfold regime, recalculate. rewrite Hres. cbn [fst snd].
  split; [done|]. split; [by destruct c|].
  exists s, (contentHeight cache - heightBefore cache s - ah).
  split; [by destruct c|]. split; [by destruct c|].
  split; [lia|]. split; lia.
Qed.

Lemma recalculate_start_from_end_witness :
  exactPixels (startIndex (Num 4) anchoredAtOne) /\
  regime (startIndex (Num 4) anchoredAtOne) = StartFromEnd /\
  startIndex_ (recalculate (startIndex (Num 4) anchoredAtOne)) = Num 2 /\
  verticalOffset_ (recalculate (startIndex (Num 4) anchoredAtOne)) = Num 5.
Proof.
  assert (Hsmall : exactPixels (startIndex (Num 4) anchoredAtOne)) by solve_small.
  split; [exact Hsmall|].
  destruct (recalculate_start_from_end (startIndex (Num 4) anchoredAtOne) 4 25 0
              Hsmall sortedCache_five ltac:(discriminate) eq_refl ltac:(simpl; lia)
              eq_refl eq_refl ltac:(by vm_compute) ltac:(by vm_compute))
    as (H1 & _).
  split; [exact H1|]. split; reflexivity.
Defined.

(** X13.  End-anchored overflow.  Take a controller with at least one row,
    a non-decreasing height cache, the start index unset, an end index [e]
    that is a valid index of the cache, a non-negative available height,
    and cache entries, available height and offset that are integers of
    magnitude at most 2^50.  When the content is higher than the viewport
    and the rows up to [e] are at least as high as the viewport,
    [recalculate] keeps the end index and chooses the start index, not
    after [e], and the offset so that the viewport ends exactly at the
    bottom of row [e]; the offset is recomputed and stays inside the start
    row. *)
Theorem recalculate_end_anchored (c : Controller) (e ah : Z) :
  exactPixels c ->
  sortedCache (heightCache_ c) ->
  visibleData_ c <> [] ->
  startIndex_ c = NaN ->
  endIndex_ c = Num e ->
  0 <= e < Z.of_nat (List.length (heightCache_ c)) ->
  availableHeight_ c = Num ah ->
  0 <= ah < contentHeight (heightCache_ c) ->
  ah <= nth (Z.to_nat e) (heightCache_ c) 0 ->
  regime c = EndAnchored /\
  endIndex_ (recalculate c) = Num e /\
  exists s o,
    startIndex_ (recalculate c) = Num s /\
    verticalOffset_ (recalculate c) = Num o /\
    0 <= s <= e /\
    0 <= o <= nth (Z.to_nat s) (heightCache_ c) 0 - heightBefore (heightCache_ c) s /\
    heightBefore (heightCache_ c) s + o + ah = nth (Z.to_nat e) (heightCache_ c) 0.
Proof.
  intros _ Hsorted Hrows Hs He Her Hah Hover Hfill.
  assert (Hne : heightCache_ c <> []) by (intros E; rewrite E in Her; simpl in Her; lia).
  set (cache := heightCache_ c) in *.
  destruct (flush_with_bottom cache e ah Hsorted ltac:(lia) ltac:(lia))
    as (s & Hidx & Hsrange & Hrange & Hoff).
  assert (Hres : resolvePosition c =
            (EndAnchored,
             set_verticalOffset_
               (Num (nth (Z.to_nat e) cache 0 - heightBefore cache s - ah))
               (set_startIndex_ (Num s) c))).
  { rewrite resolvePosition_end;
      [|done|apply (overflow_ge c ah); [done|done|exact (proj2 Hover)]
       |by rewrite Hs|by rewrite He].
    cbn zeta. fold cache. rewrite He, Hah.
    rewrite getHeightByIndexes_in_range by lia.
    unfold heightBefore at 1. simpl (0 =? 0). rewrite Z.sub_0_r. cbn [JS.lt].
    destruct (Z.ltb_spec (nth (Z.to_nat e) cache 0) ah) as [|_]; [lia|].
    rewrite get_in_range by lia. cbn [JS.toNumber JS.sub].
    rewrite Hidx, Hrange. done. }
  unfold regime, recalculate. rewrite Hres. cbn [fst snd].
  split; [done|]. split; [by destruct c; simpl in *|].
  exists s, (nth (Z.to_nat e) cache 0 - heightBefore cache s - ah).
  split; [by destruct c|]. split; [by destruct c|].
  split; [lia|]. split; lia.
Qed.

Lemma recalculate_end_anchored_witness :
  exactPixels (endIndex (Num 3) anchoredAtOne) /\
  regime (endIndex (Num 3) anchoredAtOne) = EndAnchored /\
  startIndex_ (recalculate (endIndex (Num 3) anchoredAtOne)) = Num 1 /\
  verticalOffset_ (recalculate (endIndex (Num 3) anchoredAtOne)) = Num 5.
Proof.
  assert (Hsmall : exactPixels (endIndex (Num 3) anchoredAtOne)) by solve_small.
  split; [exact Hsmall|].
  destruct (recalculate_end_anchored (endIndex (Num 3) anchoredAtOne) 3 25
              Hsmall sortedCache_five ltac:(discriminate) eq_refl eq_refl ltac:(simpl; lia)
              eq_refl ltac:(by vm_compute) ltac:(by vm_compute))
    as (H1 & _).
  split; [exact H1|]. split; reflexivity.
Defined.

(** X14.  End index too close to the start.  Take a controller with at
    least one row, a non-decreasing height cache, the start index unset,
    an end index that is a valid index of the cache, and cache entries,
    available height and offset that are integers of magnitude at most
    2^50.  When the content is higher than the viewport but the rows up to
    the end index are lower than the viewport, [recalculate] resolves from
    the top: start index 0, offset 0, and the end index moves down to the
    row that holds the bottom edge of the viewport, the first row whose
    cumulative height reaches the available height. *)
Theorem recalculate_end_from_start (c : Controller) (e0 ah : Z) :
  exactPixels c ->
  sortedCache (heightCache_ c) ->
  visibleData_ c <> [] ->
  startIndex_ c = NaN ->
  endIndex_ c = Num e0 ->
  0 <= e0 < Z.of_nat (List.length (heightCache_ c)) ->
  availableHeight_ c = Num ah ->
  ah < contentHeight (heightCache_ c) ->
  nth (Z.to_nat e0) (heightCache_ c) 0 < ah ->
  regime c = EndFromStart /\
  startIndex_ (recalculate c) = Num 0 /\
  verticalOffset_ (recalculate c) = Num 0 /\
  exists e,
    endIndex_ (recalculate c) = Num e /\
    e0 < e < Z.of_nat (List.length (heightCache_ c)) /\
    ah <= nth (Z.to_nat e) (heightCache_ c) 0 /\
    forall i, 0 <= i < e -> nth (Z.to_nat i) (heightCache_ c) 0 < ah.
Proof.
  intros _ Hsorted Hrows Hs He Her Hah Hover Hshort.
  assert (Hne : heightCache_ c <> []) by (intros E; rewrite E in Her; simpl in Her; lia).
  set (cache := heightCache_ c) in *.
  destruct (getIndexByHeight_lower_bound cache ah Hsorted)
    as (e & Hidx & Herange & Hbelow & Habove).
  assert (Hres : resolvePosition c =
            (EndFromStart,
             set_endIndex_ (Num e)
               (set_verticalOffset_ (Num 0) (set_startIndex_ (Num 0) c)))).
  { rewrite resolvePosition_end;
      [|done|by apply (overflow_ge c ah)|by rewrite Hs|by rewrite He].
    cbn zeta. fold cache. rewrite He, Hah.
    rewrite getHeightByIndexes_in_range by lia.
    unfold heightBefore at 1. simpl (0 =? 0). rewrite Z.sub_0_r. cbn [JS.lt].
    destruct (Z.ltb_spec (nth (Z.to_nat e0) cache 0) ah) as [_|]; [|lia].
    by rewrite Hidx. }
  unfold regime, recalculate. rewrite Hres. cbn [fst snd].
  split; [done|]. split; [by destruct c|]. split; [by destruct c|].
  exists e. split; [by destruct c|].
  assert (e < Z.of_nat (List.length cache)).
  { destruct (Z.eq_dec e (Z.of_nat (List.length cache))) as [->|]; [|lia].
    specialize (Hbelow (Z.of_nat (List.length cache) - 1) ltac:(lia)).
    unfold contentHeight in Hover.
    replace (Z.to_nat (Z.of_nat (List.length cache) - 1))
      with (Nat.pred (List.length cache)) in Hbelow by lia.
    lia. }
  assert (e0 < e).
  { destruct (Z.lt_ge_cases e0 e) as [|Hge]; [done|].
    specialize (Habove e ltac:(lia)).
    assert (nth (Z.to_nat e) cache 0 <= nth (Z.to_nat e0) cache 0)
      by (apply Hsorted; lia).
    lia. }
  split; [lia|]. split; [apply Habove; lia | exact Hbelow].
Qed.

Lemma recalculate_end_from_start_witness :
  exactPixels (endIndex (Num 1) anchoredAtOne) /\
  regime (endIndex (Num 1) anchoredAtOne) = EndFromStart /\
  endIndex_ (recalculate (endIndex (Num 1) anchoredAtOne)) = Num 2.
Proof.
  assert (Hsmall : exactPixels (endIndex (Num 1) anchoredAtOne)) by solve_small.
  split; [exact Hsmall|].
  destruct (recalculate_end_from_start (endIndex (Num 1) anchoredAtOne) 1 25
              Hsmall sortedCache_five ltac:(discriminate) eq_refl eq_refl ltac:(simpl; lia)
              eq_refl ltac:(by vm_compute) ltac:(by vm_compute))
    as (H1 & _).
  split; [exact H1 | reflexivity].
Defined.

(** ** [run] *)

Lemma linearizeData_result (c : Controller) :
  match data_ c with
  | None => linearizeData_ c = None
  | Some _ =>
      exists c' tree',
        linearizeData_ c = Some c' /\ data_ c' = Some tree' /\
        viewportState c' = viewportState c
  end.
Proof.
  destruct (data_ c) as [tree|] eqn:Hdata.
  - destruct (linearizeData_ c) as [c'|] eqn:E.
    + destruct (linearizeData_view c c' E) as (Hv & _).
      unfold linearizeData_ in E. simpl in E. rewrite Hdata in E. simpl in E.
      destruct (linearizeForest _ _ _) as [tree' st]. injection E as <-.
      by exists (set_data_ (Some tree') st.2), tree'.
    + unfold linearizeData_ in E. simpl in E. rewrite Hdata in E. simpl in E.
      by destruct (linearizeForest _ _ _).
  - unfold linearizeData_. simpl. by rewrite Hdata.
Qed.

Lemma getVisibleData_result (D RS : Z) (c : Controller) :
  match data_ c with
  | None => getVisibleData_ D RS c = None
  | Some tree =>
      exists rows cache,
        getVisibleData_ D RS c = Some (set_visible rows cache c) /\
        rows = traverse traverseChildrenCondition_ tree /\
        List.length cache = List.length rows
  end.
Proof.
  unfold getVisibleData_. destruct (data_ c) as [tree|]; [|done]. simpl.
  pose proof (fold_pushVisible D RS (traverse traverseChildrenCondition_ tree)
                [] [] 0) as Hfold.
  destruct (fold_left _ _ _) as [[rows cache] h]. simpl in Hfold.
  injection Hfold as -> ->.
  eexists _, _. split; [done|]. split; [done|]. apply cumulative_length.
Qed.

Lemma recalculate_consistency (c : Controller) :
  consistency_ (recalculate c) =
  mkConsistency (dirty_DATA (consistency_ c)) (dirty_VISIBILITY (consistency_ c)) false.
Proof.
  unfold recalculate, resolvePosition. repeat (case_match; simpl); done.
Qed.

Lemma recalculate_content (c : Controller) :
  contentState (recalculate c) = contentState c.
Proof.
  unfold recalculate, resolvePosition. repeat (case_match; simpl); done.
Qed.

Lemma recalculate_content_fields (c : Controller) :
  data_ (recalculate c) = data_ c /\
  periodsMap_ (recalculate c) = periodsMap_ c /\
  rangeState (recalculate c) = rangeState c /\
  visibleData_ (recalculate c) = visibleData_ c /\
  heightCache_ (recalculate c) = heightCache_ c.
Proof.
  unfold recalculate, resolvePosition. repeat (case_match; simpl); done.
Qed.

(** X16.  [run] faults exactly when there is no tree and a data or visibility
    pass is due. *)
Theorem run_faults (D RS : Z) (c : Controller) :
  faults (run D RS c) =
  faults (data_ c)
  && (hasInvalidationState DATA c || hasInvalidationState VISIBILITY c).
Proof.
  unfold run, isConsistent. cbn [hasInvalidationState].
  pose proof (linearizeData_result c) as Hlin.
  pose proof (getVisibleData_result D RS c) as Hvis.
  destruct (dirty_DATA (consistency_ c)) eqn:Hd.
  - cbn [orb negb andb].
    destruct (data_ c) as [tree|] eqn:Hdata.
    + destruct Hlin as (c1 & tree' & -> & Hdata1 & Hview). cbn [mbind option_bind].
      set (c2 := invalidate VISIBILITY (markConsistent DATA c1)).
      assert (Hv2 : dirty_VISIBILITY (consistency_ c2) = true) by done.
      rewrite Hv2.
      pose proof (getVisibleData_result D RS c2) as Hvis2.
      change (data_ c2) with (data_ c1) in Hvis2. rewrite Hdata1 in Hvis2.
      destruct Hvis2 as (rows & cache & -> & _). done.
    + by rewrite Hlin.
  - cbn [orb].
    destruct (dirty_VISIBILITY (consistency_ c)) eqn:Hv.
    + cbn [orb negb andb mbind option_bind]. rewrite Hv.
      destruct (data_ c) as [tree|] eqn:Hdata.
      * destruct Hvis as (rows & cache & -> & _). done.
      * by rewrite Hvis.
    + cbn [orb]. rewrite andb_false_r.
      destruct (dirty_POSITION (consistency_ c)); cbn [negb mbind option_bind];
        rewrite ?Hv; done.
Qed.

(** X17.  A successful [run] leaves the controller consistent, with the
    "position recalculated" flag consumed, and a second [run] changes
    nothing. *)
Theorem run_reaches_fixpoint (D RS : Z) (c c' : Controller) :
  run D RS c = Some c' ->
  isConsistent c' = true /\
  positionRecalculated_ c' = false /\
  run D RS c' = Some c'.
Proof.
  intros Hrun.
  assert (Hgoal : isConsistent c' = true /\ positionRecalculated_ c' = false).
  { revert Hrun. unfold run.
    destruct (isConsistent c) eqn:Hcons; cbn [negb mbind option_bind].
    - intros [= <-]. split; [exact Hcons | done].
    - destruct (if hasInvalidationState DATA c then _ else Some c)
        as [c1|] eqn:E1; cbn [mbind option_bind]; [|done].
      assert (Hd1 : hasInvalidationState DATA c1 = false).
      { destruct (hasInvalidationState DATA c) eqn:Hd.
        - destruct (linearizeData_ c) as [c0|]; [|done].
          cbn [mbind option_bind] in E1. by injection E1 as <-.
        - by injection E1 as <-. }
      destruct (if hasInvalidationState VISIBILITY c1 then _ else Some c1)
        as [c2|] eqn:E2; cbn [mbind option_bind]; [|done].
      assert (Hc2 : hasInvalidationState DATA c2 = false /\
                    hasInvalidationState VISIBILITY c2 = false).
      { destruct (hasInvalidationState VISIBILITY c1) eqn:Hv.
        - pose proof (getVisibleData_result D RS c1) as Hvis.
          destruct (data_ c1); [|by rewrite Hvis in E2].
          destruct Hvis as (rows & cache & Hvis & _). rewrite Hvis in E2.
          cbn [mbind option_bind] in E2. injection E2 as <-.
          split; [exact Hd1 | done].
        - injection E2 as <-. done. }
      intros [= <-]. destruct Hc2 as [Hd2 Hv2].
      unfold isConsistent. cbn [hasInvalidationState] in *.
      change (consistency_ (set_positionRecalculated_ false (recalculate c2)))
        with (consistency_ (recalculate c2)).
      rewrite recalculate_consistency. simpl. rewrite Hd2, Hv2. done. }
  destruct Hgoal as [Hcons Hflag]. split; [done|]. split; [done|].
  unfold run. rewrite Hcons. cbn [negb mbind option_bind].
  f_equal. destruct c'. simpl in *. by subst.
Qed.

Lemma run_reaches_fixpoint_witness :
  exists c',
    run 20 1 (loaded false [leaf (Num 30); leaf NaN] 25) = Some c' /\
    isConsistent c' = true /\
    run 20 1 c' = Some c'.
Proof.
  destruct (run 20 1 (loaded false [leaf (Num 30); leaf NaN] 25))
    as [c'|] eqn:E; [|vm_compute in E; discriminate E].
  exists c'. split; [reflexivity|].
  destruct (run_reaches_fixpoint 20 1 _ _ E) as (H1 & _ & H2).
  exact (conj H1 H2).
Defined.

Lemma run_position_only (D RS : Z) (c : Controller) :
  hasInvalidationState DATA c = false ->
  hasInvalidationState VISIBILITY c = false ->
  run D RS c =
  Some (set_positionRecalculated_ false
          (if hasInvalidationState POSITION c then recalculate c else c)).
Proof.
  intros Hd Hv. unfold run, isConsistent. cbn [hasInvalidationState] in *.
  rewrite Hd, Hv. cbn [orb].
  destruct (dirty_POSITION (consistency_ c)); cbn [negb mbind option_bind];
    [|done].
  by rewrite Hv.
Qed.

(** X18.  When neither the data nor the visibility is dirty, [run] succeeds
    even without a tree and touches neither the tree, the period map, the
    date range, the rows nor the height cache: only the position is
    resolved. *)
Theorem run_resolves_position_only (D RS : Z) (c : Controller) :
  hasInvalidationState DATA c = false ->
  hasInvalidationState VISIBILITY c = false ->
  exists c',
    run D RS c = Some c' /\
    contentState c' = contentState c /\
    availableHeight_ c' = availableHeight_ c.
Proof.
  intros Hd Hv. rewrite run_position_only by done.
  eexists. split; [reflexivity|].
  destruct (hasInvalidationState POSITION c); [|done].
  change (contentState (set_positionRecalculated_ false (recalculate c)))
    with (contentState (recalculate c)).
  split; [apply recalculate_content|].
  apply (proj2 (proj2 (recalculate_frame c))).
Qed.

Lemma run_resolves_position_only_witness :
  exists c',
    run 20 0 (availableHeight (Num 15) anchoredAtOne) = Some c' /\
    contentState c' = contentState (availableHeight (Num 15) anchoredAtOne).
Proof.
  destruct (run_resolves_position_only 20 0 (availableHeight (Num 15) anchoredAtOne)
              eq_refl eq_refl) as (c' & H1 & H2 & _).
  exists c'. exact (conj H1 H2).
Defined.

(** X19.  A meta-changed notification from the tree followed by [run] rebuilds
    the rows and the height cache from the tree as it is, respecting the
    collapsed flags in meta, without linearizing again: the tree, the
    period map and the date range are untouched. *)
Theorem run_after_meta_changed (D RS : Z) (c : Controller) (tree : list TreeNode) :
  data_ c = Some tree ->
  hasInvalidationState DATA c = false ->
  exists c',
    run D RS (dataInvalidated_ (mkSignalEvent true false) c) = Some c' /\
    data_ c' = Some tree /\
    periodsMap_ c' = periodsMap_ c /\
    rangeState c' = rangeState c /\
    visibleData_ c' = traverse traverseChildrenCondition_ tree /\
    List.length (heightCache_ c') = List.length (visibleData_ c') /\
    isConsistent c' = true.
Proof.
  intros Hdata Hd.
  unfold dataInvalidated_. cbn [META_CHANGED DATA_CHANGED].
  set (c1 := invalidate VISIBILITY c).
  unfold run.
  assert (Hcons : isConsistent c1 = false).
  { unfold isConsistent. subst c1. simpl. by rewrite orb_true_r. }
  rewrite Hcons. cbn [negb].
  assert (Hd1 : hasInvalidationState DATA c1 = false) by exact Hd.
  rewrite Hd1. cbn [mbind option_bind].
  assert (Hv1 : hasInvalidationState VISIBILITY c1 = true) by done.
  rewrite Hv1.
  pose proof (getVisibleData_result D RS c1) as Hvis.
  change (data_ c1) with (data_ c) in Hvis. rewrite Hdata in Hvis.
  destruct Hvis as (rows & cache & -> & Hrows & Hlen).
  cbn [mbind option_bind].
  set (c2 := invalidate POSITION (markConsistent VISIBILITY (set_visible rows cache c1))).
  eexists. split; [reflexivity|].
  destruct (recalculate_content_fields c2) as (Hdt & Hpm & Hrg & Hvd & Hhc).
  pose proof (recalculate_consistency c2) as Hk.
  change (data_ (set_positionRecalculated_ false (recalculate c2)))
    with (data_ (recalculate c2)).
  change (periodsMap_ (set_positionRecalculated_ false (recalculate c2)))
    with (periodsMap_ (recalculate c2)).
  change (rangeState (set_positionRecalculated_ false (recalculate c2)))
    with (rangeState (recalculate c2)).
  change (visibleData_ (set_positionRecalculated_ false (recalculate c2)))
    with (visibleData_ (recalculate c2)).
  change (heightCache_ (set_positionRecalculated_ false (recalculate c2)))
    with (heightCache_ (recalculate c2)).
  rewrite Hdt, Hpm, Hrg, Hvd, Hhc.
  split; [exact Hdata|]. split; [done|]. split; [done|].
  split; [exact Hrows|]. split; [exact Hlen|].
  unfold isConsistent.
  change (consistency_ (set_positionRecalculated_ false (recalculate c2)))
    with (consistency_ (recalculate c2)).
  rewrite Hk. subst c2 c1. simpl.
  cbn [hasInvalidationState] in Hd. by rewrite Hd.
Qed.

Lemma run_after_meta_changed_witness :
  exists c',
    run 20 0 (dataInvalidated_ (mkSignalEvent true false) anchoredAtOne) = Some c' /\
    List.length (visibleData_ c') = 5%nat.
Proof.
  destruct (run_after_meta_changed 20 0 anchoredAtOne _ eq_refl eq_refl)
    as (c' & H1 & _ & _ & _ & H2 & _).
  exists c'. split; [exact H1|]. rewrite H2. reflexivity.
Defined.

(** X20.  A data-changed notification followed by [run] on a controller that
    has a tree linearizes the tree anew and then rebuilds the rows from
    the linearized tree: the rows are its collapse-aware traversal, the
    cache has one entry per row, and everything is consistent. *)
Theorem run_after_data_changed (D RS : Z) (c : Controller) (tree : list TreeNode) :
  data_ c = Some tree ->
  exists c' tree',
    run D RS (dataInvalidated_ (mkSignalEvent false true) c) = Some c' /\
    data_ c' = Some tree' /\
    (forall (k : nat) (d : Z) (n : nat) (item : DataItem),
       walk 0 tree !! k = Some (d, n, item) ->
       walk 0 tree' !! k = Some (d, n, annotated d (Z.of_nat k) n item)) /\
    visibleData_ c' = traverse traverseChildrenCondition_ tree' /\
    List.length (heightCache_ c') = List.length (visibleData_ c') /\
    isConsistent c' = true.
Proof.
  intros Hdata.
  unfold dataInvalidated_. cbn [META_CHANGED DATA_CHANGED].
  set (c1 := invalidate DATA c).
  unfold run.
  assert (Hcons : isConsistent c1 = false) by done.
  rewrite Hcons. cbn [negb].
  assert (Hd1 : hasInvalidationState DATA c1 = true) by done.
  rewrite Hd1.
  assert (Hdata1 : data_ c1 = Some tree) by exact Hdata.
  unfold linearizeData_. simpl (data_ _). rewrite Hdata. cbn [mbind option_bind].
  set (c0 := set_maxDate_ NaN (set_minDate_ NaN c1)).
  destruct (linearizeForest_pass 0 tree (0, c0)) as (Hw & _ & Hc).
  destruct (linearizeForest 0 tree (0, c0)) as [tree' st]. cbn [fst snd] in *.
  cbn [mbind option_bind].
  set (c2 := invalidate VISIBILITY (markConsistent DATA (set_data_ (Some tree') st.2))).
  assert (Hv2 : hasInvalidationState VISIBILITY c2 = true) by done.
  rewrite Hv2.
  pose proof (getVisibleData_result D RS c2) as Hvis.
  change (data_ c2) with (Some tree') in Hvis.
  destruct Hvis as (rows & cache & -> & Hrows & Hlen).
  cbn [mbind option_bind].
  set (c3 := invalidate POSITION (markConsistent VISIBILITY (set_visible rows cache c2))).
  eexists _, tree'. split; [reflexivity|].
  destruct (recalculate_content_fields c3) as (Hdt & Hpm & Hrg & Hvd & Hhc).
  pose proof (recalculate_consistency c3) as Hk.
  change (data_ (set_positionRecalculated_ false (recalculate c3)))
    with (data_ (recalculate c3)).
  change (visibleData_ (set_positionRecalculated_ false (recalculate c3)))
    with (visibleData_ (recalculate c3)).
  change (heightCache_ (set_positionRecalculated_ false (recalculate c3)))
    with (heightCache_ (recalculate c3)).
  rewrite Hdt, Hvd, Hhc.
  split; [done|]. split.
  - intros k d n item Hk'. rewrite Hw.
    by rewrite (annotateFrom_lookup _ 0 k d n item Hk').
  - split; [exact Hrows|]. split; [exact Hlen|].
    unfold isConsistent.
    change (consistency_ (set_positionRecalculated_ false (recalculate c3)))
      with (consistency_ (recalculate c3)).
    by rewrite Hk.
Qed.

Lemma run_after_data_changed_witness :
  exists c' tree',
    run 20 1 (dataInvalidated_ (mkSignalEvent false true)
                (loaded false [leaf (Num 30); leaf NaN] 25)) = Some c' /\
    data_ c' = Some tree' /\
    isConsistent c' = true.
Proof.
  destruct (run_after_data_changed 20 1
              (loaded false [leaf (Num 30); leaf NaN] 25) _ eq_refl)
    as (c' & tree' & H1 & H2 & _ & _ & _ & H3).
  exists c', tree'. exact (conj H1 (conj H2 H3)).
Defined.

(** ** Scrolling *)

(** X21.  [scrollTo] with an offset that is not positive (zero, negative or
    [NaN]) does nothing, not even [run]. *)
Theorem scrollTo_not_positive (D RS : Z) (pxOffset : number) (c : Controller) :
  JS.gt pxOffset (Num 0) = false ->
  scrollTo D RS pxOffset c = Some c.
Proof.
  intros H. unfold scrollTo.
  destruct pxOffset as [|z]; [done|].
  cbn [JS.gt] in H. cbn [JS.max JS.truthy].
  destruct (Z.ltb_spec 0 z); [done|].
  replace (Z.max z 0) with 0 by lia. done.
Qed.

Lemma scrollTo_not_positive_witness :
  JS.gt (Num (-8)) (Num 0) = false /\
  scrollTo 20 0 (Num (-8)) anchoredAtOne = Some anchoredAtOne.
Proof.
  split; [reflexivity|].
  apply (scrollTo_not_positive 20 0 (Num (-8)) anchoredAtOne). reflexivity.
Defined.

Lemma startIndex_frame (v : number) (c : Controller) :
  setterFrame (startIndex v c) = setterFrame c /\
  availableHeight_ (startIndex v c) = availableHeight_ c /\
  verticalOffset_ (startIndex v c) = verticalOffset_ c.
Proof. unfold startIndex. by case_match. Qed.

Lemma endIndex_frame (v : number) (c : Controller) :
  setterFrame (endIndex v c) = setterFrame c /\
  availableHeight_ (endIndex v c) = availableHeight_ c /\
  verticalOffset_ (endIndex v c) = verticalOffset_ c.
Proof. unfold endIndex. by case_match. Qed.

Lemma verticalOffset_frame (v : number) (c : Controller) :
  setterFrame (verticalOffset v c) = setterFrame c /\
  availableHeight_ (verticalOffset v c) = availableHeight_ c /\
  startIndex_ (verticalOffset v c) = startIndex_ c /\
  endIndex_ (verticalOffset v c) = endIndex_ c.
Proof. unfold verticalOffset. by case_match. Qed.

Lemma rangeHeight_whole (cache : list Z) :
  cache <> [] ->
  getHeightByIndexes_ cache (Num 0) (Some (Num (Z.of_nat (List.length cache))))
  = Num (contentHeight cache).
Proof.
  intros Hne.
  assert (0 < Z.of_nat (List.length cache)) by (destruct cache; simpl; [done|lia]).
  rewrite getHeightByIndexes_rangeHeight by (done || lia).
  unfold rangeHeight, cumulativeDifference, contentHeight.
  destruct cache as [|h0 cache']; [done|].
  set (cache := h0 :: cache') in *.
  replace (clampIndex cache 0) with 0 by (unfold clampIndex; lia).
  replace (clampIndex cache (Z.of_nat (List.length cache)))
    with (Z.of_nat (List.length cache) - 1) by (unfold clampIndex; lia).
  rewrite Z.min_l, Z.max_r by lia. simpl (0 =? 0).
  rewrite Z.sub_0_r. do 2 f_equal. lia.
Qed.

(** X22.  [scrollTo] past the last position that still fills the viewport
    scrolls to the end.  Take a controller with clean DATA and VISIBILITY,
    at least one row and one cache entry, content higher than the
    viewport, an end index that is not already the length of the cache
    (the setter ignores a value it already holds), and cache entries,
    available height, offset and target that are integers of magnitude at
    most 2^50.  For a positive target beyond
    [contentHeight - availableHeight], the end index is set to the length
    (one past the last row, on purpose), the start index is resolved to 0
    and the offset to [contentHeight - availableHeight], so that the
    viewport ends exactly at the end of the content. *)
Theorem scrollTo_past_end (D RS : Z) (c : Controller) (px ah : Z) :
  exactPixels c ->
  smallInteger px ->
  hasInvalidationState DATA c = false ->
  hasInvalidationState VISIBILITY c = false ->
  visibleData_ c <> [] ->
  heightCache_ c <> [] ->
  availableHeight_ c = Num ah ->
  ah < contentHeight (heightCache_ c) ->
  0 < px ->
  contentHeight (heightCache_ c) - ah < px ->
  endIndex_ c <> JS.length (heightCache_ c) ->
  exists c',
    scrollTo D RS (Num px) c = Some c' /\
    startIndex_ c' = Num 0 /\
    verticalOffset_ c' = Num (contentHeight (heightCache_ c) - ah) /\
    endIndex_ c' = JS.length (heightCache_ c).
Proof.
  intros _ _ Hd Hv Hrows Hne Hah Hover Hpx Hpast Hend.
  unfold scrollTo. cbn [JS.max JS.truthy].
  replace (Z.max px 0) with px by lia.
  destruct (Z.eqb_spec px 0) as [|_]; [lia|]. cbn [negb].
  rewrite contentHeight_read, Hah by done. cbn [JS.sub JS.gt].
  destruct (Z.ltb_spec (contentHeight (heightCache_ c) - ah) px) as [_|]; [|lia].
  set (n := JS.length (heightCache_ c)) in *.
  assert (Hset : endIndex n c =
            invalidate POSITION (set_startIndex_ NaN (set_endIndex_ n c))).
  { unfold endIndex.
    assert (JS.neq (endIndex_ c) n = true) as ->; [|done].
    unfold JS.neq, JS.eq, n, JS.length in *.
    destruct (endIndex_ c) as [|z]; [done|].
    destruct (Z.eqb_spec z (Z.of_nat (List.length (heightCache_ c)))); [congruence|done]. }
  rewrite Hset.
  set (c1 := invalidate POSITION (set_startIndex_ NaN (set_endIndex_ n c))).
  rewrite run_position_only by done.
  assert (hasInvalidationState POSITION c1 = true) as -> by done.
  eexists. split; [reflexivity|].
  assert (Hres : resolvePosition c1 =
            (EndAnchored,
             set_verticalOffset_ (Num (contentHeight (heightCache_ c) - ah))
               (set_startIndex_ (Num 0) c1))).
  { rewrite resolvePosition_end; [|done|by apply (overflow_ge c1 ah)|done|done].
    cbn zeta.
    change (heightCache_ c1) with (heightCache_ c).
    change (availableHeight_ c1) with (availableHeight_ c).
    change (endIndex_ c1) with n. rewrite Hah. unfold n, JS.length.
    rewrite rangeHeight_whole by done. cbn [JS.lt].
    destruct (Z.ltb_spec (contentHeight (heightCache_ c)) ah) as [|_]; [lia|].
    rewrite get_past_end by lia. cbn [JS.toNumber JS.sub].
    rewrite getIndexByHeight_NaN.
    by rewrite rangeHeight_whole by done. }
  unfold recalculate. rewrite Hres. done.
Qed.

Lemma scrollTo_past_end_witness :
  exactPixels anchoredAtOne /\
  endIndex_ anchoredAtOne <> JS.length (heightCache_ anchoredAtOne) /\
  exists c',
    scrollTo 20 0 (Num 30) anchoredAtOne = Some c' /\
    startIndex_ c' = Num 0 /\
    verticalOffset_ c' = Num 25 /\
    endIndex_ c' = Num 5.
Proof.
  assert (Hsmall : exactPixels anchoredAtOne) by solve_small.
  split; [exact Hsmall|]. split; [discriminate|].
  apply (scrollTo_past_end 20 0 anchoredAtOne 30 25 Hsmall);
    try reflexivity; try discriminate; solve_small.
Defined.

(** X23.  [scrollToRow] clamps the row index to the valid rows.  Take a
    controller with clean DATA and VISIBILITY (so that [run] only resolves
    the position, on the cache the index was clamped with), at least one
    row and one cache entry, an integer row index, and cache entries,
    available height and offset that are integers of magnitude at most
    2^50.  When the content is higher than the viewport and the rows from
    the clamped index to the end fill it, the viewport starts exactly at
    the top of that row: the start index is the clamped index and the
    offset is 0. *)
Theorem scrollToRow_top_of_row (D RS : Z) (c : Controller) (rowIndex ah : Z) :
  exactPixels c ->
  hasInvalidationState DATA c = false ->
  hasInvalidationState VISIBILITY c = false ->
  visibleData_ c <> [] ->
  heightCache_ c <> [] ->
  availableHeight_ c = Num ah ->
  ah < contentHeight (heightCache_ c) ->
  ah <= contentHeight (heightCache_ c)
        - heightBefore (heightCache_ c) (clampIndex (heightCache_ c) rowIndex) ->
  exists c',
    scrollToRow D RS (Num rowIndex) c = Some c' /\
    startIndex_ c' = Num (clampIndex (heightCache_ c) rowIndex) /\
    verticalOffset_ c' = Num 0.
Proof.
  intros _ Hd Hv Hrows Hne Hah Hover Hfill.
  pose proof (clampIndex_range (heightCache_ c) rowIndex Hne) as Hr.
  set (r := clampIndex (heightCache_ c) rowIndex) in *.
  unfold scrollToRow. cbn [JS.max JS.length JS.sub JS.min].
  replace (Z.min (Z.max rowIndex 0) (Z.of_nat (List.length (heightCache_ c)) - 1))
    with r by (unfold r, clampIndex; lia).
  set (c1 := startIndex (Num r) c).
  set (c2 := verticalOffset (Num 0) c1).
  destruct (startIndex_frame (Num r) c) as (Hf1 & Ha1 & _).
  destruct (verticalOffset_frame (Num 0) c1) as (Hf2 & Ha2 & Hs2 & _).
  fold c1 in Hf1, Ha1. fold c2 in Hf2, Ha2, Hs2.
  assert (Hframe : setterFrame c2 = setterFrame c) by congruence.
  unfold setterFrame in Hframe. injection Hframe as Hvd Hhc _ Hd2 Hv2.
  assert (Hstart : startIndex_ c2 = Num r).
  { rewrite Hs2. unfold c1, startIndex.
    destruct (JS.neq (startIndex_ c) (Num r)) eqn:E; [done|].
    cbn [andb]. unfold JS.neq, JS.eq in E.
    destruct (startIndex_ c) as [|z]; [done|].
    destruct (Z.eqb_spec z r); [by subst|done]. }
  assert (Hoff : verticalOffset_ c2 = Num 0).
  { unfold c2, verticalOffset.
    destruct (JS.neq (verticalOffset_ c1) (Num 0)) eqn:E; [done|].
    unfold JS.neq, JS.eq in E.
    destruct (verticalOffset_ c1) as [|z]; [done|].
    destruct (Z.eqb_spec z 0); [by subst|done]. }
  assert (Hd2' : hasInvalidationState DATA c2 = false)
    by (cbn [hasInvalidationState] in *; congruence).
  assert (Hv2' : hasInvalidationState VISIBILITY c2 = false)
    by (cbn [hasInvalidationState] in *; congruence).
  rewrite run_position_only by done.
  eexists. split; [reflexivity|].
  destruct (hasInvalidationState POSITION c2); [|done].
  assert (Hres : exists e, resolvePosition c2 = (StartAnchored, set_endIndex_ e c2)).
  { rewrite resolvePosition_start.
    - cbn zeta. rewrite Hstart, Hoff, Hhc, Ha2, Ha1, Hah.
      rewrite getHeightByIndexes_to_end by lia. cbn [JS.sub JS.lt].
      destruct (Z.ltb_spec
                  (contentHeight (heightCache_ c) - heightBefore (heightCache_ c) r - 0)
                  ah) as [|_]; [lia|].
      by eexists.
    - by rewrite Hvd.
    - apply (overflow_ge c2 ah); rewrite ?Hhc; [done| |done]. by rewrite Ha2, Ha1.
    - by rewrite Hstart. }
  destruct Hres as [e Hres]. unfold recalculate. rewrite Hres.
  cbn [snd]. split; [exact Hstart | exact Hoff].
Qed.

Lemma scrollToRow_top_of_row_witness :
  exactPixels anchoredAtOne /\
  hasInvalidationState DATA anchoredAtOne = false /\
  hasInvalidationState VISIBILITY anchoredAtOne = false /\
  exists c',
    scrollToRow 20 0 (Num (-3)) anchoredAtOne = Some c' /\
    startIndex_ c' = Num 0 /\
    verticalOffset_ c' = Num 0.
Proof.
  assert (Hsmall : exactPixels anchoredAtOne) by solve_small.
  split; [exact Hsmall|]. split; [reflexivity|]. split; [reflexivity|].
  apply (scrollToRow_top_of_row 20 0 anchoredAtOne (-3) 25 Hsmall);
    try reflexivity; try discriminate.
Defined.

(** ** Collapsing and expanding *)

Lemma traverse_collapsed (tree : list TreeNode) :
  traverse traverseChildrenCondition_ (map (collapseNode true) tree)
  = map (fun t => set_meta_collapsed (Some true) (rootItem t)) tree.
Proof.
  induction tree as [|[item children] tree IH]; [done|].
  unfold traverse in *. cbn [map flat_map collapseNode traverseNode rootItem].
  by rewrite IH.
Qed.

Lemma traverseNode_expanded (t : TreeNode) :
  traverseNode traverseChildrenCondition_ (collapseNode false t)
  = map (set_meta_collapsed (Some false)) (traverseNode (fun _ => true) t).
Proof.
  induction t as [item children IH] using TreeNode_children_ind.
  cbn [collapseNode traverseNode map]. f_equal.
  change (traverseChildrenCondition_ (set_meta_collapsed (Some false) item))
    with true. cbn iota.
  induction IH as [|t ts Ht _ IHts]; [done|].
  cbn [map flat_map]. by rewrite map_app, Ht, IHts.
Qed.

Lemma traverse_expanded (tree : list TreeNode) :
  traverse traverseChildrenCondition_ (map (collapseNode false) tree)
  = map (set_meta_collapsed (Some false)) (fullPassage tree).
Proof.
  induction tree as [|t tree IH]; [done|].
  unfold fullPassage, traverse in *. cbn [map flat_map].
  by rewrite map_app, traverseNode_expanded, IH.
Qed.

(** X25.  After [collapseAll] a visibility rebuild shows exactly the roots of
    the tree, one row each, whatever the collapsed flags were before. *)
Theorem collapseAll_shows_roots (D RS : Z) (c : Controller) (tree : list TreeNode) :
  data_ c = Some tree ->
  exists c1 c2,
    collapseAll c = Some c1 /\
    getVisibleData_ D RS c1 = Some c2 /\
    visibleData_ c2
      = map (fun t => set_meta_collapsed (Some true) (rootItem t)) tree /\
    List.length (heightCache_ c2) = List.length tree.
Proof.
  intros Hdata. unfold collapseAll, collapseAll_. rewrite Hdata.
  cbn [mbind option_bind].
  eexists. pose proof (getVisibleData_result D RS
    (set_data_ (Some (map (collapseNode true) tree)) c)) as Hvis.
  cbn [data_ set_data_] in Hvis.
  destruct Hvis as (rows & cache & Hvis & Hrows & Hlen).
  eexists. split; [reflexivity|]. split; [exact Hvis|].
  cbn [visibleData_ heightCache_ set_visible].
  rewrite Hlen, Hrows, traverse_collapsed. split; [done|]. by rewrite length_map.
Qed.

Lemma collapseAll_shows_roots_witness :
  exists c1 c2,
    collapseAll (loaded false [Node (rootItem (leaf NaN)) [leaf (Num 5)]; leaf (Num 7)] 0)
      = Some c1 /\
    getVisibleData_ 20 1 c1 = Some c2 /\
    List.length (visibleData_ c2) = 2%nat.
Proof.
  destruct (collapseAll_shows_roots 20 1
              (loaded false [Node (rootItem (leaf NaN)) [leaf (Num 5)]; leaf (Num 7)] 0)
              _ eq_refl) as (c1 & c2 & H1 & H2 & H3 & _).
  exists c1, c2. split; [exact H1|]. split; [exact H2|]. by rewrite H3.
Defined.

(** X26.  After [expandAll] a visibility rebuild shows every node of the tree,
    in the order of the full passage. *)
Theorem expandAll_shows_all (D RS : Z) (c : Controller) (tree : list TreeNode) :
  data_ c = Some tree ->
  exists c1 c2,
    expandAll c = Some c1 /\
    getVisibleData_ D RS c1 = Some c2 /\
    visibleData_ c2 = map (set_meta_collapsed (Some false)) (fullPassage tree) /\
    List.length (heightCache_ c2) = List.length (fullPassage tree).
Proof.
  intros Hdata. unfold expandAll, collapseAll_. rewrite Hdata.
  cbn [mbind option_bind].
  eexists. pose proof (getVisibleData_result D RS
    (set_data_ (Some (map (collapseNode false) tree)) c)) as Hvis.
  cbn [data_ set_data_] in Hvis.
  destruct Hvis as (rows & cache & Hvis & Hrows & Hlen).
  eexists. split; [reflexivity|]. split; [exact Hvis|].
  cbn [visibleData_ heightCache_ set_visible].
  rewrite Hlen, Hrows, traverse_expanded. split; [done|]. by rewrite length_map.
Qed.

Lemma expandAll_shows_all_witness :
  exists c1 c2,
    expandAll (loaded false [Node (rootItem (leaf NaN)) [leaf (Num 5)]; leaf (Num 7)] 0)
      = Some c1 /\
    getVisibleData_ 20 1 c1 = Some c2 /\
    List.length (visibleData_ c2) = 3%nat.
Proof.
  destruct (expandAll_shows_all 20 1
              (loaded false [Node (rootItem (leaf NaN)) [leaf (Num 5)]; leaf (Num 7)] 0)
              _ eq_refl) as (c1 & c2 & H1 & H2 & H3 & _).
  exists c1, c2. split; [exact H1|]. split; [exact H2|]. by rewrite H3.
Defined.

(** ** Resolving a resolved position *)

Lemma resolvePosition_flags (c : Controller) :
  resolvePosition (markConsistent POSITION (set_positionRecalculated_ true c))
  = ((resolvePosition c).1,
     markConsistent POSITION (set_positionRecalculated_ true (resolvePosition c).2)).
Proof.
  unfold resolvePosition, totalHeight. project_fields.
  repeat case_match; project_fields; try congruence; by destruct c.
Qed.

Lemma resolvePosition_empty (c : Controller) :
  visibleData_ c = [] ->
  resolvePosition c =
  (Empty, set_verticalOffset_ (Num 0) (set_endIndex_ (Num 0) (set_startIndex_ (Num 0) c))).
Proof. intros H. unfold resolvePosition. by rewrite H. Qed.

Lemma resolvePosition_fits (c : Controller) :
  visibleData_ c <> [] ->
  JS.ge (availableHeight_ c) (totalHeight c) = true ->
  resolvePosition c =
  (Fits,
   set_endIndex_ (JS.sub (JS.length (visibleData_ c)) (Num 1))
     (set_verticalOffset_ (Num 0) (set_startIndex_ (Num 0) c))).
Proof.
  intros Hrows Hge. unfold resolvePosition.
  rewrite truthy_length, bool_decide_eq_false_2 by done. cbn [negb].
  by rewrite Hge.
Qed.

Lemma recalculate_twice (c : Controller) :
  (resolvePosition (resolvePosition c).2).2 = (resolvePosition c).2 ->
  recalculate (recalculate c) = recalculate c.
Proof.
  intros H. unfold recalculate. rewrite resolvePosition_flags. cbn [snd].
  rewrite H. by destruct ((resolvePosition c).2).
Qed.

Lemma resolvePosition_default_anchor (c : Controller) :
  startIndex_ c = NaN -> endIndex_ c = NaN ->
  resolvePosition c = resolvePosition (set_startIndex_ (Num 0) c).
Proof.
  intros Hs He. unfold resolvePosition, totalHeight. project_fields.
  rewrite Hs, He. cbn [JS.isNaN andb negb]. project_fields.
  repeat case_match; project_fields; try congruence; by destruct c.
Qed.

(** A state whose end index is the one the start-anchored branch derives
    is left as it is. *)
Lemma target_stable (X : Controller) :
  visibleData_ X <> [] ->
  JS.ge (availableHeight_ X) (totalHeight X) = false ->
  JS.isNaN (startIndex_ X) = false ->
  JS.lt (JS.sub (getHeightByIndexes_ (heightCache_ X) (startIndex_ X) None)
                (verticalOffset_ X)) (availableHeight_ X) = false ->
  endIndex_ X =
    getIndexByHeight_ (heightCache_ X)
      (JS.add (JS.add (if JS.eq (startIndex_ X) (Num 0) then Num 0
                       else JS.toNumber (JS.get (heightCache_ X)
                                                (JS.sub (startIndex_ X) (Num 1))))
                      (availableHeight_ X))
              (verticalOffset_ X)) ->
  (resolvePosition X).2 = X.
Proof.
  intros Hrows Hge Hs Hfill Hend.
  rewrite resolvePosition_start by done. cbn zeta. rewrite Hfill. cbn [snd].
  rewrite <- Hend. by destruct X.
Qed.

(** A state whose viewport ends exactly at the bottom of its end row is
    left as it is. *)
Lemma flush_stable (X : Controller) (s e vo ah : Z) :
  sortedCache (heightCache_ X) ->
  visibleData_ X <> [] ->
  startIndex_ X = Num s ->
  endIndex_ X = Num e ->
  verticalOffset_ X = Num vo ->
  availableHeight_ X = Num ah ->
  ah < contentHeight (heightCache_ X) ->
  0 <= s <= e ->
  e < Z.of_nat (List.length (heightCache_ X)) ->
  heightBefore (heightCache_ X) e < nth (Z.to_nat e) (heightCache_ X) 0 ->
  heightBefore (heightCache_ X) s + vo + ah = nth (Z.to_nat e) (heightCache_ X) 0 ->
  (resolvePosition X).2 = X.
Proof.
  intros Hsorted Hrows Hs He Hvo Hah Hover Hse Helen Hpos Hflush.
  assert (Hne : heightCache_ X <> [])
    by (intros E; rewrite E in Helen; simpl in Helen; lia).
  assert (Hle : nth (Z.to_nat e) (heightCache_ X) 0 <= contentHeight (heightCache_ X)).
  { unfold contentHeight. apply Hsorted. lia. }
  apply target_stable; try done.
  - by apply (overflow_ge X ah).
  - by rewrite Hs.
  - rewrite Hs, Hvo, Hah, getHeightByIndexes_to_end by lia. cbn [JS.sub JS.lt].
    destruct (Z.ltb_spec
                (contentHeight (heightCache_ X) - heightBefore (heightCache_ X) s - vo)
                ah); [lia|done].
  - rewrite Hs, Hvo, Hah, He, heightBefore_read by lia. cbn [JS.add].
    symmetry. apply row_of_pixel; [done|lia|lia].
Qed.

(** X15.  [recalculate] is idempotent on a well-formed state of integers:
    with cache entries, available height and offset that are integers of
    magnitude at most 2^50, a non-decreasing cache of rows of positive
    height, one cache entry per row, a non-negative available height, a
    numeric offset and, when the end index is the anchor (start index
    unset), an end index that is a valid row, resolving the position a
    second time changes nothing. *)
Theorem recalculate_idempotent (c : Controller) (ah vo : Z) :
  exactPixels c ->
  sortedCache (heightCache_ c) ->
  positiveRows (heightCache_ c) ->
  List.length (heightCache_ c) = List.length (visibleData_ c) ->
  availableHeight_ c = Num ah ->
  0 <= ah ->
  verticalOffset_ c = Num vo ->
  anchorInRange c ->
  recalculate (recalculate c) = recalculate c.
Proof.
  intros _ Hsorted Hpos Hlen Hah Hah0 Hvo Hanchor.
  apply recalculate_twice.
  destruct (decide (visibleData_ c = [])) as [Hempty|Hrows].
  { rewrite (resolvePosition_empty c) by done. cbn [snd].
    rewrite resolvePosition_empty by exact Hempty. cbn [snd].
    clear. destruct c. reflexivity. }
  assert (Hne : heightCache_ c <> []).
  { intros E. rewrite E in Hlen. by destruct (visibleData_ c). }
  destruct (JS.ge (availableHeight_ c) (totalHeight c)) eqn:Hge.
  { rewrite (resolvePosition_fits c) by done. cbn [snd].
    rewrite resolvePosition_fits by (exact Hrows || exact Hge). cbn [snd].
    clear. destruct c. reflexivity. }
  assert (Hover : ah < contentHeight (heightCache_ c)).
  { rewrite Hah, contentHeight_total in Hge by done. cbn [JS.ge] in Hge.
    by destruct (Z.leb_spec (contentHeight (heightCache_ c)) ah). }
  assert (Hlast : nth (Z.to_nat (Z.of_nat (List.length (heightCache_ c)) - 1))
                      (heightCache_ c) 0 = contentHeight (heightCache_ c)).
  { unfold contentHeight. f_equal. lia. }
  assert (Hn : 0 < Z.of_nat (List.length (heightCache_ c)))
    by (destruct (heightCache_ c); simpl; [done|lia]).
  (* the start-anchored pass, for any state with a numeric start index *)
  assert (Hstart : forall c0 : Controller,
            heightCache_ c0 = heightCache_ c ->
            visibleData_ c0 = visibleData_ c ->
            availableHeight_ c0 = Num ah ->
            verticalOffset_ c0 = Num vo ->
            JS.isNaN (startIndex_ c0) = false ->
            (resolvePosition (resolvePosition c0).2).2 = (resolvePosition c0).2).
  { intros c0 Hc0 Hv0 Ha0 Ho0 Hs0.
    assert (Hge0 : JS.ge (availableHeight_ c0) (totalHeight c0) = false).
    { unfold totalHeight. rewrite Hc0, Ha0. by rewrite <- Hah. }
    rewrite (resolvePosition_start c0) by (rewrite ?Hv0; done).
    cbn zeta. rewrite Hc0, Ha0.
    destruct (JS.lt (JS.sub (getHeightByIndexes_ (heightCache_ c) (startIndex_ c0) None)
                            (verticalOffset_ c0)) (Num ah)) eqn:Hfill; cbn [snd].
    - rewrite contentHeight_read by done. cbn [JS.length JS.sub].
      destruct (flush_with_bottom (heightCache_ c)
                  (Z.of_nat (List.length (heightCache_ c)) - 1) ah Hsorted
                  ltac:(lia) ltac:(rewrite Hlast; lia))
        as (s & Hidx & Hsr & Hrange & Hoff).
      rewrite Hlast in *. rewrite Hidx, Hrange. cbn [JS.sub].
      eapply (flush_stable _ s (Z.of_nat (List.length (heightCache_ c)) - 1)
                (contentHeight (heightCache_ c) - heightBefore (heightCache_ c) s - ah)
                ah);
        cbn [heightCache_ visibleData_ startIndex_ endIndex_ verticalOffset_
             availableHeight_ set_verticalOffset_ set_endIndex_ set_startIndex_];
        rewrite ?Hc0, ?Hv0, ?Hlast; try done; try lia.
      + rewrite <- Hlast. apply Hpos. lia.
    - apply target_stable;
        cbn [heightCache_ visibleData_ startIndex_ endIndex_ verticalOffset_
             availableHeight_ set_endIndex_];
        rewrite ?Hc0, ?Hv0, ?Ha0; try done.
      unfold totalHeight.
      cbn [heightCache_ set_endIndex_]. rewrite Hc0. by rewrite <- Hah. }
  destruct (startIndex_ c) as [|s] eqn:Hs.
  - destruct (endIndex_ c) as [|e] eqn:He.
    + rewrite (resolvePosition_default_anchor c) by done.
      by apply Hstart.
    + unfold anchorInRange in Hanchor. rewrite Hs, He in Hanchor.
      rewrite (resolvePosition_end c) by (rewrite ?Hs, ?He; done).
      cbn zeta. rewrite He, Hah.
      rewrite getHeightByIndexes_in_range by lia.
      change (heightBefore (heightCache_ c) 0) with 0.
      rewrite Z.sub_0_r. cbn [JS.lt].
      destruct (Z.ltb_spec (nth (Z.to_nat e) (heightCache_ c) 0) ah) as [Hlt|Hfill];
        cbn [snd].
      * apply target_stable; cbn [heightCache_ visibleData_ startIndex_ endIndex_
             verticalOffset_ availableHeight_ set_verticalOffset_ set_endIndex_
             set_startIndex_ JS.isNaN JS.eq]; try done.
        -- rewrite Hah, getHeightByIndexes_to_end by lia. cbn [JS.sub JS.lt].
           change (heightBefore (heightCache_ c) 0) with 0.
           destruct (Z.ltb_spec (contentHeight (heightCache_ c) - 0 - 0) ah);
             [lia|done].
        -- simpl (0 =? 0). cbn iota. rewrite Hah. cbn [JS.add].
           by replace (0 + ah + 0) with ah by lia.
      * rewrite get_in_range by lia. cbn [JS.toNumber JS.sub].
        destruct (flush_with_bottom (heightCache_ c) e ah Hsorted
                    ltac:(lia) ltac:(lia))
          as (s & Hidx & Hsr & Hrange & Hoff).
        rewrite Hidx, Hrange. cbn [JS.sub].
        eapply (flush_stable _ s e
                  (nth (Z.to_nat e) (heightCache_ c) 0
                   - heightBefore (heightCache_ c) s - ah) ah);
          cbn [heightCache_ visibleData_ startIndex_ endIndex_ verticalOffset_
               availableHeight_ set_verticalOffset_ set_startIndex_];
          try done; try lia.
        apply Hpos. lia.
  - apply Hstart; try done. by rewrite Hs.
Qed.

Lemma positiveRows_five : positiveRows [10; 20; 30; 40; 50].
Proof.
  intros i Hi. simpl in Hi.
  assert (i = 0 \/ i = 1 \/ i = 2 \/ i = 3 \/ i = 4) as [->|[->|[->|[->| ->]]]]
    by lia; by vm_compute.
Defined.

Lemma recalculate_idempotent_witness :
  exactPixels (endIndex (Num 3) anchoredAtOne) /\
  anchorInRange (endIndex (Num 3) anchoredAtOne) /\
  recalculate (recalculate (endIndex (Num 3) anchoredAtOne))
  = recalculate (endIndex (Num 3) anchoredAtOne).
Proof.
  assert (Hsmall : exactPixels (endIndex (Num 3) anchoredAtOne)) by solve_small.
  assert (H : anchorInRange (endIndex (Num 3) anchoredAtOne))
    by (by vm_compute).
  split; [exact Hsmall|]. split; [exact H|].
  apply (recalculate_idempotent (endIndex (Num 3) anchoredAtOne) 25 0
           Hsmall sortedCache_five positiveRows_five eq_refl eq_refl ltac:(lia) eq_refl H).
Defined.

(** X24.  [scrollToEnd] without an index, or with an index that is falsy (0 or
    [NaN]), anchors the last row, not row 0.  Take a controller with at
    least one row and one cache entry, a non-decreasing cache, a
    non-negative available height lower than the content, an end index
    that is not already the last row (the setter ignores a value it
    already holds), and cache entries, available height and offset that
    are integers of magnitude at most 2^50.  The [recalculate] that
    follows then shows the end of the content: the end index is the last
    row and the viewport ends exactly at the content's end, the offset
    staying inside the start row. *)
Theorem scrollToEnd_default_shows_end (c : Controller) (opt_index : option number)
    (ah : Z) :
  exactPixels c ->
  from_option JS.truthy false opt_index = false ->
  sortedCache (heightCache_ c) ->
  visibleData_ c <> [] ->
  heightCache_ c <> [] ->
  availableHeight_ c = Num ah ->
  0 <= ah < contentHeight (heightCache_ c) ->
  endIndex_ c <> Num (Z.of_nat (List.length (heightCache_ c)) - 1) ->
  let c' := recalculate (scrollToEnd opt_index c) in
  endIndex_ c' = Num (Z.of_nat (List.length (heightCache_ c)) - 1) /\
  exists s o,
    startIndex_ c' = Num s /\
    verticalOffset_ c' = Num o /\
    0 <= s < Z.of_nat (List.length (heightCache_ c)) /\
    0 <= o <= nth (Z.to_nat s) (heightCache_ c) 0 - heightBefore (heightCache_ c) s /\
    heightBefore (heightCache_ c) s + o + ah = contentHeight (heightCache_ c).
Proof.
  intros _ Hfalsy Hsorted Hrows Hne Hah Hover Hend c'.
  set (cache := heightCache_ c) in *.
  set (n := Z.of_nat (List.length cache)) in *.
  assert (Hn : 0 < n) by (unfold n; destruct cache; simpl; [done|lia]).
  assert (Hlast : nth (Z.to_nat (n - 1)) cache 0 = contentHeight cache).
  { unfold contentHeight. f_equal. unfold n. lia. }
  assert (Hscroll : scrollToEnd opt_index c =
            invalidate POSITION (set_startIndex_ NaN (set_endIndex_ (Num (n - 1)) c))).
  { unfold scrollToEnd. fold cache. cbn [JS.length JS.sub]. fold n.
    assert ((match opt_index with
             | Some v => if JS.truthy v then v else Num (n - 1)
             | None => Num (n - 1)
             end) = Num (n - 1)) as ->.
    { destruct opt_index as [v|]; [|done]. simpl in Hfalsy. by rewrite Hfalsy. }
    unfold endIndex.
    assert (JS.neq (endIndex_ c) (Num (n - 1)) = true) as ->; [|done].
    unfold JS.neq, JS.eq. destruct (endIndex_ c) as [|z]; [done|].
    destruct (Z.eqb_spec z (n - 1)); [congruence|done]. }
  subst c'. rewrite Hscroll.
  set (c1 := invalidate POSITION (set_startIndex_ NaN (set_endIndex_ (Num (n - 1)) c))).
  assert (Hn1 : 0 <= n - 1 < Z.of_nat (List.length cache)) by (unfold n in *; lia).
  assert (Hb : 0 <= ah <= nth (Z.to_nat (n - 1)) cache 0) by (rewrite Hlast; lia).
  destruct (flush_with_bottom cache (n - 1) ah Hsorted Hn1 Hb)
    as (s & Hidx & Hsr & Hrange & Hoff).
  assert (Hres : resolvePosition c1 =
            (EndAnchored,
             set_verticalOffset_
               (Num (nth (Z.to_nat (n - 1)) cache 0 - heightBefore cache s - ah))
               (set_startIndex_ (Num s) c1))).
  { rewrite (resolvePosition_end c1);
      [|done|apply (overflow_ge c1 ah); [done|done|exact (proj2 Hover)]|done|done].
    cbn zeta.
    change (heightCache_ c1) with cache. change (availableHeight_ c1) with (availableHeight_ c).
    change (endIndex_ c1) with (Num (n - 1)). rewrite Hah.
    rewrite getHeightByIndexes_in_range by lia.
    change (heightBefore cache 0) with 0. rewrite Z.sub_0_r. cbn [JS.lt].
    destruct (Z.ltb_spec (nth (Z.to_nat (n - 1)) cache 0) ah) as [|_]; [lia|].
    rewrite get_in_range by lia. cbn [JS.toNumber JS.sub].
    by rewrite Hidx, Hrange. }
  unfold recalculate. rewrite Hres. cbn [snd].
  split; [done|].
  exists s, (nth (Z.to_nat (n - 1)) cache 0 - heightBefore cache s - ah).
  split; [done|]. split; [done|]. rewrite Hlast in *. unfold n in *.
  split; [lia|]. split; lia.
Qed.

Lemma scrollToEnd_default_shows_end_witness :
  exactPixels anchoredAtOne /\
  endIndex_ anchoredAtOne
    <> Num (Z.of_nat (List.length (heightCache_ anchoredAtOne)) - 1) /\
  endIndex_ (recalculate (scrollToEnd (Some (Num 0)) anchoredAtOne)) = Num 4 /\
  startIndex_ (recalculate (scrollToEnd (Some (Num 0)) anchoredAtOne)) = Num 2 /\
  verticalOffset_ (recalculate (scrollToEnd (Some (Num 0)) anchoredAtOne)) = Num 5.
Proof.
  assert (Hsmall : exactPixels anchoredAtOne) by solve_small.
  split; [exact Hsmall|]. split; [discriminate|].
  destruct (scrollToEnd_default_shows_end anchoredAtOne (Some (Num 0)) 25
              Hsmall eq_refl sortedCache_five ltac:(discriminate) ltac:(discriminate)
              eq_refl ltac:(by vm_compute) ltac:(discriminate))
    as (H1 & _).
  split; [exact H1|]. split; reflexivity.
Defined.
